(** * Adaptive algorithm selection: performance tracking, switch policy,
      Q-value learner and per-period forecast cache

    A shallow embedding of the selection core of the repository:

    - [features/prediction/utils/prediction_utils.py]
        ([calculate_confidence_score]),
    - [features/prediction/algorithms/algorithm_switcher.py]
        ([AlgorithmSwitcher]),
    - [features/prediction/ml_models/reinforcement_learner.py]
        ([ReinforcementLearner.update_q_values], [select_algorithm]),
    - [features/prediction/models/predictor_model.py]
        ([PredictorModel.update_algorithm_performance],
         [PredictorModel.calculate_prediction]).

    Python [float] is IEEE-754 binary64 and is embedded as Rocq's primitive
    [float]; Python [int] is unbounded and is embedded as [Z].  Dictionaries
    keyed by algorithm number or by state string are [gmap]s, dictionaries
    whose iteration order matters are association lists, and objects
    mutated in place are threaded as explicit state. *)

From Stdlib Require Import ZArith Floats Uint63 String Ascii List Bool Lia.
From stdpp Require Import gmap strings list functions.

Set Warnings "-inexact-float".
#[local] Open Scope Z_scope.

(** ** Python values: exceptions, numbers, [min] and [max] *)

Module Py.

(** The exception classes the embedded functions can raise. *)
Inductive exn : Type :=
| KeyError
| IndexError
| ValueError
| ZeroDivisionError
| OverflowError.

Inductive result (A : Type) : Type :=
| Ok (a : A)
| Raise (e : exn).
Arguments Ok {A} a.
Arguments Raise {A} e.

Definition rbind {A B : Type} (r : result A) (k : A -> result B) : result B :=
  match r with
  | Ok a => k a
  | Raise e => Raise e
  end.

(** [int -> float] on the machine-word range, where the conversion is the
    primitive one (round to nearest, ties to even). *)
Definition float_of_small_int (z : Z) : float :=
  if z <? 0 then (- PrimFloat.of_uint63 (Uint63.of_Z (- z)))%float
  else PrimFloat.of_uint63 (Uint63.of_Z z).

(** [float(n)] as applied implicitly by [n * 0.05]: correctly rounded, and
    [OverflowError] when the integer is beyond the range of a double. *)
Definition float_of_int (z : Z) : result float :=
  if Z.abs z <? 2 ^ 63 then Ok (float_of_small_int z)
  else
    match binary_normalize prec emax z 0 false with
    | S754_infinity _ => Raise OverflowError
    | sf => Ok (SF2Prim sf)
    end.

(** [a / b] on two [int]s (true division): [ZeroDivisionError] on a zero
    divisor; when both operands are exactly representable the quotient of
    their conversions (which is correctly rounded); otherwise the
    correctly rounded exact quotient, [OverflowError] when it is beyond
    the range of a double. *)
Definition int_true_div (a b : Z) : result float :=
  if b =? 0 then Raise ZeroDivisionError
  else if (Z.abs a <=? 2 ^ 53) && (Z.abs b <=? 2 ^ 53)
  then Ok (float_of_small_int a / float_of_small_int b)%float
  else
    let '(q, e, l) := SFdiv_core_binary prec emax (Z.abs a) 0 (Z.abs b) 0 in
    match binary_round_aux prec emax (xorb (a <? 0) (b <? 0)) q e l with
    | S754_infinity _ => Raise OverflowError
    | sf => Ok (SF2Prim sf)
    end.

(** Builtin [min(a, b)] on floats: the first argument is kept unless the
    second compares strictly below it. *)
Definition min (a b : float) : float :=
  if (b <? a)%float then b else a.

(** Builtin [max(a, b)] on floats: the first argument is kept unless the
    second compares strictly above it. *)
Definition max (a b : float) : float :=
  if (a <? b)%float then b else a.

(** [max(xs)] over an iterable of floats; [ValueError] when it is empty. *)
Definition max_of (xs : list float) : result float :=
  match xs with
  | [] => Raise ValueError
  | x :: rest => Ok (fold_left max rest x)
  end.

(** [sum(xs)] over a list of ints. *)
Definition sum (xs : list Z) : Z := fold_left Z.add xs 0.

(** [len(xs)]. *)
Definition len {A : Type} (xs : list A) : Z := Z.of_nat (length xs).

(** An f-string, kept as its sequence of literal and formatted pieces. *)
Inductive piece : Type :=
| Lit (s : string)          (* literal text *)
| FmtInt (n : Z)            (* {n} *)
| Fmt2f (x : float)         (* {x:.2f} *)
| FmtPct2 (x : float).      (* {x:.2%} *)

Definition fstring : Type := list piece.

(** [needle in s] on strings. *)
Fixpoint contains (needle s : string) : bool :=
  String.prefix needle s ||
  match s with
  | EmptyString => false
  | String _ s' => contains needle s'
  end.

(** Whether some literal piece of the message contains [needle]. *)
Definition mentions (needle : string) (msg : fstring) : bool :=
  existsb (fun p => match p with Lit s => contains needle s | _ => false end) msg.

End Py.

Import Py.

#[global] Instance result_ret : MRet result := @Ok.
#[global] Instance result_bind : MBind result := fun A B k r => rbind r k.

(** ** Performance records and the confidence score *)

(** [switch_config] of [AlgorithmSwitcher.__init__]: the entries that the
    embedded functions read. *)
Module switch_config.
Definition max_recent_results : Z := 20.
Definition min_predictions_before_switch : Z := 5.
Definition max_consecutive_errors : Z := 3.
Definition min_confidence_score : float := 0.4.
Definition min_recent_success_rate : float := 0.4.
Definition exploration_probability : float := 0.2.
Definition exploration_threshold : Z := 10.
End switch_config.

(** The per-algorithm dictionary built by [PredictorModel.__init__]; its
    nine keys are always present (loading saved data only overwrites
    existing keys). *)
Record perf : Type := {
  total_predictions : Z;
  correct_predictions : Z;
  recent_results : list Z;
  consecutive_correct : Z;
  consecutive_wrong : Z;
  last_switch_time : Z;
  success_rate : float;
  recent_success_rate : float;
  confidence_score : float
}.

(** The record [__init__] installs for every (type, algorithm). *)
Definition initial_perf : perf := {|
  total_predictions := 0;
  correct_predictions := 0;
  recent_results := [];
  consecutive_correct := 0;
  consecutive_wrong := 0;
  last_switch_time := 0;
  success_rate := 0.5;
  recent_success_rate := 0.5;
  confidence_score := 0.5
|}.

(** [calculate_confidence_score(perf)], prediction_utils.py. *)
Definition calculate_confidence_score (p : perf) : result float :=
  let base_confidence :=
    (success_rate p * 0.4 + recent_success_rate p * 0.6)%float in
  cc ← float_of_int (consecutive_correct p);
  let correct_bonus := Py.min (cc * 0.05)%float 0.2%float in
  cw ← float_of_int (consecutive_wrong p);
  let wrong_penalty := Py.min (cw * 0.1)%float 0.3%float in
  ratio ← int_true_div (total_predictions p) 50;
  let experience_factor := (Py.min ratio 1 * 0.1)%float in
  let confidence :=
    (base_confidence + correct_bonus - wrong_penalty + experience_factor)%float in
  Ok (Py.max 0.1%float (Py.min 0.95%float confidence)).

(** ** In-place mutation: state with exceptions

    A Python method that mutates an object and may raise is a function from
    the object's state to its new state and a result: what was written
    before an exception stays written. *)

Definition action (S A : Type) : Type := S -> S * result A.

Definition act_ret {S A : Type} (a : A) : action S A := fun s => (s, Ok a).

Definition act_bind {S A B : Type} (m : action S A) (k : A -> action S B) :
  action S B :=
  fun s =>
    match m s with
    | (s', Ok a) => k a s'
    | (s', Raise e) => (s', Raise e)
    end.

#[global] Instance action_ret {S : Type} : MRet (action S) := @act_ret S.
#[global] Instance action_bind {S : Type} : MBind (action S) :=
  fun A B k m => act_bind m k.

Definition get {S : Type} : action S S := fun s => (s, Ok s).
Definition modify {S : Type} (f : S -> S) : action S unit := fun s => (f s, Ok tt).
Definition lift {S A : Type} (r : result A) : action S A := fun s => (s, r).

(** Field updates of a performance record ([perf['k'] = f(perf['k'])]). *)
Definition with_total_predictions (f : Z -> Z) (p : perf) : perf :=
  {| total_predictions := f (total_predictions p);
     correct_predictions := correct_predictions p;
     recent_results := recent_results p;
     consecutive_correct := consecutive_correct p;
     consecutive_wrong := consecutive_wrong p;
     last_switch_time := last_switch_time p;
     success_rate := success_rate p;
     recent_success_rate := recent_success_rate p;
     confidence_score := confidence_score p |}.

Definition with_correct_predictions (f : Z -> Z) (p : perf) : perf :=
  {| total_predictions := total_predictions p;
     correct_predictions := f (correct_predictions p);
     recent_results := recent_results p;
     consecutive_correct := consecutive_correct p;
     consecutive_wrong := consecutive_wrong p;
     last_switch_time := last_switch_time p;
     success_rate := success_rate p;
     recent_success_rate := recent_success_rate p;
     confidence_score := confidence_score p |}.

Definition with_recent_results (f : list Z -> list Z) (p : perf) : perf :=
  {| total_predictions := total_predictions p;
     correct_predictions := correct_predictions p;
     recent_results := f (recent_results p);
     consecutive_correct := consecutive_correct p;
     consecutive_wrong := consecutive_wrong p;
     last_switch_time := last_switch_time p;
     success_rate := success_rate p;
     recent_success_rate := recent_success_rate p;
     confidence_score := confidence_score p |}.

Definition with_consecutive_correct (f : Z -> Z) (p : perf) : perf :=
  {| total_predictions := total_predictions p;
     correct_predictions := correct_predictions p;
     recent_results := recent_results p;
     consecutive_correct := f (consecutive_correct p);
     consecutive_wrong := consecutive_wrong p;
     last_switch_time := last_switch_time p;
     success_rate := success_rate p;
     recent_success_rate := recent_success_rate p;
     confidence_score := confidence_score p |}.

Definition with_consecutive_wrong (f : Z -> Z) (p : perf) : perf :=
  {| total_predictions := total_predictions p;
     correct_predictions := correct_predictions p;
     recent_results := recent_results p;
     consecutive_correct := consecutive_correct p;
     consecutive_wrong := f (consecutive_wrong p);
     last_switch_time := last_switch_time p;
     success_rate := success_rate p;
     recent_success_rate := recent_success_rate p;
     confidence_score := confidence_score p |}.

Definition with_last_switch_time (v : Z) (p : perf) : perf :=
  {| total_predictions := total_predictions p;
     correct_predictions := correct_predictions p;
     recent_results := recent_results p;
     consecutive_correct := consecutive_correct p;
     consecutive_wrong := consecutive_wrong p;
     last_switch_time := v;
     success_rate := success_rate p;
     recent_success_rate := recent_success_rate p;
     confidence_score := confidence_score p |}.

Definition with_success_rate (v : float) (p : perf) : perf :=
  {| total_predictions := total_predictions p;
     correct_predictions := correct_predictions p;
     recent_results := recent_results p;
     consecutive_correct := consecutive_correct p;
     consecutive_wrong := consecutive_wrong p;
     last_switch_time := last_switch_time p;
     success_rate := v;
     recent_success_rate := recent_success_rate p;
     confidence_score := confidence_score p |}.

Definition with_recent_success_rate (v : float) (p : perf) : perf :=
  {| total_predictions := total_predictions p;
     correct_predictions := correct_predictions p;
     recent_results := recent_results p;
     consecutive_correct := consecutive_correct p;
     consecutive_wrong := consecutive_wrong p;
     last_switch_time := last_switch_time p;
     success_rate := success_rate p;
     recent_success_rate := v;
     confidence_score := confidence_score p |}.

Definition with_confidence_score (v : float) (p : perf) : perf :=
  {| total_predictions := total_predictions p;
     correct_predictions := correct_predictions p;
     recent_results := recent_results p;
     consecutive_correct := consecutive_correct p;
     consecutive_wrong := consecutive_wrong p;
     last_switch_time := last_switch_time p;
     success_rate := success_rate p;
     recent_success_rate := recent_success_rate p;
     confidence_score := v |}.

(** [1 if is_correct else 0]. *)
Definition outcome_bit (is_correct : bool) : Z := if is_correct then 1 else 0.

(** [l.pop(0)] on a non-empty list. *)
Definition pop_front {A : Type} (l : list A) : list A := tl l.

(** The body of [PredictorModel.update_algorithm_performance] on the record
    [perf = self.algorithm_performance[pred_type][algo_num]] it aliases
    (predictor_model.py, lines 197-221). *)
Definition update_record (is_correct : bool) : action perf unit :=
  modify (with_total_predictions (fun n => n + 1));;
  (if is_correct then
     modify (with_correct_predictions (fun n => n + 1));;
     modify (with_consecutive_correct (fun n => n + 1));;
     modify (with_consecutive_wrong (fun _ => 0))
   else
     modify (with_consecutive_wrong (fun n => n + 1));;
     modify (with_consecutive_correct (fun _ => 0)));;
  modify (with_recent_results (fun l => l ++ [outcome_bit is_correct]));;
  p ← get;
  (if len (recent_results p) >? switch_config.max_recent_results
   then modify (with_recent_results pop_front)
   else mret tt);;
  p ← get;
  sr ← lift (int_true_div (correct_predictions p) (total_predictions p));
  modify (with_success_rate sr);;
  p ← get;
  let recent_correct := Py.sum (recent_results p) in
  let recent_total := len (recent_results p) in
  rsr ← (if recent_total >? 0
         then lift (int_true_div recent_correct recent_total)
         else mret 0.5%float);
  modify (with_recent_success_rate rsr);;
  p ← get;
  c ← lift (calculate_confidence_score p);
  modify (with_confidence_score c).

(** ** The rule-based switcher, [AlgorithmSwitcher] *)

(** The four prediction types that key every per-type dictionary. *)
Inductive pred_type : Type :=
| single_double
| big_small
| kill_group
| double_group.

#[global] Instance pred_type_eq_dec : EqDecision pred_type.
Proof. solve_decision. Defined.

(** One entry of [algorithm_switch_history]. *)
Record switch_record : Type := {
  time : Z;
  from_algo : Z;
  to_algo : Z;
  reason : fstring;
  old_algo_success_rate : float;
  old_algo_confidence : float;
  new_algo_success_rate : float;
  new_algo_confidence : float
}.

(** The attributes of an [AlgorithmSwitcher] that the embedded methods read
    or write.  [performance_memory], [dynamic_weights] and
    [last_persistence_time] are only used by the weighting helpers and by
    the periodic persistence log and are left out. *)
Record AlgorithmSwitcher : Type := {
  force_exploration : bool;
  forced_exploration_done : pred_type -> bool;
  algorithm_switch_history : pred_type -> list switch_record;
  algorithm_trends : pred_type -> gmap Z (list float);
  rotation_counter : pred_type -> Z
}.

Definition with_algorithm_trends
    (f : (pred_type -> gmap Z (list float)) -> pred_type -> gmap Z (list float))
    (sw : AlgorithmSwitcher) : AlgorithmSwitcher :=
  {| force_exploration := force_exploration sw;
     forced_exploration_done := forced_exploration_done sw;
     algorithm_switch_history := algorithm_switch_history sw;
     algorithm_trends := f (algorithm_trends sw);
     rotation_counter := rotation_counter sw |}.

Definition with_forced_exploration_done (f : pred_type -> bool)
    (sw : AlgorithmSwitcher) : AlgorithmSwitcher :=
  {| force_exploration := force_exploration sw;
     forced_exploration_done := f;
     algorithm_switch_history := algorithm_switch_history sw;
     algorithm_trends := algorithm_trends sw;
     rotation_counter := rotation_counter sw |}.

(** [AlgorithmSwitcher.__init__]. *)
Definition new_AlgorithmSwitcher : AlgorithmSwitcher := {|
  force_exploration := false;
  forced_exploration_done := fun _ => false;
  algorithm_switch_history := fun _ => [];
  algorithm_trends := fun _ => {[ 1 := []; 2 := []; 3 := [] ]};
  rotation_counter := fun _ => 0
|}.

(** [sorted(l, key=key, reverse=True)]: the list is reversed, sorted
    stably in ascending key order by insertion, and reversed again.  On
    lists of at most two elements, and on longer lists whose keys are not
    NaN, this is the order CPython's list sort produces. *)
Fixpoint insert_by (key : Z -> float) (x : Z) (l : list Z) : list Z :=
  match l with
  | [] => [x]
  | y :: l' =>
      if (key x <? key y)%float then x :: y :: l'
      else y :: insert_by key x l'
  end.

Definition sorted_reverse (key : Z -> float) (l : list Z) : list Z :=
  rev (fold_left (fun acc x => insert_by key x acc) (rev l) []).

(** The key of the sort in [_select_next_algorithm]:
    [perf_data.get(a, {}).get('confidence_score', 0)]. *)
Definition confidence_of (perf_data : gmap Z perf) (a : Z) : float :=
  from_option confidence_score 0%float (perf_data !! a).

(** What the handler of the [try] in [_select_next_algorithm] returns:
    [current_algo % 3 + 1]. *)
Definition select_next_fallback (current_algo : Z) : Z := current_algo mod 3 + 1.

(** [AlgorithmSwitcher._select_next_algorithm] (lines 408-443): the other
    algorithm with the highest confidence score. *)
Definition _select_next_algorithm (pt : pred_type) (current_algo : Z)
    (perf_data : gmap Z perf) : Z :=
  let body : result Z :=
    let all_algos := [1; 2; 3] in
    let other_algos := filter (fun algo => algo ≠ current_algo) all_algos in
    if bool_decide (other_algos = []) then Ok current_algo
    else
      let sorted_algos := sorted_reverse (confidence_of perf_data) other_algos in
      match sorted_algos with
      | next_algo :: _ => Ok next_algo
      | [] => Raise IndexError
      end in
  match body with
  | Ok next_algo => next_algo
  | Raise _ => select_next_fallback current_algo
  end.

(** [all(trend[i] < trend[i-1] for i in range(1, len(trend)))]. *)
Fixpoint all_declining (trend : list float) : bool :=
  match trend with
  | [] => true
  | x :: rest =>
      match rest with
      | [] => true
      | y :: _ => (y <? x)%float && all_declining rest
      end
  end.

(** [AlgorithmSwitcher.should_switch_algorithm] (lines 89-143).  [draw] is
    the value [random.random()] returns when the exploration rule is
    reached.  No operation of the body raises on records of this type, so
    the handler ("检查错误") is not reached. *)
Definition should_switch_algorithm (self : AlgorithmSwitcher) (pt : pred_type)
    (current_algo : Z) (perf_data : gmap Z perf) (draw : float) : Z * fstring :=
  let current_perf := perf_data !! current_algo in
  if from_option total_predictions 0 current_perf
       <? switch_config.min_predictions_before_switch
  then (current_algo, [Lit "数据不足"])
  else
    let consecutive_wrong := from_option consecutive_wrong 0 current_perf in
    if consecutive_wrong >=? switch_config.max_consecutive_errors
    then (_select_next_algorithm pt current_algo perf_data,
          [Lit "连续错误次数过多: "; FmtInt consecutive_wrong; Lit "次"])
    else
      let confidence_score := from_option confidence_score 0.5%float current_perf in
      if (confidence_score <? switch_config.min_confidence_score)%float
      then (_select_next_algorithm pt current_algo perf_data,
            [Lit "置信度过低: "; Fmt2f confidence_score])
      else
        let recent_success_rate :=
          from_option recent_success_rate 0.5%float current_perf in
        if (recent_success_rate <? switch_config.min_recent_success_rate)%float
        then (_select_next_algorithm pt current_algo perf_data,
              [Lit "最近成功率低: "; FmtPct2 recent_success_rate])
        else
          let trend := default [] (algorithm_trends self pt !! current_algo) in
          if (len trend >=? 3) && all_declining trend
          then (_select_next_algorithm pt current_algo perf_data,
                [Lit "性能持续下降"])
          else
            let explore_prob := switch_config.exploration_probability in
            if force_exploration self
               || ((draw <? explore_prob)%float
                   && (from_option total_predictions 0 current_perf
                         >? switch_config.exploration_threshold))
            then (_select_next_algorithm pt current_algo perf_data,
                  [Lit "算法探索"])
            else (current_algo, [Lit "算法运行正常"]).

(** [AlgorithmSwitcher.update_algorithm_trends] (lines 244-251): the trend
    list of the algorithm is extended and cut to its last 20 values; an
    algorithm number without a trend list is a [KeyError]. *)
Definition update_algorithm_trends (pt : pred_type) (algo_num : Z)
    (performance_value : float) : action AlgorithmSwitcher unit :=
  self ← get;
  match algorithm_trends self pt !! algo_num with
  | None => lift (Raise KeyError)
  | Some trend =>
      let trend := trend ++ [performance_value] in
      let trend := if len trend >? 20 then pop_front trend else trend in
      modify (with_algorithm_trends (fun tr => <[pt := <[algo_num := trend]> (tr pt)]> tr))
  end.

(** [AlgorithmSwitcher.reset_forced_exploration]. *)
Definition reset_forced_exploration (self : AlgorithmSwitcher) : AlgorithmSwitcher :=
  with_forced_exploration_done (fun _ => false) self.

Definition with_rotation_counter (f : pred_type -> Z) (sw : AlgorithmSwitcher) :
  AlgorithmSwitcher :=
  {| force_exploration := force_exploration sw;
     forced_exploration_done := forced_exploration_done sw;
     algorithm_switch_history := algorithm_switch_history sw;
     algorithm_trends := algorithm_trends sw;
     rotation_counter := f |}.

Definition with_algorithm_switch_history (f : pred_type -> list switch_record)
    (sw : AlgorithmSwitcher) : AlgorithmSwitcher :=
  {| force_exploration := force_exploration sw;
     forced_exploration_done := forced_exploration_done sw;
     algorithm_switch_history := f;
     algorithm_trends := algorithm_trends sw;
     rotation_counter := rotation_counter sw |}.

(** [algorithm_performance[pred_type][algo]] inside the switcher's public
    selection; a missing algorithm is a [KeyError]. *)
Definition perf_at (perf_data : gmap Z perf) (algo : Z) : result perf :=
  match perf_data !! algo with
  | Some p => Ok p
  | None => Raise KeyError
  end.

(** [AlgorithmSwitcher.select_next_algorithm] (lines 315-406), the public
    selection that keeps the switch history.  Its state is the switcher and
    [algorithm_performance[pred_type]].  The choice made by lines 320-368
    (trend regression, weighted random choice and the wording of the
    reason), which writes nothing, enters as [chosen], an exception if it
    raised; [now] is [datetime.now()] and [forced_pick] the value of
    [random.choice([2, 3])]. *)
Definition select_next_algorithm (pt : pred_type) (current_algo : Z)
    (chosen : result (Z * fstring)) (now : Z) (forced_pick : Z) :
    action (AlgorithmSwitcher * gmap Z perf) (Z * switch_record) :=
  modify (fun '(sw, pd) =>
            (with_rotation_counter (<[pt := 0]> (rotation_counter sw)) sw, pd));;
  '(_, pd) ← get;
  current ← lift (perf_at pd current_algo);
  '(next_algo, switch_reason) ← lift chosen;
  next ← lift (perf_at pd next_algo);
  let pd := <[next_algo := with_last_switch_time (total_predictions current) next]> pd in
  modify (fun '(sw, _) => (sw, pd));;
  current ← lift (perf_at pd current_algo);
  next ← lift (perf_at pd next_algo);
  let record :=
    {| time := now;
       from_algo := current_algo;
       to_algo := next_algo;
       reason := switch_reason;
       old_algo_success_rate := success_rate current;
       old_algo_confidence := confidence_score current;
       new_algo_success_rate := success_rate next;
       new_algo_confidence := confidence_score next |} in
  modify (fun '(sw, pd) =>
            let history := algorithm_switch_history sw pt ++ [record] in
            let history := if len history >? 50 then pop_front history else history in
            (with_algorithm_switch_history
               (<[pt := history]> (algorithm_switch_history sw)) sw, pd));;
  '(sw, _) ← get;
  if bool_decide (current_algo = 1)
     && (total_predictions current >? 10)
     && negb (forced_exploration_done sw pt)
  then
    modify (fun '(sw, pd) =>
              (with_forced_exploration_done
                 (<[pt := true]> (forced_exploration_done sw)) sw, pd));;
    mret (forced_pick, record)
  else mret (next_algo, record).

(** ** The predictor, [PredictorModel] *)

Record PredictorModel : Type := {
  current_algorithms : pred_type -> Z;
  algorithm_performance : pred_type -> gmap Z perf;
  last_used_algorithms : pred_type -> gmap Z Z;
  (* [None] until [calculate_prediction] creates the attribute *)
  switch_counters : option (pred_type -> Z);
  algorithm_switcher : AlgorithmSwitcher
}.

Definition with_current_algorithms (f : pred_type -> Z) (m : PredictorModel) :
  PredictorModel :=
  {| current_algorithms := f;
     algorithm_performance := algorithm_performance m;
     last_used_algorithms := last_used_algorithms m;
     switch_counters := switch_counters m;
     algorithm_switcher := algorithm_switcher m |}.

Definition with_algorithm_performance (f : pred_type -> gmap Z perf)
    (m : PredictorModel) : PredictorModel :=
  {| current_algorithms := current_algorithms m;
     algorithm_performance := f;
     last_used_algorithms := last_used_algorithms m;
     switch_counters := switch_counters m;
     algorithm_switcher := algorithm_switcher m |}.

Definition with_last_used_algorithms (f : pred_type -> gmap Z Z)
    (m : PredictorModel) : PredictorModel :=
  {| current_algorithms := current_algorithms m;
     algorithm_performance := algorithm_performance m;
     last_used_algorithms := f;
     switch_counters := switch_counters m;
     algorithm_switcher := algorithm_switcher m |}.

Definition with_switch_counters (f : pred_type -> Z) (m : PredictorModel) :
  PredictorModel :=
  {| current_algorithms := current_algorithms m;
     algorithm_performance := algorithm_performance m;
     last_used_algorithms := last_used_algorithms m;
     switch_counters := Some f;
     algorithm_switcher := algorithm_switcher m |}.

Definition with_algorithm_switcher (sw : AlgorithmSwitcher) (m : PredictorModel) :
  PredictorModel :=
  {| current_algorithms := current_algorithms m;
     algorithm_performance := algorithm_performance m;
     last_used_algorithms := last_used_algorithms m;
     switch_counters := switch_counters m;
     algorithm_switcher := sw |}.

(** [PredictorModel.__init__] when the database holds no saved performance. *)
Definition new_PredictorModel : PredictorModel := {|
  current_algorithms := fun _ => 1;
  algorithm_performance :=
    fun _ => {[ 1 := initial_perf; 2 := initial_perf; 3 := initial_perf ]};
  last_used_algorithms := fun _ => ∅;
  switch_counters := None;
  algorithm_switcher := new_AlgorithmSwitcher
|}.

(** [PredictorModel.update_algorithm_performance] (lines 193-234).  The
    record is updated in place, then its recent success rate is appended to
    the trend of the algorithm.  The closing [save_algorithm_performance]
    only writes to the database. *)
Definition update_algorithm_performance (pt : pred_type) (algo_num : Z)
    (is_correct : bool) : action PredictorModel unit :=
  self ← get;
  match algorithm_performance self pt !! algo_num with
  | None => lift (Raise KeyError)
  | Some p =>
      let '(p', r) := update_record is_correct p in
      modify (with_algorithm_performance
                (<[pt := <[algo_num := p']> (algorithm_performance self pt)]>
                   (algorithm_performance self)));;
      lift r;;
      self ← get;
      let '(sw', r') :=
        update_algorithm_trends pt algo_num (recent_success_rate p')
          (algorithm_switcher self) in
      modify (with_algorithm_switcher sw');;
      lift r'
  end.

(** Calls of [update_algorithm_performance] one after the other on the same
    (type, algorithm); an exception ends the sequence. *)
Fixpoint update_all (pt : pred_type) (algo_num : Z) (outcomes : list bool) :
  action PredictorModel unit :=
  match outcomes with
  | [] => mret tt
  | o :: rest =>
      update_algorithm_performance pt algo_num o;;
      update_all pt algo_num rest
  end.

(** *** The forecast with its per-period cache *)

(** A row of the [prediction_cache] table as [calculate_prediction] reads
    it: column 2 ([prediction]) and column 4 ([algorithm_used], the JSON
    text of [{prediction_type: algorithm}]). *)
Record cache_row : Type := {
  cached_prediction : string;
  cached_algorithm_used : pred_type * Z
}.

(** The [switch_info] dictionary of a result. *)
Record switch_info_t : Type := {
  info_from_algo : Z;
  info_to_algo : Z;
  info_reason : fstring
}.

(** A key of a result dictionary: absent, bound to [None], or bound to a
    value. *)
Inductive entry (A : Type) : Type :=
| KeyAbsent
| ValueNone
| Value (a : A).
Arguments KeyAbsent {A}.
Arguments ValueNone {A}.
Arguments Value {A} a.

(** The dictionary [calculate_prediction] returns. *)
Record prediction_result : Type := {
  qihao : Z;
  prediction : string;
  prediction_type : pred_type;
  algorithm_used : pred_type * Z;
  switch_info : entry switch_info_t
}.

(** The predictor together with its collaborators: the cache table of the
    database (unique on period and type), taken to store and return its
    rows reliably, and the log of the calls made to the forecasting
    functions.  A period number, a decimal string in the source, is kept as
    the integer it denotes. *)
Record system : Type := {
  predictor : PredictorModel;
  prediction_cache : pred_type -> gmap Z cache_row;
  forecast_calls : list (pred_type * Z)
}.

Definition with_predictor (m : PredictorModel) (s : system) : system :=
  {| predictor := m;
     prediction_cache := prediction_cache s;
     forecast_calls := forecast_calls s |}.

(** [db_manager.get_cached_prediction(qihao, prediction_type)]. *)
Definition get_cached_prediction (s : system) (q : Z) (pt : pred_type) :
  option cache_row :=
  prediction_cache s pt !! q.

(** [db_manager.cache_prediction(qihao, prediction_type, data)]: insert, or
    update of the existing row. *)
Definition cache_prediction (q : Z) (pt : pred_type) (row : cache_row)
    (s : system) : system :=
  {| predictor := predictor s;
     prediction_cache := <[pt := <[q := row]> (prediction_cache s pt)]> (prediction_cache s);
     forecast_calls := forecast_calls s |}.

Section Forecast.

(** A row of the draw history; [qihao_of r] is [int(r[1])], which raises
    on a malformed period number. *)
Variable lottery_record : Type.
Variable qihao_of : lottery_record -> result Z.

(** The forecasting functions behind [PredictorModel.predict]: the text
    they return for a type, a history and an algorithm number, [None]
    when they fail. *)
Variable forecast : pred_type -> list lottery_record -> Z -> option string.

(** [PredictorModel.predict(pred_type, records)]: calls the forecasting
    function of the type with the current algorithm. *)
Definition predict (pt : pred_type) (records : list lottery_record)
    (s : system) : system * option string :=
  let current_algo := current_algorithms (predictor s) pt in
  ({| predictor := predictor s;
      prediction_cache := prediction_cache s;
      forecast_calls := forecast_calls s ++ [(pt, current_algo)] |},
   forecast pt records current_algo).

(** [PredictorModel.calculate_prediction(records, prediction_type)]
    (lines 236-351).  [draw] is the value of [random.random()] if the
    switch decision reaches its exploration rule.  The result is [None]
    where the method returns [None]. *)
Definition calculate_prediction (records : list lottery_record)
    (pt : pred_type) (draw : float) (s : system) :
    system * option prediction_result :=
  match records with
  | [] => (s, None)
  | latest :: _ =>
      match qihao_of latest with
      | Raise _ => (s, None)
      | Ok latest_qihao =>
          let next_qihao := latest_qihao + 1 in
          match get_cached_prediction s next_qihao pt with
          | Some cached =>
              (s, Some {| qihao := next_qihao;
                          prediction := cached_prediction cached;
                          prediction_type := pt;
                          algorithm_used := cached_algorithm_used cached;
                          switch_info := ValueNone |})
          | None =>
              let self := predictor s in
              let counters := default (fun _ => 0) (switch_counters self) in
              let counters := <[pt := counters pt + 1]> counters in
              let self := with_switch_counters counters self in
              let current_algo := current_algorithms self pt in
              let '(self, current_algo, info) :=
                if bool_decide (pt = big_small) then
                  (with_current_algorithms (<[pt := 1]> (current_algorithms self)) self,
                   1, None)
                else
                  let self :=
                    if counters pt >=? 100 then
                      with_switch_counters (<[pt := 0]> counters)
                        (with_algorithm_switcher
                           (reset_forced_exploration (algorithm_switcher self)) self)
                    else self in
                  let '(new_algo, switch_reason) :=
                    should_switch_algorithm (algorithm_switcher self) pt
                      current_algo (algorithm_performance self pt) draw in
                  if bool_decide (new_algo ≠ current_algo) then
                    (with_current_algorithms
                       (<[pt := new_algo]> (current_algorithms self)) self,
                     new_algo,
                     Some {| info_from_algo := current_algo;
                             info_to_algo := new_algo;
                             info_reason := switch_reason |})
                  else (self, current_algo, None) in
              let self :=
                with_last_used_algorithms
                  (<[pt := <[next_qihao := current_algo]> (last_used_algorithms self pt)]>
                     (last_used_algorithms self)) self in
              let '(s, prediction_content) := predict pt records (with_predictor self s) in
              match prediction_content with
              | None => (s, None)
              | Some content =>
                  if bool_decide (content = EmptyString) then (s, None)
                  else
                    let prediction_result :=
                      {| qihao := next_qihao;
                         prediction := content;
                         prediction_type := pt;
                         algorithm_used := (pt, current_algo);
                         switch_info :=
                           match info with
                           | Some i => Value i
                           | None => KeyAbsent
                           end |} in
                    (cache_prediction next_qihao pt
                       {| cached_prediction := content;
                          cached_algorithm_used := (pt, current_algo) |} s,
                     Some prediction_result)
              end
          end
      end
  end.

End Forecast.

(** ** The Q-value learner, [ReinforcementLearner] *)

(** A row of the Q-table: a dictionary from algorithm number to value, in
    insertion order (the order [values()] iterates in). *)
Definition q_row : Type := list (Z * float).

(** [row.get(k)]. *)
Fixpoint row_get (k : Z) (row : q_row) : option float :=
  match row with
  | [] => None
  | (k', v) :: rest => if bool_decide (k' = k) then Some v else row_get k rest
  end.

(** [row[k] = v]: the value of an existing key is replaced in place, a new
    key is appended. *)
Fixpoint row_set (k : Z) (v : float) (row : q_row) : q_row :=
  match row with
  | [] => [(k, v)]
  | (k', v') :: rest =>
      if bool_decide (k' = k) then (k, v) :: rest
      else (k', v') :: row_set k v rest
  end.

(** [row.values()]. *)
Definition row_values (row : q_row) : list float := map snd row.

(** [{1: 0.5, 2: 0.5, 3: 0.5}]. *)
Definition fresh_row : q_row := [(1, 0.5%float); (2, 0.5%float); (3, 0.5%float)].

Record ReinforcementLearner : Type := {
  learning_rate : float;
  discount_factor : float;
  exploration_rate : float;
  q_table : gmap string q_row
}.

Definition with_q_table (q : gmap string q_row) (self : ReinforcementLearner) :
  ReinforcementLearner :=
  {| learning_rate := learning_rate self;
     discount_factor := discount_factor self;
     exploration_rate := exploration_rate self;
     q_table := q |}.

(** [ReinforcementLearner.__init__] without a saved model. *)
Definition new_ReinforcementLearner : ReinforcementLearner := {|
  learning_rate := 0.05;
  discount_factor := 0.95;
  exploration_rate := 0.2;
  q_table := ∅
|}.

(** [if state not in self.q_table: self.q_table[state] = {1: 0.5, ...}]. *)
Definition ensure_row (state : string) (q : gmap string q_row) : gmap string q_row :=
  match q !! state with
  | Some _ => q
  | None => <[state := fresh_row]> q
  end.

(** [self.q_table[state]]. *)
Definition q_table_row (q : gmap string q_row) (state : string) : result q_row :=
  match q !! state with
  | Some row => Ok row
  | None => Raise KeyError
  end.

(** [ReinforcementLearner.update_q_values] (lines 159-193).  An exception
    of the body is logged by the handler and the table stays as it was when
    the exception was raised.  The random [save_model] at the end writes the
    model file only. *)
Definition update_q_values (state : string) (action : Z) (reward : float)
    (next_state : string) (self : ReinforcementLearner) : ReinforcementLearner :=
  let q := ensure_row state (q_table self) in
  let q := ensure_row next_state q in
  let body : result (gmap string q_row) :=
    row ← q_table_row q state;
    let current_q := default 0.5%float (row_get action row) in
    next_row ← q_table_row q next_state;
    max_next_q ← max_of (row_values next_row);
    let new_q :=
      (current_q
       + learning_rate self * (reward + discount_factor self * max_next_q - current_q))%float in
    row ← q_table_row q state;
    Ok (<[state := row_set action new_q row]> q) in
  match body with
  | Ok q' => with_q_table q' self
  | Raise _ => with_q_table q self
  end.

(** [ReinforcementLearner.select_algorithm] (lines 134-157).  [draw] is the
    value of [random.random()] and [pick] the index [random.choice] takes. *)
Definition select_algorithm (state : string) (available_algorithms : list Z)
    (draw : float) (pick : nat) :
    action ReinforcementLearner Z :=
  self ← get;
  if (draw <? exploration_rate self)%float then
    match available_algorithms !! pick with
    | Some a => mret a
    | None => lift (Raise IndexError)
    end
  else
    (match q_table self !! state with
     | Some _ => mret tt
     | None =>
         modify (with_q_table
                   (<[state := fold_left (fun row algo => row_set algo 0.5%float row)
                                 available_algorithms []]> (q_table self)))
     end);;
    self ← get;
    state_q_values ← lift (q_table_row (q_table self) state);
    match state_q_values with
    | [] => lift (Raise ValueError)
    | first :: rest =>
        mret (fst (fold_left
                     (fun best item => if (snd best <? snd item)%float then item else best)
                     rest first))
    end.


(** ** The specification's formulas *)

(** [clamp(x, lo, hi)] as the specification uses it: [x] cut to the
    interval from [lo] to [hi]. *)
Definition clamp (x lo hi : float) : float :=
  if (x <? lo)%float then lo
  else if (hi <? x)%float then hi
  else x.

(** The specification's confidence before clamping,
    [success_rate*0.4 + recent_success_rate*0.6 + min(consecutive_correct*0.05, 0.2)
     - min(consecutive_wrong*0.1, 0.3) + min(total_predictions/50, 1)*0.1],
    on the float values of the three counts. *)
Definition spec_confidence_sum (success recent correct_run wrong_run total : float) :
  float :=
  (success * 0.4 + recent * 0.6 + Py.min (correct_run * 0.05) 0.2
   - Py.min (wrong_run * 0.1) 0.3 + Py.min (total / 50) 1 * 0.1)%float.

Definition spec_confidence_sum_of (p : perf) : float :=
  spec_confidence_sum (success_rate p) (recent_success_rate p)
    (float_of_small_int (consecutive_correct p))
    (float_of_small_int (consecutive_wrong p))
    (float_of_small_int (total_predictions p)).

(** "Three points in a row, each lower than the one before it, at the end
    of the series", and the same for four points (three declines). *)
Definition ends_with_declining_run (n : nat) (trend : list float) : Prop :=
  exists prefix run,
    trend = prefix ++ run /\ length run = n /\ all_declining run = true.

(** The entry [Q[state][a]] of a Q-table, if it is there. *)
Definition q_value (q : gmap string q_row) (state : string) (a : Z) : option float :=
  q !! state ≫= row_get a.

(** Every row of the table has an entry. *)
Definition rows_nonempty (q : gmap string q_row) : Prop :=
  forall (state : string) (row : q_row), q !! state = Some row -> row <> [].

(** What a result looks like when it is read back from the cache. *)
Definition as_cached (r : prediction_result) : prediction_result :=
  {| qihao := qihao r;
     prediction := prediction r;
     prediction_type := prediction_type r;
     algorithm_used := algorithm_used r;
     switch_info := ValueNone |}.

(** ** Vocabulary of the proofs *)

(** The record after [update_record], whether or not it raised: the counts
    and the recent results are written before anything can raise. *)
Definition counted (is_correct : bool) (p : perf) : perf :=
  let p := with_total_predictions (fun n => n + 1) p in
  let p :=
    if is_correct then
      with_consecutive_wrong (fun _ => 0)
        (with_consecutive_correct (fun n => n + 1)
           (with_correct_predictions (fun n => n + 1) p))
    else
      with_consecutive_correct (fun _ => 0)
        (with_consecutive_wrong (fun n => n + 1) p) in
  let p := with_recent_results (fun l => l ++ [outcome_bit is_correct]) p in
  if len (recent_results p) >? switch_config.max_recent_results
  then with_recent_results pop_front p
  else p.

Ltac run_action :=
  unfold mbind, action_bind, act_bind, mret, action_ret, act_ret,
    modify, get, lift; simpl.

(** Records on which [update_record] cannot raise: counts of a run that is
    shorter than 2^53 calls, and a window of at most 20 bits. *)
Definition sane (p : perf) : Prop :=
  0 <= correct_predictions p <= total_predictions p
  /\ total_predictions p < 2 ^ 53 - 1
  /\ 0 <= consecutive_correct p <= total_predictions p
  /\ 0 <= consecutive_wrong p <= total_predictions p
  /\ Forall (fun x => 0 <= x <= 1) (recent_results p)
  /\ (length (recent_results p) <= 20)%nat.

(** The second half of [update_record]: the three rates are recomputed from
    the counts. *)
Definition rate_record : action perf unit :=
  p ← get;
  sr ← lift (int_true_div (correct_predictions p) (total_predictions p));
  modify (with_success_rate sr);;
  p ← get;
  let recent_correct := Py.sum (recent_results p) in
  let recent_total := len (recent_results p) in
  rsr ← (if recent_total >? 0
         then lift (int_true_div recent_correct recent_total)
         else mret 0.5%float);
  modify (with_recent_success_rate rsr);;
  p ← get;
  c ← lift (calculate_confidence_score p);
  modify (with_confidence_score c).

(** Its outcome when nothing raises. *)
Definition rated (p : perf) : perf :=
  let p :=
    with_success_rate
      (float_of_small_int (correct_predictions p)
       / float_of_small_int (total_predictions p))%float p in
  let p :=
    with_recent_success_rate
      (float_of_small_int (Py.sum (recent_results p))
       / float_of_small_int (len (recent_results p)))%float p in
  with_confidence_score (Py.max 0.1 (Py.min 0.95 (spec_confidence_sum_of p))) p.

(** The last [n] elements of a list. *)
Definition keep_last {A : Type} (n : nat) (l : list A) : list A :=
  drop (length l - n) l.

Ltac split_ifs :=
  repeat match goal with
    | |- context [if ?b then _ else _] => destruct b eqn:?; simpl
    end.

(** ** Sample data *)

(** The record of the low-confidence scenario. *)
Definition sample_perf : perf := {|
  total_predictions := 10;
  correct_predictions := 2;
  recent_results := [0; 0; 0; 0; 1];
  consecutive_correct := 0;
  consecutive_wrong := 3;
  last_switch_time := 0;
  success_rate := 0.2;
  recent_success_rate := 0.2;
  confidence_score := 0.1
|}.

(** Performance data in which algorithm 1 has that record. *)
Definition sample_perf_data : gmap Z perf :=
  {[ 1 := sample_perf; 2 := initial_perf; 3 := sample_perf ]}.

(** A record as it is loaded from the database when the process starts:
    ten predictions, the first one wrong. *)
Definition loaded_perf : perf := {|
  total_predictions := 10;
  correct_predictions := 9;
  recent_results := [0; 1; 1; 1; 1; 1; 1; 1; 1; 1];
  consecutive_correct := 9;
  consecutive_wrong := 0;
  last_switch_time := 0;
  success_rate := 0.9;
  recent_success_rate := 0.9;
  confidence_score := 0.95
|}.

(** The model after a start that loaded [loaded_perf] for algorithm 1 of
    the odd/even type: the trend lists are empty. *)
Definition restarted_model : PredictorModel :=
  with_algorithm_performance
    (<[single_double := <[1 := loaded_perf]> (algorithm_performance new_PredictorModel single_double)]>
       (algorithm_performance new_PredictorModel))
    new_PredictorModel.

(** One correct and two wrong outcomes after that start: the trend of
    algorithm 1 is 10/11, 10/12, 10/13. *)
Definition declining_model : PredictorModel :=
  fst (update_all single_double 1 [true; false; false] restarted_model).

(** Four correct and two wrong outcomes on a new model: the trend of
    algorithm 1 is 1, 1, 1, 1, 4/5, 4/6. *)
Definition late_decline_model : PredictorModel :=
  fst (update_all single_double 1 [true; true; true; true; false; false]
         new_PredictorModel).

(** A switcher whose trend for algorithm 1 rises once and then declines
    three times in a row. *)
Definition rise_then_decline_switcher : AlgorithmSwitcher :=
  with_algorithm_trends
    (fun tr => <[single_double := <[1 := [0.5; 0.9; 0.8; 0.7; 0.6]%float]> (tr single_double)]> tr)
    new_AlgorithmSwitcher.

Definition loaded_perf_data : gmap Z perf :=
  {[ 1 := loaded_perf; 2 := initial_perf; 3 := initial_perf ]}.

(** The record and the trend of algorithm 1 in [declining_model]. *)
Definition declining_perf : perf :=
  default initial_perf (algorithm_performance declining_model single_double !! 1).

Definition declining_trend : list float :=
  default [] (algorithm_trends (algorithm_switcher declining_model) single_double !! 1).

(** A history of draws reduced to its period numbers and a forecasting
    function that always answers. *)
Definition sample_forecast (pt : pred_type) (records : list Z) (algo : Z) :
  option string :=
  Some (if bool_decide (algo = 1) then "单" else "双")%string.

(** A new model after two correct and three wrong outcomes of algorithm 1
    of the odd/even type, with an empty cache. *)
Definition struggling_model : PredictorModel :=
  fst (update_all single_double 1 [true; true; false; false; false]
         new_PredictorModel).

Definition struggling_system : system := {|
  predictor := struggling_model;
  prediction_cache := fun _ => ∅;
  forecast_calls := []
|}.

(** A system just created. *)
Definition new_system : system := {|
  predictor := new_PredictorModel;
  prediction_cache := fun _ => ∅;
  forecast_calls := []
|}.

(** The first forecast of period 101 on [struggling_system], where the switch
    decision moves from algorithm 1 to algorithm 2, and on [new_system],
    where it keeps algorithm 1. *)
Definition switching_call : system * option prediction_result :=
  calculate_prediction Z Ok sample_forecast [100] single_double 0.5%float struggling_system.

Definition keeping_call : system * option prediction_result :=
  calculate_prediction Z Ok sample_forecast [100] single_double 0.5%float new_system.

Definition switching_result : prediction_result := {|
  qihao := 101;
  prediction := "双";
  prediction_type := single_double;
  algorithm_used := (single_double, 2);
  switch_info :=
    Value {| info_from_algo := 1;
             info_to_algo := 2;
             info_reason := [Lit "连续错误次数过多: "; FmtInt 3; Lit "次"] |}
|}.

Definition keeping_result : prediction_result := {|
  qihao := 101;
  prediction := "单";
  prediction_type := single_double;
  algorithm_used := (single_double, 1);
  switch_info := KeyAbsent
|}.

(** ** Further functions of the same files *)

(** *** Strings, ranges and slices *)

(** [s.replace(old, "")]: the occurrences of [old] are removed from left
    to right; [skip] counts the characters of an occurrence still to
    drop.  An empty [old] leaves the string as it is. *)
Fixpoint remove_from (old : string) (skip : nat) (s : string) : string :=
  match s with
  | EmptyString => EmptyString
  | String c s' =>
      match skip with
      | S k => remove_from old k s'
      | O =>
          if String.prefix old s
          then remove_from old (String.length old - 1) s'
          else String c (remove_from old 0 s')
      end
  end.

Definition remove_all (old s : string) : string :=
  if bool_decide (old = EmptyString) then s else remove_from old 0 s.

(** [s.split(sep)] for a separator of one character. *)
Fixpoint split_on (sep : ascii) (s : string) : list string :=
  match s with
  | EmptyString => [EmptyString]
  | String c s' =>
      if bool_decide (c = sep) then EmptyString :: split_on sep s'
      else
        match split_on sep s' with
        | part :: parts => String c part :: parts
        | [] => [String c EmptyString]
        end
  end.

(** [sep.join(parts)] for a separator of one character. *)
Fixpoint join_with (sep : ascii) (parts : list string) : string :=
  match parts with
  | [] => EmptyString
  | [part] => part
  | part :: rest => (part ++ String sep (join_with sep rest))%string
  end.

(** [list(range(start, stop, step))]; a zero step is a [ValueError]. *)
Definition range3 (start stop step : Z) : result (list Z) :=
  if step =? 0 then Raise ValueError
  else
    let n :=
      if 0 <? step then (stop - start + step - 1) / step
      else (start - stop - step - 1) / (- step) in
    Ok (map (fun k => start + Z.of_nat k * step) (seq 0 (Z.to_nat n))).

(** An index of a slice brought into the bounds of a list of length [n]. *)
Definition slice_index (n i : Z) : Z :=
  if i <? 0 then Z.max (i + n) 0 else Z.min i n.

(** [l[i:j]]. *)
Definition slice {A : Type} (l : list A) (i j : Z) : list A :=
  let i' := slice_index (len l) i in
  let j' := slice_index (len l) j in
  take (Z.to_nat (j' - i')) (drop (Z.to_nat i') l).

(** [a / b] on two floats: a zero divisor is a [ZeroDivisionError]. *)
Definition float_div (a b : float) : result float :=
  if (b =? 0)%float then Raise ZeroDivisionError else Ok (a / b)%float.

(** *** prediction_utils.py *)

(** The [actual_data] dictionary of a draw: its keys [is_big] and
    [is_odd], each possibly absent. *)
Record actual_data : Type := {
  is_big : option bool;
  is_odd : option bool
}.

(** [f"{'大' if is_big else '小'}{'单' if is_odd else '双'}"]. *)
Definition actual_result (actual : actual_data) : string :=
  ((if default false (is_big actual) then "大" else "小")
   ++ (if default false (is_odd actual) then "单" else "双"))%string.

(** [PredictionJudge.check_prediction_correctness] (lines 233-281) on a
    prediction text.  Nothing in its body raises on a text, so the handler
    is not reached. *)
Definition check_prediction_correctness (pt : pred_type) (prediction : string)
    (actual : actual_data) : bool :=
  let is_big := default false (is_big actual) in
  let is_odd := default false (is_odd actual) in
  match pt with
  | single_double =>
      let target_result := (if is_odd then "单" else "双")%string in
      (contains "单" prediction && String.eqb target_result "单")
      || (contains "双" prediction && String.eqb target_result "双")
  | big_small =>
      let target_result := (if is_big then "大" else "小")%string in
      (contains "大" prediction && String.eqb target_result "大")
      || (contains "小" prediction && String.eqb target_result "小")
  | kill_group =>
      let kill_combo :=
        if contains "杀" prediction then remove_all "杀" prediction
        else EmptyString in
      negb (String.eqb kill_combo (actual_result actual))
  | double_group =>
      let pred_parts :=
        if contains ":" prediction
        then split_on "/" (hd EmptyString (split_on ":" prediction))
        else split_on "/" prediction in
      existsb (fun combo => String.eqb combo (actual_result actual)) pred_parts
  end.

(** [PredictionJudge.judge_batch_predictions] (lines 283-308). *)
Definition judge_batch_predictions (pt : pred_type) (predictions : list string)
    (results : list actual_data) : list bool :=
  if negb (len predictions =? len results) then []
  else
    map (fun '(prediction, actual) => check_prediction_correctness pt prediction actual)
      (combine predictions results).

(** *** reinforcement_learner.py *)

Definition with_rates (learning exploration : float) (self : ReinforcementLearner) :
  ReinforcementLearner :=
  {| learning_rate := learning;
     discount_factor := discount_factor self;
     exploration_rate := exploration;
     q_table := q_table self |}.

(** [ReinforcementLearner.adapt_parameters] (lines 212-231).  The handler
    of its [try] logs; the attributes keep what was assigned before the
    exception. *)
Definition adapt_parameters (success_rate : float) (iteration_count : Z)
    (self : ReinforcementLearner) : ReinforcementLearner :=
  let body : result ReinforcementLearner :=
    n ← float_of_int iteration_count;
    ratio ← float_div 0.5 (1 + 0.1 * n)%float;
    let exploration := Py.max 0.05 (Py.min 0.3 ratio) in
    let learning :=
      if (0.7 <? success_rate)%float
      then Py.max 0.01 (learning_rate self * 0.95)%float
      else if (success_rate <? 0.4)%float
      then Py.min 0.2 (learning_rate self * 1.05)%float
      else learning_rate self in
    Ok (with_rates learning exploration self) in
  match body with
  | Ok self' => self'
  | Raise _ => self
  end.

(** [FeatureExtractor._check_cycle] (lines 550-569).  The [ValueError] of
    a zero step of [range] leaves the method. *)
Definition _check_cycle (sequence : list Z) (cycle_length : Z) : result bool :=
  if len sequence <? cycle_length * 2 then Ok false
  else
    let pattern := slice sequence 0 cycle_length in
    starts ← range3 0 (len sequence - cycle_length) cycle_length;
    let matches :=
      len (filter (fun i => slice sequence i (i + cycle_length) = pattern) starts) in
    let total_checks := len starts in
    if total_checks >? 0 then
      ratio ← int_true_div matches total_checks;
      Ok (0.5 <=? ratio)%float
    else Ok false.

(** *** algorithm_switcher.py *)

Definition with_force_exploration (value : bool) (sw : AlgorithmSwitcher) :
  AlgorithmSwitcher :=
  {| force_exploration := value;
     forced_exploration_done := forced_exploration_done sw;
     algorithm_switch_history := algorithm_switch_history sw;
     algorithm_trends := algorithm_trends sw;
     rotation_counter := rotation_counter sw |}.

(** [AlgorithmSwitcher.set_force_exploration]. *)
Definition set_force_exploration (value : bool) (self : AlgorithmSwitcher) :
  AlgorithmSwitcher :=
  with_force_exploration value self.

(** The three entries of [dynamic_weights[pred_type]]. *)
Record weights : Type := {
  weight_confidence : float;
  weight_recent_success : float;
  weight_overall_success : float
}.

(** The score of an algorithm in [_find_best_algorithm]: the weighted sum
    of the three rates of its record, plus its memory bonus. *)
Definition algorithm_score (w : weights) (memory_bonus : Z -> float) (p : perf)
    (algo_num : Z) : float :=
  let score :=
    (confidence_score p * weight_confidence w
     + recent_success_rate p * weight_recent_success w
     + success_rate p * weight_overall_success w)%float in
  (score + memory_bonus algo_num)%float.

(** One round of the loop of [_find_best_algorithm]. *)
Definition best_step (w : weights) (memory_bonus : Z -> float)
    (perf_data : gmap Z perf) (best : option Z * float) (algo_num : Z) :
    result (option Z * float) :=
  p ← perf_at perf_data algo_num;
  let score := algorithm_score w memory_bonus p algo_num in
  if (best.2 <? score)%float then Ok (Some algo_num, score) else Ok best.

(** [AlgorithmSwitcher._find_best_algorithm] (lines 196-220) on
    [algorithm_performance[pred_type]].  [w] is [dynamic_weights[pred_type]]
    and [memory_bonus algo] the value of [_calculate_memory_bonus], whose
    powers of the decay factor come from the C library.  [None] is the
    [None] the method returns when no score exceeds -1. *)
Definition _find_best_algorithm (w : weights) (memory_bonus : Z -> float)
    (perf_data : gmap Z perf) : result (option Z) :=
  b1 ← best_step w memory_bonus perf_data (None, (-1)%float) 1;
  b2 ← best_step w memory_bonus perf_data b1 2;
  b3 ← best_step w memory_bonus perf_data b2 3;
  Ok b3.1.

(** *** predictor_model.py *)

(** [PredictorModel.get_current_algorithm]. *)
Definition get_current_algorithm (self : PredictorModel) (pt : pred_type) : Z :=
  current_algorithms self pt.

(** [PredictorModel.get_algorithm_for_qihao]. *)
Definition get_algorithm_for_qihao (self : PredictorModel) (pt : pred_type)
    (q : Z) : Z :=
  match last_used_algorithms self pt !! q with
  | Some algo => algo
  | None => current_algorithms self pt
  end.

(** One entry of the report of [get_algorithm_status]. *)
Record algorithm_status : Type := {
  status_current_algorithm : Z;
  status_success_rate : float;
  status_confidence_score : float;
  status_consecutive_correct : Z;
  status_consecutive_wrong : Z;
  status_total_predictions : Z
}.

(** The entry of [get_algorithm_status] for one type; the record of the
    current algorithm is read with [[]], a [KeyError] when it is missing. *)
Definition status_of (self : PredictorModel) (pt : pred_type) :
  result algorithm_status :=
  let current_algo := current_algorithms self pt in
  p ← perf_at (algorithm_performance self pt) current_algo;
  Ok {| status_current_algorithm := current_algo;
        status_success_rate := success_rate p;
        status_confidence_score := confidence_score p;
        status_consecutive_correct := consecutive_correct p;
        status_consecutive_wrong := consecutive_wrong p;
        status_total_predictions := total_predictions p |}.

(** [PredictorModel.get_algorithm_status] (lines 353-368): the entries of
    the four types, in the order of the loop. *)
Definition get_algorithm_status (self : PredictorModel) :
  result (list (pred_type * algorithm_status)) :=
  s1 ← status_of self single_double;
  s2 ← status_of self big_small;
  s3 ← status_of self kill_group;
  s4 ← status_of self double_group;
  Ok [(single_double, s1); (big_small, s2); (kill_group, s3); (double_group, s4)].

(** *** Vocabulary of the further properties *)

(** A predictor whose current algorithms are among 1, 2, 3 and which holds
    a record for each of the three algorithms of every type. *)
Definition well_formed (m : PredictorModel) : Prop :=
  forall pt : pred_type,
    (current_algorithms m pt = 1 \/ current_algorithms m pt = 2
     \/ current_algorithms m pt = 3)
    /\ forall a : Z, a = 1 \/ a = 2 \/ a = 3 ->
         is_Some (algorithm_performance m pt !! a).

(** A forecasting function that always fails. *)
Definition failing_forecast (pt : pred_type) (records : list Z) (algo : Z) :
  option string := None.

(** The system of [struggling_system] with the big/small type on
    algorithm 3, as a saved state can have it. *)
Definition unpinned_system : system :=
  with_predictor
    (with_current_algorithms (<[big_small := 3]> (current_algorithms struggling_model))
       struggling_model)
    struggling_system.

(** The score [_find_best_algorithm] gives an algorithm that has a
    record. *)
Definition score_of (w : weights) (memory_bonus : Z -> float)
    (perf_data : gmap Z perf) (algo_num : Z) : float :=
  from_option (fun p => algorithm_score w memory_bonus p algo_num) 0%float
    (perf_data !! algo_num).

(** Performance data in which algorithm 1 has 12 predictions behind it. *)
Definition veteran_perf : perf := with_total_predictions (fun _ => 12) loaded_perf.

Definition veteran_perf_data : gmap Z perf :=
  {[ 1 := veteran_perf; 2 := initial_perf; 3 := initial_perf ]}.

(** A public selection on that data that chose algorithm 2, with 3 as the
    forced pick, and the record it returns. *)
Definition forced_call :
  (AlgorithmSwitcher * gmap Z perf) * result (Z * switch_record) :=
  select_next_algorithm single_double 1 (Ok (2, [Lit "智能探索"])) 0 3
    (new_AlgorithmSwitcher, veteran_perf_data).

Definition forced_call_record : switch_record := {|
  time := 0;
  from_algo := 1;
  to_algo := 2;
  reason := [Lit "智能探索"];
  old_algo_success_rate := success_rate veteran_perf;
  old_algo_confidence := confidence_score veteran_perf;
  new_algo_success_rate := success_rate initial_perf;
  new_algo_confidence := confidence_score initial_perf
|}.

(** A learner whose table has a row for the state "s". *)
Definition taught_learner : ReinforcementLearner :=
  with_q_table {[ "s" := [(1, 0.5%float); (2, 0.75%float); (3, 0.25%float)] ]}
    new_ReinforcementLearner.

(** Whether the first statement of [adapt_parameters] raises: the
    iteration count does not convert to a float, or the divisor
    [1 + 0.1 * iteration_count] is zero. *)
Definition adaptation_raises (iteration_count : Z) : bool :=
  match float_of_int iteration_count with
  | Raise _ => true
  | Ok n => (1 + 0.1 * n =? 0)%float
  end.

(** * Properties *)

(** ** Comparisons of floats *)

Section FloatOrder.

Lemma SFltb_SFleb (x y : spec_float) : SFltb x y = true -> SFleb x y = true.
Proof. unfold SFltb, SFleb. by destruct (SFcompare x y) as [[ | | ]|]. Qed.

Lemma ltb_leb (x y : float) : (x <? y)%float = true -> (x <=? y)%float = true.
Proof. rewrite FloatAxioms.ltb_spec, FloatAxioms.leb_spec. apply SFltb_SFleb. Qed.

Lemma SFcompare_Lt_Gt (x y : spec_float) :
  SFcompare x y = Some Lt -> SFcompare y x = Some Gt.
Proof.
  destruct x as [sx|sx| |sx mx ex], y as [sy|sy| |sy my ey]; simpl;
    try (destruct sx); try (destruct sy); try discriminate; try reflexivity.
  - rewrite (Z.compare_antisym ey ex), !Pos.compare_cont_spec, (Pos.compare_antisym my mx).
    simpl. destruct (ey ?= ex); simpl; try discriminate; try reflexivity.
    destruct (my ?= mx)%positive; simpl; try discriminate; reflexivity.
  - rewrite (Z.compare_antisym ey ex), !Pos.compare_cont_spec, (Pos.compare_antisym my mx).
    simpl. destruct (ey ?= ex); simpl; try discriminate; try reflexivity.
    destruct (my ?= mx)%positive; simpl; try discriminate; reflexivity.
Qed.

Lemma ltb_asym (x y : float) : (x <? y)%float = true -> (y <? x)%float = false.
Proof.
  rewrite !FloatAxioms.ltb_spec. unfold SFltb. intros H.
  destruct (SFcompare (Prim2SF x) (Prim2SF y)) as [[ | | ]|] eqn:E; try discriminate.
  by rewrite (SFcompare_Lt_Gt _ _ E).
Qed.

Lemma ltb_irrefl (x : float) : (x <? x)%float = false.
Proof.
  destruct (x <? x)%float eqn:E; [|done]. by rewrite (ltb_asym _ _ E) in E.
Qed.

Lemma SFltb_trans (x y z : spec_float) :
  SFltb x y = true -> SFltb y z = true -> SFltb x z = true.
Proof.
  unfold SFltb.
  destruct x as [sx|sx| |sx mx ex], y as [sy|sy| |sy my ey], z as [sz|sz| |sz mz ez];
    simpl; try (destruct sx); try (destruct sy); try (destruct sz);
    try discriminate; try reflexivity;
    rewrite !Pos.compare_cont_spec; simpl;
    destruct (Z.compare_spec ex ey), (Z.compare_spec ey ez), (Z.compare_spec ex ez);
    simpl; try lia; try discriminate; try reflexivity;
    destruct (Pos.compare_spec mx my), (Pos.compare_spec my mz), (Pos.compare_spec mx mz);
    simpl; try lia; try discriminate; try reflexivity.
Qed.

Lemma ltb_trans (x y z : float) :
  (x <? y)%float = true -> (y <? z)%float = true -> (x <? z)%float = true.
Proof. rewrite !FloatAxioms.ltb_spec. apply SFltb_trans. Qed.

(** A value that nothing seen so far exceeds stays unexceeded by them when
    it is replaced by a higher one. *)
Lemma not_ltb_raise (best y x : float) :
  (best <? y)%float = true -> (best <? x)%float = false -> (y <? x)%float = false.
Proof.
  intros H1 H2. destruct (y <? x)%float eqn:E; [|done].
  by rewrite (ltb_trans _ _ _ H1 E) in H2.
Qed.

Lemma SFltb_leb_trans (x y z : spec_float) :
  SFltb x y = true -> SFleb y z = true -> SFltb x z = true.
Proof.
  unfold SFltb, SFleb.
  destruct x as [sx|sx| |sx mx ex], y as [sy|sy| |sy my ey], z as [sz|sz| |sz mz ez];
    simpl; try (destruct sx); try (destruct sy); try (destruct sz);
    try discriminate; try reflexivity;
    rewrite !Pos.compare_cont_spec; simpl;
    destruct (Z.compare_spec ex ey), (Z.compare_spec ey ez), (Z.compare_spec ex ez);
    simpl; try lia; try discriminate; try reflexivity;
    destruct (Pos.compare_spec mx my), (Pos.compare_spec my mz), (Pos.compare_spec mx mz);
    simpl; try lia; try discriminate; try reflexivity.
Qed.

Lemma ltb_leb_trans (x y z : float) :
  (x <? y)%float = true -> (y <=? z)%float = true -> (x <? z)%float = true.
Proof. rewrite !FloatAxioms.ltb_spec, FloatAxioms.leb_spec. apply SFltb_leb_trans. Qed.

(** A value that is replaced by a higher one is not reached by what did not
    exceed it. *)
Lemma not_leb_raise (best y x : float) :
  (best <? y)%float = true -> (best <? x)%float = false -> (y <=? x)%float = false.
Proof.
  intros H1 H2. destruct (y <=? x)%float eqn:E; [|done].
  by rewrite (ltb_leb_trans _ _ _ H1 E) in H2.
Qed.

End FloatOrder.

Section ClampFacts.

Lemma SFcompare_Gt_Lt (x y : spec_float) :
  SFcompare x y = Some Gt -> SFcompare y x = Some Lt.
Proof.
  destruct x as [sx|sx| |sx mx ex], y as [sy|sy| |sy my ey]; simpl;
    try (destruct sx); try (destruct sy); try discriminate; try reflexivity.
  - rewrite (Z.compare_antisym ey ex), !Pos.compare_cont_spec, (Pos.compare_antisym my mx).
    simpl. destruct (ey ?= ex); simpl; try discriminate; try reflexivity.
    destruct (my ?= mx)%positive; simpl; try discriminate; reflexivity.
  - rewrite (Z.compare_antisym ey ex), !Pos.compare_cont_spec, (Pos.compare_antisym my mx).
    simpl. destruct (ey ?= ex); simpl; try discriminate; try reflexivity.
    destruct (my ?= mx)%positive; simpl; try discriminate; reflexivity.
Qed.

Lemma SFcompare_Eq_finite (x : spec_float) (s : bool) (m : positive) (e : Z) :
  SFcompare x (S754_finite s m e) = Some Eq -> x = S754_finite s m e.
Proof.
  destruct x as [sx|sx| |sx mx ex]; simpl;
    try (destruct sx); try (destruct s); try discriminate.
  - rewrite Pos.compare_cont_spec. simpl.
    destruct (ex ?= e) eqn:E; simpl; try discriminate.
    destruct (mx ?= m)%positive eqn:E'; simpl; try discriminate.
    apply Z.compare_eq in E. apply Pos.compare_eq in E'. by subst.
  - rewrite Pos.compare_cont_spec. simpl.
    destruct (ex ?= e) eqn:E; simpl; try discriminate.
    destruct (mx ?= m)%positive eqn:E'; simpl; try discriminate.
    apply Z.compare_eq in E. apply Pos.compare_eq in E'. by subst.
Qed.

Lemma is_nan_false_Prim2SF (x : float) :
  PrimFloat.is_nan x = false -> Prim2SF x <> S754_nan.
Proof.
  unfold PrimFloat.is_nan. rewrite FloatAxioms.eqb_spec. unfold SFeqb.
  intros H E. rewrite E in H. discriminate.
Qed.

(** A float that is not NaN and compares neither below nor above a
    non-zero finite float is that float. *)
Lemma not_ltb_eq (x c : float) (s : bool) (m : positive) (e : Z) :
  Prim2SF c = S754_finite s m e ->
  PrimFloat.is_nan x = false ->
  (x <? c)%float = false -> (c <? x)%float = false -> x = c.
Proof.
  intros Hc Hx. apply is_nan_false_Prim2SF in Hx.
  rewrite !FloatAxioms.ltb_spec. unfold SFltb. intros H1 H2.
  apply Prim2SF_inj. rewrite Hc in *.
  destruct (SFcompare (Prim2SF x) (S754_finite s m e)) as [[ | | ]|] eqn:E.
  - by apply SFcompare_Eq_finite.
  - discriminate.
  - apply SFcompare_Gt_Lt in E. rewrite E in H2. discriminate.
  - destruct (Prim2SF x); try done; discriminate.
Qed.

Lemma Prim2SF_lower : Prim2SF 0.1 = S754_finite false 7205759403792794 (-56).
Proof. vm_compute. reflexivity. Qed.

Lemma Prim2SF_upper : Prim2SF 0.95 = S754_finite false 8556839292003942 (-53).
Proof. vm_compute. reflexivity. Qed.

Lemma SFltb_finite_mono (x : spec_float) (m1 m2 : positive) (e1 e2 : Z) :
  e1 < e2 ->
  SFltb x (S754_finite false m1 e1) = true ->
  SFltb x (S754_finite false m2 e2) = true.
Proof.
  intros He. unfold SFltb.
  destruct x as [sx|sx| |sx mx ex]; simpl;
    try (destruct sx); try discriminate; try reflexivity.
  destruct (ex ?= e1) eqn:E; try discriminate.
  - apply Z.compare_eq in E. subst.
    assert ((e1 ?= e2) = Lt) as -> by exact He. reflexivity.
  - intros _. change (ex < e1) in E.
    assert ((ex ?= e2) = Lt) as -> by (apply Z.compare_lt_iff; lia). reflexivity.
Qed.

(** Below the lower bound is below the upper bound. *)
Lemma ltb_lower_upper (x : float) :
  (x <? 0.1)%float = true -> (x <? 0.95)%float = true.
Proof.
  rewrite !FloatAxioms.ltb_spec, Prim2SF_lower, Prim2SF_upper.
  apply SFltb_finite_mono. lia.
Qed.

Lemma lower_ltb_upper : (0.1 <? 0.95)%float = true.
Proof. vm_compute. reflexivity. Qed.

Lemma lower_leb_lower : (0.1 <=? 0.1)%float = true.
Proof. vm_compute. reflexivity. Qed.

Lemma lower_leb_upper : (0.1 <=? 0.95)%float = true.
Proof. vm_compute. reflexivity. Qed.

Lemma upper_leb_upper : (0.95 <=? 0.95)%float = true.
Proof. vm_compute. reflexivity. Qed.

Lemma clamp_agrees (x : float) :
  PrimFloat.is_nan x = false ->
  Py.max 0.1 (Py.min 0.95 x) = clamp x 0.1 0.95.
Proof.
  intros Hx. unfold Py.max, Py.min, clamp.
  destruct (x <? 0.1)%float eqn:E1.
  - rewrite (ltb_lower_upper _ E1), (ltb_asym _ _ E1). reflexivity.
  - destruct (0.95 <? x)%float eqn:E2.
    + rewrite (ltb_asym _ _ E2), lower_ltb_upper. reflexivity.
    + destruct (x <? 0.95)%float eqn:E3.
      * destruct (0.1 <? x)%float eqn:E4; [reflexivity|].
        symmetry. exact (not_ltb_eq x 0.1 _ _ _ Prim2SF_lower Hx E1 E4).
      * rewrite lower_ltb_upper.
        symmetry. exact (not_ltb_eq x 0.95 _ _ _ Prim2SF_upper Hx E3 E2).
Qed.

Lemma clamp_code_bounds (x : float) :
  (0.1 <=? Py.max 0.1 (Py.min 0.95 x))%float = true
  /\ (Py.max 0.1 (Py.min 0.95 x) <=? 0.95)%float = true.
Proof.
  unfold Py.max, Py.min.
  destruct (x <? 0.95)%float eqn:E1.
  - destruct (0.1 <? x)%float eqn:E2.
    + split; by apply ltb_leb.
    + split; [exact lower_leb_lower | exact lower_leb_upper].
  - rewrite lower_ltb_upper.
    split; [exact lower_leb_upper | exact upper_leb_upper].
Qed.

End ClampFacts.

(** ** The confidence score *)

Lemma float_of_int_small (z : Z) :
  Z.abs z < 2 ^ 63 -> float_of_int z = Ok (float_of_small_int z).
Proof.
  intros H. unfold float_of_int.
  by destruct (Z.ltb_spec (Z.abs z) (2 ^ 63)); [|lia].
Qed.

Lemma int_true_div_small (a b : Z) :
  b <> 0 -> Z.abs a <= 2 ^ 53 -> Z.abs b <= 2 ^ 53 ->
  int_true_div a b = Ok (float_of_small_int a / float_of_small_int b)%float.
Proof.
  intros Hb Ha Hb'. unfold int_true_div.
  destruct (Z.eqb_spec b 0); [done|].
  destruct (Z.leb_spec (Z.abs a) (2 ^ 53)); [|lia].
  destruct (Z.leb_spec (Z.abs b) (2 ^ 53)); [|lia].
  reflexivity.
Qed.

Lemma calculate_confidence_score_small (p : perf) :
  Z.abs (consecutive_correct p) < 2 ^ 63 ->
  Z.abs (consecutive_wrong p) < 2 ^ 63 ->
  Z.abs (total_predictions p) <= 2 ^ 53 ->
  calculate_confidence_score p
  = Ok (Py.max 0.1 (Py.min 0.95 (spec_confidence_sum_of p))).
Proof.
  intros Hc Hw Ht. unfold calculate_confidence_score.
  rewrite (float_of_int_small _ Hc), (float_of_int_small _ Hw).
  rewrite (int_true_div_small (total_predictions p) 50) by (done || lia).
  reflexivity.
Qed.

Lemma float_of_int_raises (z : Z) (e : exn) :
  float_of_int z = Raise e -> e = OverflowError.
Proof.
  unfold float_of_int. destruct (Z.abs z <? 2 ^ 63); [done|].
  destruct (binary_normalize prec emax z 0 false); congruence.
Qed.

Lemma int_true_div_raises (a b : Z) (e : exn) :
  b <> 0 -> int_true_div a b = Raise e -> e = OverflowError.
Proof.
  intros Hb. unfold int_true_div. destruct (Z.eqb_spec b 0); [done|].
  destruct (_ && _); [done|].
  destruct (SFdiv_core_binary prec emax (Z.abs a) 0 (Z.abs b) 0) as [[q x] l].
  destruct (binary_round_aux prec emax _ q x l); congruence.
Qed.

(** C2. For every performance record, with any two rates, a confidence
    score that [calculate_confidence_score] returns lies between 0.1 and
    0.95, and the only exception it can raise is the [OverflowError] of a
    count too large for a float.  For non-negative counts in the range
    where they convert to floats on the direct path (consecutive counters
    below 2^63, total predictions at most 2^53) it returns the
    specification's sum cut to that interval: [max(0.1, min(0.95, sum))],
    which is [clamp(sum, 0.1, 0.95)] whenever the sum is a number. *)
Theorem confidence_score_is_clamped_sum (p : perf) :
  (forall c : float,
      calculate_confidence_score p = Ok c ->
      (0.1 <=? c)%float = true /\ (c <=? 0.95)%float = true)
  /\ (forall e : exn, calculate_confidence_score p = Raise e -> e = OverflowError)
  /\ (0 <= consecutive_correct p < 2 ^ 63 ->
      0 <= consecutive_wrong p < 2 ^ 63 ->
      0 <= total_predictions p <= 2 ^ 53 ->
      exists c : float,
        calculate_confidence_score p = Ok c
        /\ c = Py.max 0.1 (Py.min 0.95 (spec_confidence_sum_of p))
        /\ (PrimFloat.is_nan (spec_confidence_sum_of p) = false ->
            c = clamp (spec_confidence_sum_of p) 0.1 0.95)).
Proof.
  split; [|split].
  - intros c. unfold calculate_confidence_score, mbind, result_bind, rbind.
    destruct (float_of_int (consecutive_correct p)); [|done].
    destruct (float_of_int (consecutive_wrong p)); [|done].
    destruct (int_true_div (total_predictions p) 50); [|done].
    intros [= <-]. apply clamp_code_bounds.
  - intros e. unfold calculate_confidence_score, mbind, result_bind, rbind.
    destruct (float_of_int (consecutive_correct p)) eqn:E1;
      [|intros [= <-]; by apply float_of_int_raises in E1].
    destruct (float_of_int (consecutive_wrong p)) eqn:E2;
      [|intros [= <-]; by apply float_of_int_raises in E2].
    destruct (int_true_div (total_predictions p) 50) eqn:E3;
      [done|intros [= <-]; by apply int_true_div_raises in E3].
  - intros Hc Hw Ht.
    exists (Py.max 0.1 (Py.min 0.95 (spec_confidence_sum_of p))).
    split; [apply calculate_confidence_score_small; lia|].
    split; [reflexivity|]. apply clamp_agrees.
Qed.

Lemma confidence_score_is_clamped_sum_witness :
  exists c : float,
    calculate_confidence_score sample_perf = Ok c
    /\ c = Py.max 0.1 (Py.min 0.95 (spec_confidence_sum_of sample_perf))
    /\ (PrimFloat.is_nan (spec_confidence_sum_of sample_perf) = false ->
        c = clamp (spec_confidence_sum_of sample_perf) 0.1 0.95).
Proof.
  apply (confidence_score_is_clamped_sum sample_perf); simpl; lia.
Defined.

(** ** Updating a performance record *)

Lemma update_record_counted (is_correct : bool) (p : perf) :
  let p' := fst (update_record is_correct p) in
  total_predictions p' = total_predictions (counted is_correct p)
  /\ correct_predictions p' = correct_predictions (counted is_correct p)
  /\ consecutive_correct p' = consecutive_correct (counted is_correct p)
  /\ consecutive_wrong p' = consecutive_wrong (counted is_correct p)
  /\ recent_results p' = recent_results (counted is_correct p).
Proof.
  unfold update_record, counted. run_action.
  destruct is_correct; run_action;
    repeat match goal with
      | |- context [if ?b then _ else _] => destruct b eqn:?; run_action
      | |- context [match int_true_div ?a ?b with _ => _ end] =>
          destruct (int_true_div a b) eqn:?; run_action
      | |- context [match calculate_confidence_score ?q with _ => _ end] =>
          destruct (calculate_confidence_score q) eqn:?; run_action
      end; repeat split; reflexivity.
Qed.

Lemma sum_fold_shift (l : list Z) (a : Z) : fold_left Z.add l a = a + Py.sum l.
Proof.
  unfold Py.sum. revert a. induction l as [|x l IH]; intros a; simpl; [lia|].
  rewrite (IH (a + x)), (IH (0 + x)). lia.
Qed.

Lemma sum_cons (x : Z) (l : list Z) : Py.sum (x :: l) = x + Py.sum l.
Proof. unfold Py.sum at 1. simpl. apply sum_fold_shift. Qed.

Lemma sum_bits_bounds (l : list Z) :
  Forall (fun x => 0 <= x <= 1) l -> 0 <= Py.sum l <= len l.
Proof.
  induction 1 as [|x l Hx _ IH]; [unfold Py.sum, len; simpl; lia|].
  rewrite sum_cons. unfold len in *. simpl length. lia.
Qed.

Lemma counted_recent (is_correct : bool) (p : perf) :
  recent_results (counted is_correct p)
  = let l := recent_results p ++ [outcome_bit is_correct] in
    if len l >? 20 then pop_front l else l.
Proof.
  unfold counted, switch_config.max_recent_results.
  destruct is_correct; simpl;
    destruct (len (recent_results p ++ _) >? 20); reflexivity.
Qed.

Lemma counted_counts (is_correct : bool) (p : perf) :
  total_predictions (counted is_correct p) = total_predictions p + 1
  /\ correct_predictions (counted is_correct p)
     = correct_predictions p + outcome_bit is_correct
  /\ consecutive_correct (counted is_correct p)
     = (if is_correct then consecutive_correct p + 1 else 0)
  /\ consecutive_wrong (counted is_correct p)
     = (if is_correct then 0 else consecutive_wrong p + 1).
Proof.
  unfold counted, switch_config.max_recent_results.
  destruct is_correct; simpl;
    destruct (len (recent_results p ++ _) >? 20); simpl; repeat split; lia.
Qed.

Lemma counted_recent_length (is_correct : bool) (p : perf) :
  (length (recent_results p) <= 20)%nat ->
  (1 <= length (recent_results (counted is_correct p)) <= 20)%nat.
Proof.
  intros H. rewrite counted_recent. cbv zeta. unfold len, pop_front.
  destruct (Z.gtb_spec (Z.of_nat (length (recent_results p ++ [outcome_bit is_correct]))) 20)
    as [Hgt|Hle]; rewrite length_app in *; simpl in *.
  - destruct (recent_results p) as [|x l]; simpl in *; [lia|].
    rewrite length_app. simpl. lia.
  - lia.
Qed.

Lemma counted_recent_bits (is_correct : bool) (p : perf) :
  Forall (fun x => 0 <= x <= 1) (recent_results p) ->
  Forall (fun x => 0 <= x <= 1) (recent_results (counted is_correct p)).
Proof.
  intros H. rewrite counted_recent. cbv zeta.
  assert (Forall (fun x => 0 <= x <= 1) (recent_results p ++ [outcome_bit is_correct])) as H'.
  { apply Forall_app. split; [done|]. constructor; [|constructor].
    destruct is_correct; simpl; lia. }
  destruct (len _ >? 20); [|done]. unfold pop_front.
  destruct (recent_results p ++ [outcome_bit is_correct]); [done|].
  simpl. by inversion H'.
Qed.

Lemma counted_sane (is_correct : bool) (p : perf) :
  sane p -> total_predictions p + 1 < 2 ^ 53 - 1 -> sane (counted is_correct p).
Proof.
  intros (Hc & Ht & Hcc & Hcw & Hb & Hl) Hn.
  destruct (counted_counts is_correct p) as (E1 & E2 & E3 & E4).
  unfold sane. rewrite E1, E2, E3, E4.
  pose proof (counted_recent_length is_correct p Hl).
  pose proof (counted_recent_bits is_correct p Hb).
  destruct is_correct; simpl; repeat split; try lia; try done.
Qed.

Lemma update_record_split (is_correct : bool) (p : perf) :
  update_record is_correct p = rate_record (counted is_correct p).
Proof.
  unfold update_record, rate_record, counted, switch_config.max_recent_results.
  destruct is_correct; run_action;
    destruct (len (recent_results p ++ _) >? 20); reflexivity.
Qed.

Lemma rate_record_sane (p : perf) :
  sane p -> 1 <= total_predictions p -> (1 <= length (recent_results p))%nat ->
  rate_record p = (rated p, Ok tt).
Proof.
  intros (Hc & Ht & Hcc & Hcw & Hb & Hl) Hn Hr.
  pose proof (sum_bits_bounds _ Hb) as Hs. unfold len in Hs.
  unfold rate_record, rated. run_action.
  rewrite int_true_div_small by lia. run_action.
  destruct (Z.gtb_spec (len (recent_results p)) 0) as [_|Hle];
    [|unfold len in Hle; lia].
  run_action. rewrite int_true_div_small by (unfold len; lia). run_action.
  rewrite calculate_confidence_score_small by (simpl; lia).
  reflexivity.
Qed.

Lemma update_record_sane (is_correct : bool) (p : perf) :
  sane p -> total_predictions p + 1 < 2 ^ 53 - 1 ->
  update_record is_correct p = (rated (counted is_correct p), Ok tt)
  /\ sane (rated (counted is_correct p)).
Proof.
  intros Hs Hn. pose proof (counted_sane is_correct p Hs Hn) as Hs'.
  destruct (counted_counts is_correct p) as (E1 & _).
  destruct Hs as (Hc & Ht & Hcc & Hcw & Hb & Hl).
  pose proof (counted_recent_length is_correct p Hl) as Hlen.
  split.
  - rewrite update_record_split. apply rate_record_sane; [done|lia|lia].
  - exact Hs'.
Qed.

Lemma keep_last_app {A : Type} (n : nat) (l r : list A) :
  keep_last n (keep_last n l ++ r) = keep_last n (l ++ r).
Proof.
  unfold keep_last. rewrite !length_app, length_drop.
  destruct (decide (length l <= n)%nat) as [Hle|Hgt].
  - replace (length l - n)%nat with 0%nat by lia. simpl.
    by replace (length l - 0)%nat with (length l) by lia.
  - replace (length l - (length l - n) + length r - n)%nat with (length r) by lia.
    replace (length l + length r - n)%nat with ((length l - n) + length r)%nat by lia.
    rewrite <- (drop_drop (l ++ r)).
    by rewrite (drop_app_le l r (length l - n)) by lia.
Qed.

Lemma counted_recent_keep_last (is_correct : bool) (p : perf) :
  (length (recent_results p) <= 20)%nat ->
  recent_results (counted is_correct p)
  = keep_last 20 (recent_results p ++ [outcome_bit is_correct]).
Proof.
  intros H. rewrite counted_recent. cbv zeta. unfold keep_last, len, pop_front.
  rewrite length_app. simpl length.
  destruct (Z.gtb_spec (Z.of_nat (length (recent_results p) + 1)) 20) as [Hgt|Hle].
  - replace (length (recent_results p) + 1 - 20)%nat with 1%nat by lia.
    by destruct (recent_results p ++ [outcome_bit is_correct]).
  - by replace (length (recent_results p) + 1 - 20)%nat with 0%nat by lia.
Qed.

(** *** The method on the model *)

Lemma update_algorithm_performance_record (pt : pred_type) (a : Z)
    (is_correct : bool) (m : PredictorModel) (p : perf) :
  algorithm_performance m pt !! a = Some p ->
  algorithm_performance (fst (update_algorithm_performance pt a is_correct m)) pt !! a
  = Some (fst (update_record is_correct p)).
Proof.
  intros H. unfold update_algorithm_performance. run_action. rewrite H.
  destruct (update_record is_correct p) as [p' r]. run_action.
  destruct r as [[]|e]; simpl.
  - destruct (update_algorithm_trends _ _ _ _) as [sw' r']. simpl.
    destruct r'; simpl; by rewrite fn_lookup_insert, lookup_insert_eq.
  - by rewrite fn_lookup_insert, lookup_insert_eq.
Qed.

Lemma update_algorithm_performance_ok (pt : pred_type) (a : Z)
    (is_correct : bool) (m : PredictorModel) (p p' : perf) (tr : list float) :
  algorithm_performance m pt !! a = Some p ->
  algorithm_trends (algorithm_switcher m) pt !! a = Some tr ->
  update_record is_correct p = (p', Ok tt) ->
  exists m',
    update_algorithm_performance pt a is_correct m = (m', Ok tt)
    /\ algorithm_performance m' pt !! a = Some p'
    /\ is_Some (algorithm_trends (algorithm_switcher m') pt !! a).
Proof.
  intros Hp Htr Hu. unfold update_algorithm_performance. run_action.
  rewrite Hp, Hu. run_action. unfold update_algorithm_trends. run_action.
  rewrite Htr. run_action. eexists. split; [reflexivity|]. simpl.
  rewrite !fn_lookup_insert, !lookup_insert_eq. eauto.
Qed.

(** A run of calls on a sane record whose trend list exists does not raise;
    its window holds the last 20 outcomes. *)
Lemma update_all_sane (pt : pred_type) (a : Z) (outcomes : list bool) :
  forall (m : PredictorModel) (p : perf),
    algorithm_performance m pt !! a = Some p ->
    is_Some (algorithm_trends (algorithm_switcher m) pt !! a) ->
    sane p ->
    total_predictions p + Z.of_nat (length outcomes) < 2 ^ 53 - 1 ->
    exists m' q,
      update_all pt a outcomes m = (m', Ok tt)
      /\ algorithm_performance m' pt !! a = Some q
      /\ recent_results q
         = keep_last 20 (recent_results p ++ map outcome_bit outcomes).
Proof.
  induction outcomes as [|o rest IH]; intros m p Hp [tr Htr] Hs Hn.
  - exists m, p. split; [reflexivity|]. split; [done|].
    rewrite app_nil_r. unfold keep_last.
    destruct Hs as (_ & _ & _ & _ & _ & Hl).
    by replace (length (recent_results p) - 20)%nat with 0%nat by lia.
  - simpl length in Hn.
    destruct (update_record_sane o p Hs) as [Hu Hs']; [lia|].
    destruct (update_algorithm_performance_ok pt a o m p _ tr Hp Htr Hu)
      as (m1 & Hm1 & Hp1 & Htr1).
    destruct (counted_counts o p) as (E1 & _).
    destruct (IH m1 _ Hp1 Htr1 Hs') as (m' & q & Hrun & Hq & Hrec).
    { change (total_predictions (rated (counted o p)))
        with (total_predictions (counted o p)). lia. }
    exists m', q. split; [|split; [done|]].
    + simpl. run_action. rewrite Hm1. exact Hrun.
    + rewrite Hrec.
      change (recent_results (rated (counted o p)))
        with (recent_results (counted o p)).
      destruct Hs as (_ & _ & _ & _ & _ & Hl).
      rewrite (counted_recent_keep_last o p Hl), keep_last_app.
      simpl map. by rewrite <- app_assoc.
Qed.

(** Whatever a call preserves on the record, a run of calls preserves,
    also when it is ended by an exception. *)
Lemma update_all_invariant (I : perf -> Prop) (pt : pred_type) (a : Z) :
  (forall o p, I p -> I (fst (update_record o p))) ->
  forall (outcomes : list bool) (m : PredictorModel) (p : perf),
    algorithm_performance m pt !! a = Some p -> I p ->
    exists q,
      algorithm_performance (fst (update_all pt a outcomes m)) pt !! a = Some q
      /\ I q.
Proof.
  intros Hstep. induction outcomes as [|o rest IH]; intros m p Hp HI.
  - exists p. by split.
  - pose proof (update_algorithm_performance_record pt a o m p Hp) as H1.
    simpl. run_action.
    destruct (update_algorithm_performance pt a o m) as [m1 r] eqn:E.
    simpl in H1. destruct r as [[]|e].
    + apply (IH m1 _ H1). by apply Hstep.
    + exists (fst (update_record o p)). split; [done|]. by apply Hstep.
Qed.

(** C8. After a call of [update_algorithm_performance] on any record and
    with either outcome, one of the two consecutive counters is 0: a
    correct outcome adds one to [consecutive_correct] and sets
    [consecutive_wrong] to 0, an incorrect one does the inverse; and after
    any run of calls that starts from a record with one counter at 0 (such
    as the all-zero record) the two counters are not both positive. *)
Theorem consecutive_counters_exclusive (pt : pred_type) (a : Z)
    (m : PredictorModel) (p : perf) :
  algorithm_performance m pt !! a = Some p ->
  (forall is_correct : bool,
      exists p',
        algorithm_performance
          (fst (update_algorithm_performance pt a is_correct m)) pt !! a = Some p'
        /\ (consecutive_correct p' = 0 \/ consecutive_wrong p' = 0)
        /\ (is_correct = true ->
            consecutive_correct p' = consecutive_correct p + 1
            /\ consecutive_wrong p' = 0)
        /\ (is_correct = false ->
            consecutive_wrong p' = consecutive_wrong p + 1
            /\ consecutive_correct p' = 0))
  /\ (consecutive_correct p = 0 \/ consecutive_wrong p = 0 ->
      forall outcomes : list bool,
        exists q,
          algorithm_performance (fst (update_all pt a outcomes m)) pt !! a = Some q
          /\ ~ (0 < consecutive_correct q /\ 0 < consecutive_wrong q)).
Proof.
  intros Hp. split.
  - intros is_correct. exists (fst (update_record is_correct p)).
    split; [by apply update_algorithm_performance_record|].
    destruct (update_record_counted is_correct p) as (_ & _ & E3 & E4 & _).
    destruct (counted_counts is_correct p) as (_ & _ & F3 & F4).
    cbv zeta in E3, E4. rewrite E3, E4, F3, F4.
    destruct is_correct; repeat split; try done; auto.
  - intros H0 outcomes.
    apply (update_all_invariant
             (fun q => ~ (0 < consecutive_correct q /\ 0 < consecutive_wrong q))
             pt a) with (p := p); [|done|lia].
    intros o q _.
    destruct (update_record_counted o q) as (_ & _ & E3 & E4 & _).
    destruct (counted_counts o q) as (_ & _ & F3 & F4).
    cbv zeta in E3, E4. rewrite E3, E4, F3, F4. destruct o; lia.
Qed.

Lemma consecutive_counters_exclusive_witness :
  (forall is_correct : bool,
      exists p',
        algorithm_performance
          (fst (update_algorithm_performance single_double 1 is_correct
                  new_PredictorModel)) single_double !! 1 = Some p'
        /\ (consecutive_correct p' = 0 \/ consecutive_wrong p' = 0)
        /\ (is_correct = true ->
            consecutive_correct p' = consecutive_correct initial_perf + 1
            /\ consecutive_wrong p' = 0)
        /\ (is_correct = false ->
            consecutive_wrong p' = consecutive_wrong initial_perf + 1
            /\ consecutive_correct p' = 0))
  /\ (consecutive_correct initial_perf = 0 \/ consecutive_wrong initial_perf = 0 ->
      forall outcomes : list bool,
        exists q,
          algorithm_performance
            (fst (update_all single_double 1 outcomes new_PredictorModel))
            single_double !! 1 = Some q
          /\ ~ (0 < consecutive_correct q /\ 0 < consecutive_wrong q)).
Proof.
  apply (consecutive_counters_exclusive single_double 1 new_PredictorModel initial_perf).
  reflexivity.
Defined.

Lemma new_PredictorModel_record (pt : pred_type) (a : Z) :
  a = 1 \/ a = 2 \/ a = 3 ->
  algorithm_performance new_PredictorModel pt !! a = Some initial_perf
  /\ is_Some (algorithm_trends (algorithm_switcher new_PredictorModel) pt !! a).
Proof. intros [->|[->| ->]]; split; by eauto. Qed.

Lemma initial_perf_sane : sane initial_perf.
Proof. unfold sane. simpl. repeat split; try lia. constructor. Qed.

(** C9. Starting from a window of at most 20 entries, a call of
    [update_algorithm_performance] appends the new outcome and, when that
    makes 21 entries, drops the oldest one; the window holds at most 20
    entries after a call and after any run of calls.  After 25 outcomes
    fed into a new model the window is exactly the last 20 of them: its
    length is 20 and the first 5 outcomes are gone. *)
Theorem recent_results_window (pt : pred_type) (a : Z)
    (m : PredictorModel) (p : perf) :
  algorithm_performance m pt !! a = Some p ->
  (length (recent_results p) <= 20)%nat ->
  (forall is_correct : bool,
      exists p',
        algorithm_performance
          (fst (update_algorithm_performance pt a is_correct m)) pt !! a = Some p'
        /\ recent_results p'
           = (if (length (recent_results p) <? 20)%nat
              then recent_results p ++ [outcome_bit is_correct]
              else drop 1 (recent_results p) ++ [outcome_bit is_correct])
        /\ (length (recent_results p') <= 20)%nat)
  /\ (forall outcomes : list bool,
        exists q,
          algorithm_performance (fst (update_all pt a outcomes m)) pt !! a = Some q
          /\ (length (recent_results q) <= 20)%nat)
  /\ (forall (pt' : pred_type) (a' : Z) (outcomes : list bool),
        a' = 1 \/ a' = 2 \/ a' = 3 ->
        length outcomes = 25%nat ->
        exists m' q,
          update_all pt' a' outcomes new_PredictorModel = (m', Ok tt)
          /\ algorithm_performance m' pt' !! a' = Some q
          /\ recent_results q = map outcome_bit (drop 5 outcomes)
          /\ length (recent_results q) = 20%nat).
Proof.
  intros Hp Hl. split; [|split].
  - intros is_correct. exists (fst (update_record is_correct p)).
    split; [by apply update_algorithm_performance_record|].
    destruct (update_record_counted is_correct p) as (_ & _ & _ & _ & E5).
    cbv zeta in E5. rewrite E5. split.
    + rewrite counted_recent. cbv zeta. unfold len, pop_front.
      rewrite length_app. simpl length.
      destruct (Z.gtb_spec (Z.of_nat (length (recent_results p) + 1)) 20) as [Hgt|Hle];
        destruct (Nat.ltb_spec (length (recent_results p)) 20); try lia; try done.
      destruct (recent_results p); [simpl in *; lia|done].
    + pose proof (counted_recent_length is_correct p Hl). lia.
  - intros outcomes.
    apply (update_all_invariant (fun q => (length (recent_results q) <= 20)%nat)
             pt a) with (p := p); [|done|done].
    intros o q Hq.
    destruct (update_record_counted o q) as (_ & _ & _ & _ & E5).
    cbv zeta in E5. rewrite E5.
    pose proof (counted_recent_length o q Hq). lia.
  - intros pt' a' outcomes Ha Hlen.
    destruct (new_PredictorModel_record pt' a' Ha) as [Hp0 Htr0].
    destruct (update_all_sane pt' a' outcomes new_PredictorModel initial_perf
                Hp0 Htr0 initial_perf_sane) as (m' & q & Hrun & Hq & Hrec).
    { rewrite Hlen. simpl. lia. }
    exists m', q. split; [done|]. split; [done|].
    assert (recent_results q = map outcome_bit (drop 5 outcomes)) as E.
    { rewrite Hrec. simpl. unfold keep_last. rewrite length_map, Hlen.
      change (25 - 20)%nat with 5%nat. apply skipn_map. }
    split; [done|]. by rewrite E, length_map, length_drop, Hlen.
Qed.

Lemma recent_results_window_witness :
  (forall is_correct : bool,
      exists p',
        algorithm_performance
          (fst (update_algorithm_performance kill_group 2 is_correct
                  new_PredictorModel)) kill_group !! 2 = Some p'
        /\ recent_results p'
           = (if (length (recent_results initial_perf) <? 20)%nat
              then recent_results initial_perf ++ [outcome_bit is_correct]
              else drop 1 (recent_results initial_perf) ++ [outcome_bit is_correct])
        /\ (length (recent_results p') <= 20)%nat)
  /\ (forall outcomes : list bool,
        exists q,
          algorithm_performance
            (fst (update_all kill_group 2 outcomes new_PredictorModel))
            kill_group !! 2 = Some q
          /\ (length (recent_results q) <= 20)%nat)
  /\ (forall (pt' : pred_type) (a' : Z) (outcomes : list bool),
        a' = 1 \/ a' = 2 \/ a' = 3 ->
        length outcomes = 25%nat ->
        exists m' q,
          update_all pt' a' outcomes new_PredictorModel = (m', Ok tt)
          /\ algorithm_performance m' pt' !! a' = Some q
          /\ recent_results q = map outcome_bit (drop 5 outcomes)
          /\ length (recent_results q) = 20%nat).
Proof.
  apply (recent_results_window kill_group 2 new_PredictorModel initial_perf).
  - reflexivity.
  - simpl. lia.
Defined.

(** ** The fallback selection *)

Lemma other_algos_cases (current : Z) :
  filter (fun algo => algo ≠ current) [1; 2; 3]
  = if decide (current = 1) then [2; 3]
    else if decide (current = 2) then [1; 3]
    else if decide (current = 3) then [1; 2]
    else [1; 2; 3].
Proof.
  rewrite !filter_cons, filter_nil.
  repeat case_decide; subst; try done; lia.
Qed.

(** The selection returns one of the other algorithms, and none of them
    has a strictly higher confidence score. *)
Lemma select_next_algorithm_best (pt : pred_type) (current : Z)
    (perf_data : gmap Z perf) :
  let n := _select_next_algorithm pt current perf_data in
  (n = 1 \/ n = 2 \/ n = 3)
  /\ n <> current
  /\ (current = 1 \/ current = 2 \/ current = 3 ->
      forall a, a = 1 \/ a = 2 \/ a = 3 -> a <> current ->
        (confidence_of perf_data n <? confidence_of perf_data a)%float = false).
Proof.
  unfold _select_next_algorithm. rewrite other_algos_cases.
  repeat case_decide; subst; simpl; unfold sorted_reverse; simpl.
  - destruct (confidence_of perf_data 2 <? confidence_of perf_data 3)%float eqn:E;
      simpl; (split; [lia|]); (split; [lia|]); intros _ a [->|[->| ->]] Ha;
      try done; auto using ltb_irrefl, ltb_asym.
  - destruct (confidence_of perf_data 1 <? confidence_of perf_data 3)%float eqn:E;
      simpl; (split; [lia|]); (split; [lia|]); intros _ a [->|[->| ->]] Ha;
      try done; auto using ltb_irrefl, ltb_asym.
  - destruct (confidence_of perf_data 1 <? confidence_of perf_data 2)%float eqn:E;
      simpl; (split; [lia|]); (split; [lia|]); intros _ a [->|[->| ->]] Ha;
      try done; auto using ltb_irrefl, ltb_asym.
  - split_ifs; (split; [lia|]); (split; [lia|]); intros; lia.
Qed.

(** C10. For a current algorithm in {1, 2, 3} and any performance data,
    [_select_next_algorithm] returns an algorithm in {1, 2, 3} other than
    the current one, and no other algorithm has a higher confidence score
    (a missing score counting as 0); the value [current % 3 + 1] of its
    error handler is also in {1, 2, 3} and other than the current one. *)
Theorem select_next_algorithm_valid (pt : pred_type) (current : Z)
    (perf_data : gmap Z perf) :
  current = 1 \/ current = 2 \/ current = 3 ->
  let n := _select_next_algorithm pt current perf_data in
  (n = 1 \/ n = 2 \/ n = 3)
  /\ n <> current
  /\ (forall a, a = 1 \/ a = 2 \/ a = 3 -> a <> current ->
        (from_option confidence_score 0%float (perf_data !! n)
         <? from_option confidence_score 0%float (perf_data !! a))%float = false)
  /\ (select_next_fallback current = 1 \/ select_next_fallback current = 2
      \/ select_next_fallback current = 3)
  /\ select_next_fallback current <> current.
Proof.
  intros Hc.
  destruct (select_next_algorithm_best pt current perf_data) as (H1 & H2 & H3).
  split; [exact H1|]. split; [exact H2|]. split; [exact (H3 Hc)|].
  unfold select_next_fallback.
  destruct Hc as [->|[->| ->]];
    [change (1 mod 3) with 1|change (2 mod 3) with 2|change (3 mod 3) with 0]; lia.
Qed.

Lemma select_next_algorithm_valid_witness :
  let n := _select_next_algorithm single_double 1 sample_perf_data in
  (n = 1 \/ n = 2 \/ n = 3)
  /\ n <> 1
  /\ (forall a, a = 1 \/ a = 2 \/ a = 3 -> a <> 1 ->
        (from_option confidence_score 0%float (sample_perf_data !! n)
         <? from_option confidence_score 0%float (sample_perf_data !! a))%float
        = false)
  /\ (select_next_fallback 1 = 1 \/ select_next_fallback 1 = 2
      \/ select_next_fallback 1 = 3)
  /\ select_next_fallback 1 <> 1.
Proof.
  apply (select_next_algorithm_valid single_double 1 sample_perf_data).
  left. reflexivity.
Defined.

(** ** The switch decision *)

(** C5. When the record of the current algorithm has fewer than 5 total
    predictions, [should_switch_algorithm] returns the current algorithm
    with the reason "数据不足", whatever the other fields of the record, the
    other records, the trends and the random draw are. *)
Theorem insufficient_data_keeps_current (self : AlgorithmSwitcher)
    (pt : pred_type) (current : Z) (perf_data : gmap Z perf) (draw : float)
    (p : perf) :
  perf_data !! current = Some p ->
  total_predictions p < 5 ->
  should_switch_algorithm self pt current perf_data draw
  = (current, [Lit "数据不足"]).
Proof.
  intros Hp Ht. unfold should_switch_algorithm. rewrite Hp. simpl.
  unfold switch_config.min_predictions_before_switch.
  by destruct (Z.ltb_spec (total_predictions p) 5); [|lia].
Qed.

Lemma insufficient_data_keeps_current_witness :
  should_switch_algorithm new_AlgorithmSwitcher big_small 2
    {[ 2 := with_consecutive_wrong (fun _ => 7)
              (with_total_predictions (fun _ => 2) initial_perf) ]} 0.1%float
  = (2, [Lit "数据不足"]).
Proof.
  apply (insufficient_data_keeps_current new_AlgorithmSwitcher big_small 2 _ _
           (with_consecutive_wrong (fun _ => 7)
              (with_total_predictions (fun _ => 2) initial_perf))).
  - reflexivity.
  - simpl. lia.
Defined.

(** C6. With current algorithm 1 whose record has 10 total and 2 correct
    predictions, recent results [0,0,0,0,1] and 3 consecutive wrong,
    [should_switch_algorithm] returns algorithm 2 or 3 with the reason
    "连续错误次数过多: 3次", which mentions "连续错误". *)
Theorem consecutive_errors_switch (self : AlgorithmSwitcher) (pt : pred_type)
    (perf_data : gmap Z perf) (draw : float) (p : perf) :
  perf_data !! 1 = Some p ->
  total_predictions p = 10 ->
  correct_predictions p = 2 ->
  recent_results p = [0; 0; 0; 0; 1] ->
  consecutive_wrong p = 3 ->
  let r := should_switch_algorithm self pt 1 perf_data draw in
  r.1 <> 1
  /\ (r.1 = 2 \/ r.1 = 3)
  /\ r.2 = [Lit "连续错误次数过多: "; FmtInt 3; Lit "次"]
  /\ mentions "连续错误" r.2 = true.
Proof.
  intros Hp Ht _ _ Hw. unfold should_switch_algorithm. rewrite Hp. simpl.
  rewrite Ht, Hw. simpl.
  destruct (select_next_algorithm_best pt 1 perf_data) as (H1 & H2 & _).
  cbv zeta in H1, H2. repeat split; try done. lia.
Qed.

Lemma consecutive_errors_switch_witness :
  let r := should_switch_algorithm new_AlgorithmSwitcher single_double 1
             sample_perf_data 0.5%float in
  r.1 <> 1
  /\ (r.1 = 2 \/ r.1 = 3)
  /\ r.2 = [Lit "连续错误次数过多: "; FmtInt 3; Lit "次"]
  /\ mentions "连续错误" r.2 = true.
Proof.
  apply (consecutive_errors_switch new_AlgorithmSwitcher single_double
           sample_perf_data 0.5%float sample_perf); reflexivity.
Defined.

(** C4, as the code has it. When the earlier rules do not fire, the
    decline rule fires exactly when the trend recorded for the current
    algorithm has at least 3 points and every point of the whole series is
    lower than the one before it; [should_switch_algorithm] then returns
    the algorithm chosen by [_select_next_algorithm], which differs from the
    current one, with the reason "性能持续下降", and otherwise gives another
    reason. *)
Theorem persistent_decline_switch (self : AlgorithmSwitcher) (pt : pred_type)
    (current : Z) (perf_data : gmap Z perf) (draw : float) (p : perf)
    (trend : list float) :
  perf_data !! current = Some p ->
  5 <= total_predictions p ->
  consecutive_wrong p < 3 ->
  (confidence_score p <? 0.4)%float = false ->
  (recent_success_rate p <? 0.4)%float = false ->
  algorithm_trends self pt !! current = Some trend ->
  let r := should_switch_algorithm self pt current perf_data draw in
  ((3 <= length trend)%nat /\ all_declining trend = true ->
   r = (_select_next_algorithm pt current perf_data, [Lit "性能持续下降"])
   /\ r.1 <> current)
  /\ (r.2 = [Lit "性能持续下降"] ->
      (3 <= length trend)%nat /\ all_declining trend = true).
Proof.
  intros Hp Ht Hw Hc Hr Htr. unfold should_switch_algorithm.
  rewrite Hp, Htr. simpl.
  unfold switch_config.min_predictions_before_switch,
    switch_config.max_consecutive_errors, switch_config.min_confidence_score,
    switch_config.min_recent_success_rate.
  destruct (Z.ltb_spec (total_predictions p) 5); [lia|].
  destruct (Z.geb_spec (consecutive_wrong p) 3); [lia|].
  rewrite Hc, Hr. unfold len.
  destruct (Z.geb_spec (Z.of_nat (length trend)) 3) as [Hlen|Hlen]; simpl.
  - destruct (all_declining trend) eqn:Hd.
    + split; [|intros _; split; [lia|done]].
      intros _. split; [done|]. simpl.
      by destruct (select_next_algorithm_best pt current perf_data) as (_ & H2 & _).
    + split; [intros [_ ?]; done|].
      by destruct (_ || _).
  - split; [intros [? _]; lia|].
    by destruct (_ || _).
Qed.

Lemma persistent_decline_switch_witness :
  let r := should_switch_algorithm (algorithm_switcher declining_model)
             single_double 1 (algorithm_performance declining_model single_double)
             0.5%float in
  ((3 <= length declining_trend)%nat /\ all_declining declining_trend = true ->
   r = (_select_next_algorithm single_double 1
          (algorithm_performance declining_model single_double),
        [Lit "性能持续下降"])
   /\ r.1 <> 1)
  /\ (r.2 = [Lit "性能持续下降"] ->
      (3 <= length declining_trend)%nat /\ all_declining declining_trend = true).
Proof.
  apply (persistent_decline_switch (algorithm_switcher declining_model)
           single_double 1 (algorithm_performance declining_model single_double)
           0.5%float declining_perf declining_trend);
    vm_compute; first [reflexivity | discriminate].
Defined.

(** The decline rule does fire on that model. *)
Example persistent_decline_fires :
  should_switch_algorithm (algorithm_switcher declining_model)
    single_double 1 (algorithm_performance declining_model single_double) 0.5%float
  = (2, [Lit "性能持续下降"]).
Proof. vm_compute. reflexivity. Qed.

(** C4, as stated, fails.  On a new model fed four correct and then two
    wrong outcomes, the record of algorithm 1 passes the four earlier rules
    and its trend ends with three declining points, and on a switcher whose
    trend rises once and then declines three times the same holds with four
    declining points; in both cases [should_switch_algorithm] keeps
    algorithm 1 with the reason "算法运行正常", whatever the random draw. *)
Lemma decline_at_end_does_not_switch :
  (exists (p : perf) (trend : list float),
      algorithm_performance late_decline_model single_double !! 1 = Some p
      /\ algorithm_trends (algorithm_switcher late_decline_model) single_double !! 1
         = Some trend
      /\ 5 <= total_predictions p
      /\ consecutive_wrong p < 3
      /\ (confidence_score p <? 0.4)%float = false
      /\ (recent_success_rate p <? 0.4)%float = false
      /\ ends_with_declining_run 3 trend
      /\ forall draw : float,
          should_switch_algorithm (algorithm_switcher late_decline_model)
            single_double 1 (algorithm_performance late_decline_model single_double)
            draw
          = (1, [Lit "算法运行正常"]))
  /\ (exists (p : perf) (trend : list float),
        loaded_perf_data !! 1 = Some p
        /\ algorithm_trends rise_then_decline_switcher single_double !! 1 = Some trend
        /\ 5 <= total_predictions p
        /\ consecutive_wrong p < 3
        /\ (confidence_score p <? 0.4)%float = false
        /\ (recent_success_rate p <? 0.4)%float = false
        /\ ends_with_declining_run 4 trend
        /\ forall draw : float,
            should_switch_algorithm rise_then_decline_switcher single_double 1
              loaded_perf_data draw
            = (1, [Lit "算法运行正常"])).
Proof.
  split.
  - eexists _, _.
    split; [vm_compute; reflexivity|]. split; [vm_compute; reflexivity|].
    split; [vm_compute; discriminate|]. split; [vm_compute; reflexivity|].
    split; [vm_compute; reflexivity|]. split; [vm_compute; reflexivity|].
    split.
    + eexists (take 3 _), (drop 3 _). split; [symmetry; apply take_drop|].
      split; vm_compute; reflexivity.
    + intros draw. unfold should_switch_algorithm.
      replace (algorithm_performance late_decline_model single_double !! 1)
        with (Some (default initial_perf
                      (algorithm_performance late_decline_model single_double !! 1)))
        by (vm_compute; reflexivity).
      replace (algorithm_trends (algorithm_switcher late_decline_model) single_double !! 1)
        with (Some (default []
                      (algorithm_trends (algorithm_switcher late_decline_model)
                         single_double !! 1)))
        by (vm_compute; reflexivity).
      replace (force_exploration (algorithm_switcher late_decline_model))
        with false by (vm_compute; reflexivity).
      set (p := default initial_perf _). set (tr := default [] _). simpl.
      replace (total_predictions p) with 6 by (vm_compute; reflexivity).
      replace (consecutive_wrong p) with 2 by (vm_compute; reflexivity).
      replace (confidence_score p <? switch_config.min_confidence_score)%float
        with false by (vm_compute; reflexivity).
      replace (recent_success_rate p <? switch_config.min_recent_success_rate)%float
        with false by (vm_compute; reflexivity).
      replace (all_declining tr) with false by (vm_compute; reflexivity).
      unfold switch_config.exploration_threshold.
      rewrite andb_false_r. simpl. by rewrite andb_false_r.
  - exists loaded_perf, [0.5; 0.9; 0.8; 0.7; 0.6]%float.
    split; [reflexivity|]. split; [vm_compute; reflexivity|].
    split; [simpl; lia|]. split; [simpl; lia|].
    split; [vm_compute; reflexivity|]. split; [vm_compute; reflexivity|].
    split.
    + exists [0.5%float], [0.9; 0.8; 0.7; 0.6]%float.
      split; [reflexivity|]. split; vm_compute; reflexivity.
    + intros draw. unfold should_switch_algorithm.
      replace (loaded_perf_data !! 1) with (Some loaded_perf) by reflexivity.
      replace (algorithm_trends rise_then_decline_switcher single_double !! 1)
        with (Some [0.5; 0.9; 0.8; 0.7; 0.6]%float) by (vm_compute; reflexivity).
      simpl.
      replace (0.95 <? switch_config.min_confidence_score)%float
        with false by (vm_compute; reflexivity).
      replace (0.9 <? switch_config.min_recent_success_rate)%float
        with false by (vm_compute; reflexivity).
      replace (all_declining [0.5; 0.9; 0.8; 0.7; 0.6]%float)
        with false by (vm_compute; reflexivity).
      unfold switch_config.exploration_threshold. simpl.
      by rewrite andb_false_r.
Qed.

(** ** The Q-value update *)

Lemma ensure_row_lookup (state s : string) (q : gmap string q_row) :
  ensure_row state q !! s
  = match q !! s with
    | Some row => Some row
    | None => if decide (s = state) then Some fresh_row else None
    end.
Proof.
  unfold ensure_row. destruct (q !! state) as [row|] eqn:E.
  - destruct (q !! s) eqn:E'; [done|]. case_decide; [congruence|done].
  - destruct (decide (s = state)) as [->|Hne].
    + by rewrite lookup_insert_eq, E.
    + rewrite lookup_insert_ne by done. by destruct (q !! s).
Qed.

Lemma row_get_set_eq (k : Z) (v : float) (row : q_row) :
  row_get k (row_set k v row) = Some v.
Proof.
  induction row as [|[k' v'] row IH]; simpl.
  - by rewrite bool_decide_eq_true_2.
  - destruct (bool_decide (k' = k)) eqn:E; simpl.
    + by rewrite bool_decide_eq_true_2.
    + by rewrite E.
Qed.

Lemma row_get_set_ne (k k' : Z) (v : float) (row : q_row) :
  k' <> k -> row_get k' (row_set k v row) = row_get k' row.
Proof.
  intros Hne. induction row as [|[k0 v0] row IH]; simpl.
  - by rewrite bool_decide_eq_false_2.
  - destruct (bool_decide (k0 = k)) eqn:E; simpl.
    + apply bool_decide_eq_true_1 in E. subst.
      by rewrite !bool_decide_eq_false_2.
    + by rewrite IH.
Qed.

Lemma row_set_nonempty (k : Z) (v : float) (row : q_row) : row_set k v row <> [].
Proof. destruct row as [|[k' v'] row]; simpl; [done|]. by destruct (bool_decide _). Qed.






(** On the row 0.5, 0.75, 0.25 of the next state the update uses 0.75, the
    second value, not the first one. *)
Example update_q_values_takes_greatest :
  q_value (q_table (update_q_values "t" 2 2%float "s" taught_learner)) "t" 2
  = Some (0.5 + 0.05 * (2 + 0.95 * 0.75 - 0.5))%float
  /\ q_value (q_table (update_q_values "t" 2 2%float "s" taught_learner)) "t" 2
     <> Some (0.5 + 0.05 * (2 + 0.95 * 0.5 - 0.5))%float.
Proof. split; vm_compute; [reflexivity|discriminate]. Qed.

(** The tables the learner can reach have no empty row: the new table is
    empty, and neither the update nor the selection among a non-empty list
    of algorithms creates an empty row. *)
Lemma rows_nonempty_new : rows_nonempty (q_table new_ReinforcementLearner).
Proof. intros s row H. simpl in H. by rewrite lookup_empty in H. Qed.

Lemma ensure_row_nonempty (state : string) (q : gmap string q_row) :
  rows_nonempty q -> rows_nonempty (ensure_row state q).
Proof.
  intros H s row. rewrite ensure_row_lookup.
  destruct (q !! s) as [r|] eqn:E.
  - intros [= <-]. by apply (H s).
  - case_decide; [|done]. by intros [= <-].
Qed.

Lemma update_q_values_rows_nonempty (self : ReinforcementLearner)
    (state : string) (action : Z) (reward : float) (next_state : string) :
  rows_nonempty (q_table self) ->
  rows_nonempty (q_table (update_q_values state action reward next_state self)).
Proof.
  intros H. unfold update_q_values.
  pose proof (ensure_row_nonempty next_state _ (ensure_row_nonempty state _ H)) as H0.
  set (q0 := ensure_row next_state (ensure_row state (q_table self))) in *.
  unfold q_table_row, mbind, result_bind, rbind.
  destruct (q0 !! state) as [row|]; [|exact H0].
  destruct (q0 !! next_state) as [next_row|]; [|exact H0].
  destruct (max_of (row_values next_row)); [|exact H0].
  simpl. intros s r. destruct (decide (s = state)) as [->|Hs].
  - rewrite lookup_insert_eq. intros [= <-]. apply row_set_nonempty.
  - rewrite lookup_insert_ne by done. apply H0.
Qed.

Lemma fold_row_set_nonempty (algos : list Z) (row : q_row) :
  algos <> [] \/ row <> [] ->
  fold_left (fun row algo => row_set algo 0.5%float row) algos row <> [].
Proof.
  revert row. induction algos as [|a algos IH]; intros row H; simpl.
  - by destruct H.
  - apply IH. right. apply row_set_nonempty.
Qed.

Lemma select_algorithm_rows_nonempty (self : ReinforcementLearner)
    (state : string) (available : list Z) (draw : float) (pick : nat) :
  available <> [] ->
  rows_nonempty (q_table self) ->
  rows_nonempty (q_table (fst (select_algorithm state available draw pick self))).
Proof.
  intros Ha H. unfold select_algorithm. run_action.
  destruct (draw <? exploration_rate self)%float.
  - by destruct (available !! pick).
  - destruct (q_table self !! state) as [row|] eqn:E; run_action.
    + unfold q_table_row. rewrite E. destruct row; by simpl.
    + unfold q_table_row. rewrite lookup_insert_eq.
      assert (rows_nonempty
                (<[state := fold_left (fun row algo => row_set algo 0.5%float row)
                              available []]> (q_table self))) as H'.
      { intros s r. destruct (decide (s = state)) as [->|Hs].
        - rewrite lookup_insert_eq. intros [= <-].
          apply fold_row_set_nonempty. by left.
        - rewrite lookup_insert_ne by done. apply H. }
      by destruct (fold_left (fun row algo => row_set algo 0.5%float row) available []).
Qed.

(** ** The forecast and its cache *)

Section ForecastProperties.

Variable lottery_record : Type.
Variable qihao_of : lottery_record -> result Z.
Variable forecast : pred_type -> list lottery_record -> Z -> option string.

(** [calculate_prediction] never writes the switch history. *)
Lemma calculate_prediction_keeps_history (records : list lottery_record)
    (pt : pred_type) (draw : float) (s : system) :
  algorithm_switch_history
    (algorithm_switcher
       (predictor (calculate_prediction lottery_record qihao_of forecast
                     records pt draw s).1))
  = algorithm_switch_history (algorithm_switcher (predictor s)).
Proof.
  unfold calculate_prediction.
  destruct records as [|latest rest]; [done|].
  destruct (qihao_of latest) as [latest_qihao|]; [|done].
  destruct (get_cached_prediction s (latest_qihao + 1) pt); [done|].
  destruct (bool_decide (pt = big_small)).
  - simpl. destruct (forecast _ _ _) as [content|]; [|done].
    by destruct (bool_decide (content = EmptyString)).
  - destruct (should_switch_algorithm _ _ _ _ _) as [new_algo switch_reason].
    destruct (bool_decide (new_algo ≠ _)); simpl;
      (destruct (forecast _ _ _) as [content|];
       [destruct (bool_decide (content = EmptyString))|]);
      simpl; by destruct (_ >=? 100).
Qed.

(** C3, as the code has it. When a call of [calculate_prediction] has
    returned a result, the next call for the same type and the same
    history, with no call in between, returns the same period number,
    prediction, type and algorithm, with [switch_info] set to [None]; it
    leaves the predictor, the cache and the log of the calls to the
    forecasting functions as they were, so it neither runs the switch
    decision nor invokes a forecasting function. *)
Theorem cached_forecast_repeats (records : list lottery_record)
    (pt : pred_type) (draw draw' : float) (s s1 : system)
    (r1 : prediction_result) :
  calculate_prediction lottery_record qihao_of forecast records pt draw s
  = (s1, Some r1) ->
  calculate_prediction lottery_record qihao_of forecast records pt draw' s1
  = (s1, Some (as_cached r1))
  /\ forecast_calls
       (calculate_prediction lottery_record qihao_of forecast records pt draw' s1).1
     = forecast_calls s1.
Proof.
  intros H.
  assert (calculate_prediction lottery_record qihao_of forecast records pt draw' s1
          = (s1, Some (as_cached r1))) as E; [|by rewrite E].
  revert H. unfold calculate_prediction.
  destruct records as [|latest rest]; [done|].
  destruct (qihao_of latest) as [latest_qihao|]; [|done].
  destruct (get_cached_prediction s (latest_qihao + 1) pt) as [cached|] eqn:Hc.
  - intros [= <- <-]. by rewrite Hc.
  - assert (forall (self : PredictorModel) (current_algo : Z)
                   (info : option switch_info_t),
               (let '(s0, prediction_content) :=
                  predict lottery_record forecast pt (latest :: rest)
                    (with_predictor self s) in
                match prediction_content with
                | None => (s0, None)
                | Some content =>
                    if bool_decide (content = EmptyString) then (s0, None)
                    else
                      (cache_prediction (latest_qihao + 1) pt
                         {| cached_prediction := content;
                            cached_algorithm_used := (pt, current_algo) |} s0,
                       Some {| qihao := latest_qihao + 1;
                               prediction := content;
                               prediction_type := pt;
                               algorithm_used := (pt, current_algo);
                               switch_info :=
                                 match info with
                                 | Some i => Value i
                                 | None => KeyAbsent
                                 end |})
                end) = (s1, Some r1) ->
               exists cached,
                 get_cached_prediction s1 (latest_qihao + 1) pt = Some cached
                 /\ as_cached r1
                    = {| qihao := latest_qihao + 1;
                         prediction := cached_prediction cached;
                         prediction_type := pt;
                         algorithm_used := cached_algorithm_used cached;
                         switch_info := ValueNone |}) as Htail.
    { intros self current_algo info. unfold predict. simpl.
      destruct (forecast _ _ _) as [content|]; [|done].
      destruct (bool_decide (content = EmptyString)); [done|].
      intros [= <- <-]. eexists. split.
      - unfold get_cached_prediction, cache_prediction. simpl.
        by rewrite fn_lookup_insert, lookup_insert_eq.
      - reflexivity. }
    destruct (bool_decide (pt = big_small)).
    + intros H. destruct (Htail _ _ None H) as (cached & Hc1 & ->).
      by rewrite Hc1.
    + destruct (should_switch_algorithm _ _ _ _ _) as [new_algo switch_reason].
      destruct (bool_decide (new_algo ≠ _)); intros H.
      * destruct (Htail _ _ (Some _) H) as (cached & Hc1 & ->).
        by rewrite Hc1.
      * destruct (Htail _ _ None H) as (cached & Hc1 & ->).
        by rewrite Hc1.
Qed.

(** What a forecast that was computed, not read from the cache, reports:
    a [switch_info] from the old to the new current algorithm exactly when
    the decision changed it; for the type that is pinned to algorithm 1
    nothing is reported. *)
Lemma fresh_forecast_reports_switch (records : list lottery_record)
    (pt : pred_type) (draw : float) (s s1 : system) (r1 : prediction_result) :
  calculate_prediction lottery_record qihao_of forecast records pt draw s
  = (s1, Some r1) ->
  let old := current_algorithms (predictor s) pt in
  let new := current_algorithms (predictor s1) pt in
  match switch_info r1 with
  | Value i => info_from_algo i = old /\ info_to_algo i = new /\ old <> new
  | KeyAbsent => if bool_decide (pt = big_small) then new = 1 else new = old
  | ValueNone => s1 = s
  end.
Proof.
  unfold calculate_prediction.
  destruct records as [|latest rest]; [done|].
  destruct (qihao_of latest) as [latest_qihao|]; [|done].
  destruct (get_cached_prediction s (latest_qihao + 1) pt) as [cached|].
  { by intros [= <- <-]. }
  destruct (bool_decide (pt = big_small)) eqn:Hbig.
  - unfold predict. simpl.
    destruct (forecast _ _ _) as [content|]; [|done].
    destruct (bool_decide (content = EmptyString)); [done|].
    intros [= <- <-]. simpl. by rewrite fn_lookup_insert.
  - destruct (should_switch_algorithm _ _ _ _ _) as [new_algo switch_reason].
    destruct (bool_decide (new_algo ≠ _)) eqn:Hne; unfold predict; simpl;
      (destruct (forecast _ _ _) as [content|]; [|done]);
      (destruct (bool_decide (content = EmptyString)); [done|]);
      intros [= <- <-]; simpl.
    + apply bool_decide_eq_true_1 in Hne. rewrite fn_lookup_insert.
      repeat split; try done; by destruct (_ >=? 100).
    + by destruct (_ >=? 100).
Qed.

End ForecastProperties.

Lemma cached_forecast_repeats_witness :
  calculate_prediction Z Ok sample_forecast [100] single_double 0.1%float
    switching_call.1
  = (switching_call.1, Some (as_cached switching_result))
  /\ forecast_calls
       (calculate_prediction Z Ok sample_forecast [100] single_double 0.1%float
          switching_call.1).1
     = forecast_calls switching_call.1.
Proof.
  apply (cached_forecast_repeats Z Ok sample_forecast [100] single_double
           0.5%float 0.1%float struggling_system switching_call.1 switching_result).
  vm_compute. reflexivity.
Defined.

(** C3, as stated, fails: the second result is never the first one.  When
    the first call switched, its result carries the switch and the cached
    one carries [None]; when it did not switch, its result has no
    [switch_info] key and the cached one has the key, bound to [None]. *)
Lemma second_forecast_differs :
  (switching_call.2 = Some switching_result
   /\ (calculate_prediction Z Ok sample_forecast [100] single_double 0.5%float
         switching_call.1).2
      = Some (as_cached switching_result)
   /\ switching_result <> as_cached switching_result)
  /\ (keeping_call.2 = Some keeping_result
      /\ (calculate_prediction Z Ok sample_forecast [100] single_double 0.5%float
            keeping_call.1).2
         = Some (as_cached keeping_result)
      /\ keeping_result <> as_cached keeping_result).
Proof.
  split; (split; [vm_compute; reflexivity|]); (split; [vm_compute; reflexivity|]);
    intros [=].
Qed.

(** ** The switch history *)

(** C1, on the code. After two correct and three wrong outcomes of
    algorithm 1 on a new model, the forecast of period 101 changes the
    current algorithm of the odd/even type from 1 to 2 and reports the
    switch in its result, and the switch history of the type is empty
    before and after: no switch event is appended. *)
Theorem forecast_switch_is_not_logged :
  current_algorithms (predictor struggling_system) single_double = 1
  /\ current_algorithms (predictor switching_call.1) single_double = 2
  /\ switching_call.2 = Some switching_result
  /\ algorithm_switch_history (algorithm_switcher (predictor struggling_system))
       single_double = []
  /\ algorithm_switch_history (algorithm_switcher (predictor switching_call.1))
       single_double = [].
Proof. repeat split; vm_compute; reflexivity. Qed.

(** The public selection, which no forecast calls, does keep the history:
    when it returns, it has appended the record it returns, and dropped the
    oldest record if that made more than 50. *)
Lemma select_next_algorithm_logs (pt : pred_type) (current_algo : Z)
    (chosen : result (Z * fstring)) (now forced_pick : Z)
    (sw sw' : AlgorithmSwitcher) (pd pd' : gmap Z perf)
    (next_algo : Z) (record : switch_record) :
  select_next_algorithm pt current_algo chosen now forced_pick (sw, pd)
  = ((sw', pd'), Ok (next_algo, record)) ->
  algorithm_switch_history sw' pt
  = (let history := algorithm_switch_history sw pt ++ [record] in
     if len history >? 50 then pop_front history else history)
  /\ from_algo record = current_algo
  /\ exists chosen_algo chosen_reason,
      chosen = Ok (chosen_algo, chosen_reason) /\ to_algo record = chosen_algo.
Proof.
  unfold select_next_algorithm. run_action.
  unfold perf_at at 1. destruct (pd !! current_algo) as [current|]; [|done].
  run_action. destruct chosen as [[chosen_algo chosen_reason]|]; [|done].
  run_action. unfold perf_at at 1.
  destruct (pd !! chosen_algo) as [next|]; [|done]. run_action.
  unfold perf_at at 1.
  destruct (<[chosen_algo := _]> pd !! current_algo) as [current'|]; [|done].
  run_action. unfold perf_at at 1. rewrite lookup_insert_eq. run_action.
  destruct (_ && _); run_action; intros [= <- <- <- <-]; simpl;
    rewrite ?fn_lookup_insert; (split; [reflexivity|]); (split; [reflexivity|]);
    eauto.
Qed.

(** It appends a record also when the algorithm it returns is the current
    one: with [chosen] the current algorithm, the history grows by one. *)
Example select_next_algorithm_logs_no_change :
  let r := select_next_algorithm kill_group 2 (Ok (2, [Lit "性能下降趋势"])) 0 3
             (new_AlgorithmSwitcher, loaded_perf_data) in
  (exists record, r.2 = Ok (2, record))
  /\ length (algorithm_switch_history r.1.1 kill_group) = 1%nat.
Proof. vm_compute. eauto. Qed.

(** * Further properties *)

(** ** The switch decision, continued *)

(** X1. Whatever the state, the records and the draw are, the decision of
    [should_switch_algorithm] is of one of two kinds: it keeps the current
    algorithm, with the reason "数据不足" or "算法运行正常"; or it returns an
    algorithm in {1, 2, 3} other than the current one, with another
    reason. *)
Theorem should_switch_algorithm_outcomes (self : AlgorithmSwitcher)
    (pt : pred_type) (current : Z) (perf_data : gmap Z perf) (draw : float) :
  let r := should_switch_algorithm self pt current perf_data draw in
  (r.1 = current /\ (r.2 = [Lit "数据不足"] \/ r.2 = [Lit "算法运行正常"]))
  \/ ((r.1 = 1 \/ r.1 = 2 \/ r.1 = 3) /\ r.1 <> current
      /\ r.2 <> [Lit "数据不足"] /\ r.2 <> [Lit "算法运行正常"]).
Proof.
  destruct (select_next_algorithm_best pt current perf_data) as (H1 & H2 & _).
  cbv zeta in H1, H2. unfold should_switch_algorithm.
  split_ifs; first [left; split; [reflexivity|tauto] | right; repeat split; done].
Qed.

(** X2. After [set_force_exploration(True)], every decision on a current
    algorithm whose record has at least 5 predictions moves to another
    algorithm in {1, 2, 3}: the flag makes the exploration rule fire when no
    earlier rule does, and the decision does not clear it. *)
Theorem forced_exploration_always_switches (self : AlgorithmSwitcher)
    (pt : pred_type) (current : Z) (perf_data : gmap Z perf) (draw : float)
    (p : perf) :
  perf_data !! current = Some p ->
  5 <= total_predictions p ->
  let r := should_switch_algorithm (set_force_exploration true self) pt current
             perf_data draw in
  (r.1 = 1 \/ r.1 = 2 \/ r.1 = 3) /\ r.1 <> current
  /\ r.2 <> [Lit "算法运行正常"].
Proof.
  intros Hp Ht.
  destruct (select_next_algorithm_best pt current perf_data) as (H1 & H2 & _).
  cbv zeta in H1, H2. unfold should_switch_algorithm. rewrite Hp. simpl.
  unfold switch_config.min_predictions_before_switch.
  destruct (Z.ltb_spec (total_predictions p) 5); [lia|].
  split_ifs; repeat split; done.
Qed.

Lemma forced_exploration_always_switches_witness :
  let r := should_switch_algorithm (set_force_exploration true new_AlgorithmSwitcher)
             single_double 1 loaded_perf_data 0.9%float in
  (r.1 = 1 \/ r.1 = 2 \/ r.1 = 3) /\ r.1 <> 1
  /\ r.2 <> [Lit "算法运行正常"].
Proof.
  apply (forced_exploration_always_switches new_AlgorithmSwitcher single_double 1
           loaded_perf_data 0.9%float loaded_perf).
  - reflexivity.
  - simpl. lia.
Defined.

(** X3. Without the forced-exploration flag, the random draw plays no part
    in the decision while the record of the current algorithm has at most
    10 predictions, or when that record is missing: random exploration
    needs more than 10 predictions. *)
Theorem exploration_needs_experience (self : AlgorithmSwitcher)
    (pt : pred_type) (current : Z) (perf_data : gmap Z perf)
    (draw draw' : float) :
  force_exploration self = false ->
  from_option total_predictions 0 (perf_data !! current) <= 10 ->
  should_switch_algorithm self pt current perf_data draw
  = should_switch_algorithm self pt current perf_data draw'.
Proof.
  intros Hf Ht. unfold should_switch_algorithm. rewrite Hf.
  unfold switch_config.exploration_threshold.
  destruct (Z.gtb_spec (from_option total_predictions 0 (perf_data !! current)) 10);
    [lia|].
  by rewrite !andb_false_r.
Qed.

Lemma exploration_needs_experience_witness :
  should_switch_algorithm new_AlgorithmSwitcher single_double 1 loaded_perf_data
    0.01%float
  = should_switch_algorithm new_AlgorithmSwitcher single_double 1 loaded_perf_data
      0.99%float.
Proof.
  apply (exploration_needs_experience new_AlgorithmSwitcher single_double 1
           loaded_perf_data 0.01%float 0.99%float).
  - reflexivity.
  - vm_compute. discriminate.
Defined.

(** ** Trends and records, continued *)

Lemma keep_last_snoc {A : Type} (n : nat) (l : list A) (x : A) :
  (0 < n)%nat ->
  (length (keep_last n (l ++ [x])) <= n)%nat
  /\ list.last (keep_last n (l ++ [x])) = Some x.
Proof.
  intros Hn. unfold keep_last. rewrite length_drop, length_app. simpl length.
  split; [lia|].
  rewrite drop_app_le by lia. by rewrite last_snoc.
Qed.

Lemma pop_front_keep_last {A : Type} (l : list A) (x : A) :
  (length l <= 20)%nat ->
  (if len (l ++ [x]) >? 20 then pop_front (l ++ [x]) else l ++ [x])
  = keep_last 20 (l ++ [x]).
Proof.
  intros H. unfold keep_last, len, pop_front. rewrite length_app. simpl length.
  destruct (Z.gtb_spec (Z.of_nat (length l + 1)) 20) as [Hgt|Hle].
  - replace (length l + 1 - 20)%nat with 1%nat by lia.
    by destruct (l ++ [x]).
  - by replace (length l + 1 - 20)%nat with 0%nat by lia.
Qed.

(** X4. On a trend list of at most 20 values, [update_algorithm_trends]
    returns normally; the list then holds the last 20 values of the old
    list followed by the new value, so it has at most 20 values and the new
    value is its last one.  The trend lists of the other algorithms and
    types, the exploration flags and the switch history are unchanged. *)
Theorem update_algorithm_trends_window (pt : pred_type) (a : Z) (v : float)
    (self : AlgorithmSwitcher) (trend : list float) :
  algorithm_trends self pt !! a = Some trend ->
  (length trend <= 20)%nat ->
  exists (self' : AlgorithmSwitcher) (trend' : list float),
    update_algorithm_trends pt a v self = (self', Ok tt)
    /\ algorithm_trends self' pt !! a = Some trend'
    /\ trend' = keep_last 20 (trend ++ [v])
    /\ (length trend' <= 20)%nat
    /\ list.last trend' = Some v
    /\ (forall pt' a', (pt', a') <> (pt, a) ->
          algorithm_trends self' pt' !! a' = algorithm_trends self pt' !! a')
    /\ force_exploration self' = force_exploration self
    /\ forced_exploration_done self' = forced_exploration_done self
    /\ algorithm_switch_history self' = algorithm_switch_history self.
Proof.
  intros Htr Hlen. unfold update_algorithm_trends. run_action. rewrite Htr.
  run_action. rewrite (pop_front_keep_last trend v Hlen).
  destruct (keep_last_snoc 20 trend v) as [H1 H2]; [lia|].
  eexists _, _. split; [reflexivity|]. simpl.
  rewrite fn_lookup_insert, lookup_insert_eq.
  repeat split; try done.
  intros pt' a' Hne. destruct (decide (pt' = pt)) as [->|Hpt].
  - rewrite fn_lookup_insert. apply lookup_insert_ne. congruence.
  - by rewrite fn_lookup_insert_ne.
Qed.

Lemma update_algorithm_trends_window_witness :
  exists (self' : AlgorithmSwitcher) (trend' : list float),
    update_algorithm_trends single_double 1 0.25%float rise_then_decline_switcher
    = (self', Ok tt)
    /\ algorithm_trends self' single_double !! 1 = Some trend'
    /\ trend' = keep_last 20 ([0.5; 0.9; 0.8; 0.7; 0.6]%float ++ [0.25%float])
    /\ (length trend' <= 20)%nat
    /\ list.last trend' = Some 0.25%float
    /\ (forall pt' a', (pt', a') <> (single_double, 1) ->
          algorithm_trends self' pt' !! a'
          = algorithm_trends rise_then_decline_switcher pt' !! a')
    /\ force_exploration self' = force_exploration rise_then_decline_switcher
    /\ forced_exploration_done self'
       = forced_exploration_done rise_then_decline_switcher
    /\ algorithm_switch_history self'
       = algorithm_switch_history rise_then_decline_switcher.
Proof.
  apply (update_algorithm_trends_window single_double 1 0.25%float
           rise_then_decline_switcher [0.5; 0.9; 0.8; 0.7; 0.6]%float).
  - reflexivity.
  - simpl. lia.
Defined.

Lemma update_algorithm_trends_frame (pt : pred_type) (a : Z) (v : float)
    (self : AlgorithmSwitcher) :
  let self' := fst (update_algorithm_trends pt a v self) in
  (forall pt' a', (pt', a') <> (pt, a) ->
     algorithm_trends self' pt' !! a' = algorithm_trends self pt' !! a')
  /\ force_exploration self' = force_exploration self
  /\ forced_exploration_done self' = forced_exploration_done self
  /\ algorithm_switch_history self' = algorithm_switch_history self
  /\ rotation_counter self' = rotation_counter self.
Proof.
  unfold update_algorithm_trends. run_action.
  destruct (algorithm_trends self pt !! a) as [trend|] eqn:Htr; run_action;
    [|done].
  repeat split; try done.
  intros pt' a' Hne. destruct (decide (pt' = pt)) as [->|Hpt].
  - rewrite fn_lookup_insert. apply lookup_insert_ne. congruence.
  - by rewrite fn_lookup_insert_ne.
Qed.

(** A call for one (type, algorithm) changes neither the current
    algorithms nor the record of another (type, algorithm). *)
Lemma update_algorithm_performance_untouched (pt : pred_type) (a : Z)
    (is_correct : bool) (m : PredictorModel) :
  let m' := fst (update_algorithm_performance pt a is_correct m) in
  current_algorithms m' = current_algorithms m
  /\ (forall pt' a', (pt', a') <> (pt, a) ->
        algorithm_performance m' pt' !! a' = algorithm_performance m pt' !! a').
Proof.
  assert (forall (f : pred_type -> gmap Z perf) (p' : perf) pt' a',
            (pt', a') <> (pt, a) ->
            (<[pt := <[a := p']> (f pt)]> f) pt' !! a' = f pt' !! a') as Hperf.
  { intros f p' pt' a' Hne. destruct (decide (pt' = pt)) as [->|Hpt].
    - rewrite fn_lookup_insert. apply lookup_insert_ne. congruence.
    - by rewrite fn_lookup_insert_ne. }
  unfold update_algorithm_performance. run_action.
  destruct (algorithm_performance m pt !! a) as [p|] eqn:Hp; run_action; [|done].
  destruct (update_record is_correct p) as [p' r]. run_action.
  destruct r as [[]|e]; simpl.
  - destruct (update_algorithm_trends _ _ _ _) as [sw' r']. simpl.
    destruct r'; simpl; split; try done; auto.
  - split; try done; auto.
Qed.

(** X5. Whether it returns or raises, [update_algorithm_performance] for
    one (type, algorithm) leaves the current algorithms, the algorithms
    recorded per period, the check counters, the exploration flags and the
    switch history as they are, and touches neither the record nor the
    trend list of any other (type, algorithm). *)
Theorem update_algorithm_performance_frame (pt : pred_type) (a : Z)
    (is_correct : bool) (m : PredictorModel) :
  let m' := fst (update_algorithm_performance pt a is_correct m) in
  current_algorithms m' = current_algorithms m
  /\ last_used_algorithms m' = last_used_algorithms m
  /\ switch_counters m' = switch_counters m
  /\ force_exploration (algorithm_switcher m') = force_exploration (algorithm_switcher m)
  /\ forced_exploration_done (algorithm_switcher m')
     = forced_exploration_done (algorithm_switcher m)
  /\ algorithm_switch_history (algorithm_switcher m')
     = algorithm_switch_history (algorithm_switcher m)
  /\ (forall pt' a', (pt', a') <> (pt, a) ->
        algorithm_performance m' pt' !! a' = algorithm_performance m pt' !! a'
        /\ algorithm_trends (algorithm_switcher m') pt' !! a'
           = algorithm_trends (algorithm_switcher m) pt' !! a').
Proof.
  assert (forall (f : pred_type -> gmap Z perf) (p' : perf) pt' a',
            (pt', a') <> (pt, a) ->
            (<[pt := <[a := p']> (f pt)]> f) pt' !! a' = f pt' !! a') as Hperf.
  { intros f p' pt' a' Hne. destruct (decide (pt' = pt)) as [->|Hpt].
    - rewrite fn_lookup_insert. apply lookup_insert_ne. congruence.
    - by rewrite fn_lookup_insert_ne. }
  unfold update_algorithm_performance. run_action.
  destruct (algorithm_performance m pt !! a) as [p|] eqn:Hp; run_action; [|done].
  destruct (update_record is_correct p) as [p' r]. run_action.
  destruct r as [[]|e]; simpl.
  - pose proof (update_algorithm_trends_frame pt a (recent_success_rate p')
                  (algorithm_switcher m)) as (F1 & F2 & F3 & F4 & _).
    destruct (update_algorithm_trends _ _ _ _) as [sw' r']. simpl in *.
    destruct r'; simpl; repeat split; try done; auto.
  - repeat split; try done; auto.
Qed.

(** X6. On a record with sane counts below 2^53 and a trend list of at
    most 20 values, [update_algorithm_performance] returns normally, and
    the newest value of the trend list is the recent success rate it has
    just written into the record. *)
Theorem update_appends_recent_rate_to_trend (pt : pred_type) (a : Z)
    (is_correct : bool) (m : PredictorModel) (p : perf) (trend : list float) :
  algorithm_performance m pt !! a = Some p ->
  sane p ->
  total_predictions p + 1 < 2 ^ 53 - 1 ->
  algorithm_trends (algorithm_switcher m) pt !! a = Some trend ->
  (length trend <= 20)%nat ->
  exists (m' : PredictorModel) (p' : perf) (trend' : list float),
    update_algorithm_performance pt a is_correct m = (m', Ok tt)
    /\ algorithm_performance m' pt !! a = Some p'
    /\ algorithm_trends (algorithm_switcher m') pt !! a = Some trend'
    /\ trend' = keep_last 20 (trend ++ [recent_success_rate p'])
    /\ list.last trend' = Some (recent_success_rate p')
    /\ (length trend' <= 20)%nat.
Proof.
  intros Hp Hs Hn Htr Hlen.
  destruct (update_record_sane is_correct p Hs Hn) as [Hu _].
  unfold update_algorithm_performance. run_action.
  rewrite Hp, Hu. run_action. unfold update_algorithm_trends. run_action.
  rewrite Htr. run_action. rewrite (pop_front_keep_last trend _ Hlen).
  destruct (keep_last_snoc 20 trend
              (recent_success_rate (rated (counted is_correct p)))) as [H1 H2];
    [lia|].
  eexists _, _, _. split; [reflexivity|]. simpl.
  rewrite !fn_lookup_insert, !lookup_insert_eq. repeat split; done.
Qed.

Lemma update_appends_recent_rate_to_trend_witness :
  exists (m' : PredictorModel) (p' : perf) (trend' : list float),
    update_algorithm_performance single_double 1 true new_PredictorModel
    = (m', Ok tt)
    /\ algorithm_performance m' single_double !! 1 = Some p'
    /\ algorithm_trends (algorithm_switcher m') single_double !! 1 = Some trend'
    /\ trend' = keep_last 20 ([] ++ [recent_success_rate p'])
    /\ list.last trend' = Some (recent_success_rate p')
    /\ (length trend' <= 20)%nat.
Proof.
  apply (update_appends_recent_rate_to_trend single_double 1 true
           new_PredictorModel initial_perf []).
  - reflexivity.
  - exact initial_perf_sane.
  - simpl. lia.
  - reflexivity.
  - simpl. lia.
Defined.

(** X7. When the record or the trend list of the (type, algorithm) is
    missing, [update_algorithm_performance] raises.  With the record
    missing it raises [KeyError] and the model is unchanged; with only the
    trend list missing the record has been updated before the exception:
    its total count is one more than before. *)
Theorem update_algorithm_performance_key_error (pt : pred_type) (a : Z)
    (is_correct : bool) (m : PredictorModel) :
  algorithm_performance m pt !! a = None
  \/ algorithm_trends (algorithm_switcher m) pt !! a = None ->
  let r := update_algorithm_performance pt a is_correct m in
  (exists e, r.2 = Raise e)
  /\ (algorithm_performance m pt !! a = None -> r = (m, Raise KeyError))
  /\ (forall p, algorithm_performance m pt !! a = Some p ->
        exists p', algorithm_performance r.1 pt !! a = Some p'
                   /\ total_predictions p' = total_predictions p + 1).
Proof.
  intros H. cbv zeta. split; [|split].
  - unfold update_algorithm_performance. run_action.
    destruct (algorithm_performance m pt !! a) as [p|] eqn:Hp; run_action;
      [|by eexists].
    destruct H as [H|H]; [done|].
    destruct (update_record is_correct p) as [p' r]. run_action.
    destruct r as [[]|e]; simpl; [|by eexists].
    unfold update_algorithm_trends. run_action. rewrite H. run_action.
    by eexists.
  - intros Hp. unfold update_algorithm_performance. run_action.
    by rewrite Hp.
  - intros p Hp. eexists. split.
    + exact (update_algorithm_performance_record pt a is_correct m p Hp).
    + destruct (update_record_counted is_correct p) as (E & _).
      destruct (counted_counts is_correct p) as (E' & _).
      cbv zeta in E. by rewrite E, E'.
Qed.

Lemma update_algorithm_performance_key_error_witness :
  let r := update_algorithm_performance kill_group 4 false new_PredictorModel in
  (exists e, r.2 = Raise e)
  /\ (algorithm_performance new_PredictorModel kill_group !! 4 = None ->
      r = (new_PredictorModel, Raise KeyError))
  /\ (forall p, algorithm_performance new_PredictorModel kill_group !! 4 = Some p ->
        exists p', algorithm_performance r.1 kill_group !! 4 = Some p'
                   /\ total_predictions p' = total_predictions p + 1).
Proof.
  apply (update_algorithm_performance_key_error kill_group 4 false
           new_PredictorModel).
  left. reflexivity.
Defined.
(** ** The forecast, continued *)

(** The decision reads the trend lists and the exploration flag of the
    switcher, nothing else of it. *)
Lemma should_switch_algorithm_reads (sw sw' : AlgorithmSwitcher) (pt : pred_type)
    (current : Z) (perf_data : gmap Z perf) (draw : float) :
  algorithm_trends sw' = algorithm_trends sw ->
  force_exploration sw' = force_exploration sw ->
  should_switch_algorithm sw' pt current perf_data draw
  = should_switch_algorithm sw pt current perf_data draw.
Proof. intros H1 H2. unfold should_switch_algorithm. by rewrite H1, H2. Qed.

Lemma should_switch_algorithm_range (sw : AlgorithmSwitcher) (pt : pred_type)
    (current : Z) (perf_data : gmap Z perf) (draw : float) :
  let n := (should_switch_algorithm sw pt current perf_data draw).1 in
  n = current \/ n = 1 \/ n = 2 \/ n = 3.
Proof.
  destruct (select_next_algorithm_best pt current perf_data) as (H1 & _).
  cbv zeta in H1. unfold should_switch_algorithm.
  split_ifs; tauto.
Qed.

Section ForecastAnatomy.

Variable lottery_record : Type.
Variable qihao_of : lottery_record -> result Z.
Variable forecast : pred_type -> list lottery_record -> Z -> option string.

(** A call that does not reach the switch decision leaves the system as it
    is: no history, an unreadable period number, or a cached row. *)
Lemma calculate_prediction_early (records : list lottery_record)
    (pt : pred_type) (draw : float) (s : system) :
  match records with
  | [] => True
  | latest :: _ =>
      match qihao_of latest with
      | Raise _ => True
      | Ok q => is_Some (get_cached_prediction s (q + 1) pt)
      end
  end ->
  (calculate_prediction lottery_record qihao_of forecast records pt draw s).1 = s.
Proof.
  unfold calculate_prediction. destruct records as [|latest rest]; [done|].
  destruct (qihao_of latest) as [q|]; [|done].
  by intros [cached ->].
Qed.

(** What a call that finds no cached row does, step by step. *)
Lemma calculate_prediction_fresh (latest : lottery_record)
    (rest : list lottery_record) (pt : pred_type) (draw : float) (s : system)
    (q : Z) :
  qihao_of latest = Ok q ->
  get_cached_prediction s (q + 1) pt = None ->
  let m := predictor s in
  let algo :=
    if bool_decide (pt = big_small) then 1
    else (should_switch_algorithm (algorithm_switcher m) pt (current_algorithms m pt)
            (algorithm_performance m pt) draw).1 in
  let checks := default (fun _ => 0) (switch_counters m) pt + 1 in
  let reset := negb (bool_decide (pt = big_small)) && (checks >=? 100) in
  let out :=
    calculate_prediction lottery_record qihao_of forecast (latest :: rest) pt
      draw s in
  let m' := predictor out.1 in
  (forall pt', current_algorithms m' pt'
               = if bool_decide (pt' = pt) then algo else current_algorithms m pt')
  /\ (forall pt' q',
        last_used_algorithms m' pt' !! q'
        = if bool_decide (pt' = pt /\ q' = q + 1) then Some algo
          else last_used_algorithms m pt' !! q')
  /\ algorithm_performance m' = algorithm_performance m
  /\ algorithm_trends (algorithm_switcher m') = algorithm_trends (algorithm_switcher m)
  /\ force_exploration (algorithm_switcher m') = force_exploration (algorithm_switcher m)
  /\ (forall pt', forced_exploration_done (algorithm_switcher m') pt'
                  = if reset then false
                    else forced_exploration_done (algorithm_switcher m) pt')
  /\ (exists counters, switch_counters m' = Some counters
        /\ forall pt', counters pt'
                       = if bool_decide (pt' = pt)
                         then (if reset then 0 else checks)
                         else default (fun _ => 0) (switch_counters m) pt')
  /\ forecast_calls out.1 = forecast_calls s ++ [(pt, algo)]
  /\ (forall pt' q', (pt', q') <> (pt, q + 1) ->
        get_cached_prediction out.1 q' pt' = get_cached_prediction s q' pt')
  /\ match forecast pt (latest :: rest) algo with
     | Some content =>
         if bool_decide (content = EmptyString)
         then out.2 = None /\ prediction_cache out.1 = prediction_cache s
         else
           out.2 = Some {| qihao := q + 1;
                           prediction := content;
                           prediction_type := pt;
                           algorithm_used := (pt, algo);
                           switch_info :=
                             if bool_decide (algo = current_algorithms m pt)
                                || bool_decide (pt = big_small)
                             then KeyAbsent
                             else Value
                               {| info_from_algo := current_algorithms m pt;
                                  info_to_algo := algo;
                                  info_reason :=
                                    (should_switch_algorithm (algorithm_switcher m)
                                       pt (current_algorithms m pt)
                                       (algorithm_performance m pt) draw).2 |} |}
           /\ get_cached_prediction out.1 (q + 1) pt
              = Some {| cached_prediction := content;
                        cached_algorithm_used := (pt, algo) |}
     | None => out.2 = None /\ prediction_cache out.1 = prediction_cache s
     end.
Proof.
  intros Hq Hc. cbv zeta. unfold calculate_prediction. rewrite Hq, Hc.
  assert (forall (f : pred_type -> Z) (v : Z) pt',
            (<[pt := v]> f) pt' = if bool_decide (pt' = pt) then v else f pt')
    as Hfn.
  { intros f v pt'. case_bool_decide as E; [subst; by rewrite fn_lookup_insert|].
    by rewrite fn_lookup_insert_ne. }
  assert (forall (f : pred_type -> gmap Z Z) (v : Z) pt' q',
            (<[pt := <[q + 1 := v]> (f pt)]> f) pt' !! q'
            = if bool_decide (pt' = pt /\ q' = q + 1) then Some v else f pt' !! q')
    as Hlast.
  { intros f v pt' q'. case_bool_decide as E.
    - destruct E as [-> ->]. by rewrite fn_lookup_insert, lookup_insert_eq.
    - destruct (decide (pt' = pt)) as [->|Hpt].
      + rewrite fn_lookup_insert, lookup_insert_ne; [done|]. intros <-. tauto.
      + by rewrite fn_lookup_insert_ne. }
  assert (forall (c : pred_type -> gmap Z cache_row) (row : cache_row) pt' q',
            (pt', q') <> (pt, q + 1) ->
            (<[pt := <[q + 1 := row]> (c pt)]> c) pt' !! q' = c pt' !! q')
    as Hcache.
  { intros c row pt' q' Hne. destruct (decide (pt' = pt)) as [->|Hpt].
    - rewrite fn_lookup_insert, lookup_insert_ne; [done|]. congruence.
    - by rewrite fn_lookup_insert_ne. }
  set (c0 := default (fun _ => 0) (switch_counters (predictor s))).
  assert (forall (v w : Z) pt',
            (<[pt := v]> (<[pt := w]> c0)) pt'
            = if bool_decide (pt' = pt) then v else c0 pt') as Hfn2.
  { intros v w pt'. rewrite Hfn. case_bool_decide; [done|].
    rewrite Hfn. by rewrite bool_decide_eq_false_2. }
  assert (forall pt', current_algorithms (predictor s) pt'
            = if bool_decide (pt' = pt) then current_algorithms (predictor s) pt
              else current_algorithms (predictor s) pt') as Hsame.
  { intros pt'. by case_bool_decide; subst. }
  destruct (bool_decide (pt = big_small)) eqn:Hbs.
  - simpl. rewrite orb_true_r, fn_lookup_insert.
    destruct (forecast pt (latest :: rest) 1) as [content|] eqn:Hf; simpl;
      [destruct (bool_decide (content = EmptyString)) eqn:He|]; simpl;
      repeat split;
      first [ done | apply Hfn | apply Hlast | apply Hsame
            | by (eexists; split; [reflexivity|]; first [apply Hfn | apply Hfn2])
            | by (intros pt' q' Hne; unfold get_cached_prediction; simpl;
                  apply Hcache)
            | by (unfold get_cached_prediction; simpl;
                  rewrite fn_lookup_insert, lookup_insert_eq) ].
  - simpl negb. rewrite andb_true_l, orb_false_r.
    rewrite fn_lookup_insert. fold c0.
    destruct (c0 pt + 1 >=? 100) eqn:Hch;
      rewrite ?(should_switch_algorithm_reads (algorithm_switcher (predictor s)))
        by reflexivity;
      simpl;
      destruct (should_switch_algorithm _ _ _ _ _) as [new_algo reason] eqn:Hs;
      simpl fst; simpl snd;
      (destruct (bool_decide (new_algo ≠ current_algorithms (predictor s) pt)) eqn:Hn;
       [ apply bool_decide_eq_true in Hn;
         rewrite (bool_decide_eq_false_2 (new_algo = _)) by done
       | apply bool_decide_eq_false in Hn; apply dec_stable in Hn; subst new_algo;
         rewrite bool_decide_eq_true_2 by done ]);
      unfold predict; simpl; rewrite ?fn_lookup_insert;
      (destruct (forecast pt (latest :: rest) _) as [content|] eqn:Hf; simpl;
       [destruct (bool_decide (content = EmptyString)) eqn:He|]; simpl);
      repeat split;
      first [ done | apply Hfn | apply Hlast | apply Hsame
            | by (eexists; split; [reflexivity|]; first [apply Hfn | apply Hfn2])
            | by (intros pt' q' Hne; unfold get_cached_prediction; simpl;
                  apply Hcache)
            | by (unfold get_cached_prediction; simpl;
                  rewrite fn_lookup_insert, lookup_insert_eq) ].
Qed.

(** X8. A call of [calculate_prediction], whatever it returns, leaves the
    performance records, the trend lists and the forced-exploration flag
    as they are: a forecast never counts as an outcome. *)
Theorem calculate_prediction_keeps_performance (records : list lottery_record)
    (pt : pred_type) (draw : float) (s : system) :
  let m' :=
    predictor (calculate_prediction lottery_record qihao_of forecast records pt
                 draw s).1 in
  algorithm_performance m' = algorithm_performance (predictor s)
  /\ algorithm_trends (algorithm_switcher m')
     = algorithm_trends (algorithm_switcher (predictor s))
  /\ force_exploration (algorithm_switcher m')
     = force_exploration (algorithm_switcher (predictor s)).
Proof.
  cbv zeta. destruct records as [|latest rest].
  { by rewrite calculate_prediction_early. }
  destruct (qihao_of latest) as [q|e] eqn:Hq.
  2: { rewrite calculate_prediction_early; [done|]. by rewrite Hq. }
  destruct (get_cached_prediction s (q + 1) pt) as [cached|] eqn:Hc.
  { rewrite calculate_prediction_early; [done|]. rewrite Hq, Hc. by eexists. }
  destruct (calculate_prediction_fresh latest rest pt draw s q Hq Hc)
    as (_ & _ & H1 & H2 & H3 & _).
  done.
Qed.

(** X9. A call of [calculate_prediction] that returns [None] leaves the
    cache table as it is: nothing is cached for a period whose forecast
    failed or came back empty, for an empty history or for an unreadable
    period number. *)
Theorem failed_forecast_is_not_cached (records : list lottery_record)
    (pt : pred_type) (draw : float) (s s' : system) :
  calculate_prediction lottery_record qihao_of forecast records pt draw s
  = (s', None) ->
  prediction_cache s' = prediction_cache s.
Proof.
  intros H. destruct records as [|latest rest].
  { by injection H as <-. }
  destruct (qihao_of latest) as [q|e] eqn:Hq.
  2: { pose proof (calculate_prediction_early (latest :: rest) pt draw s) as E.
       rewrite H in E. simpl in E. rewrite E; [done|]. by rewrite Hq. }
  destruct (get_cached_prediction s (q + 1) pt) as [cached|] eqn:Hc.
  { pose proof (calculate_prediction_early (latest :: rest) pt draw s) as E.
    rewrite H in E. simpl in E. rewrite E; [done|]. rewrite Hq, Hc. by eexists. }
  destruct (calculate_prediction_fresh latest rest pt draw s q Hq Hc)
    as (_ & _ & _ & _ & _ & _ & _ & _ & _ & Hres).
  rewrite H in Hres. simpl in Hres.
  destruct (forecast pt (latest :: rest) _) as [content|]; [|tauto].
  destruct (bool_decide (content = EmptyString)); [tauto|].
  by destruct Hres.
Qed.

(** X10. After a call of [calculate_prediction] that found no cached row,
    [get_algorithm_for_qihao] for the forecast period returns the current
    algorithm of the type; the forecasting function was called with that
    algorithm, and a returned result names it as the algorithm used.  This
    holds also when the forecast failed. *)
Theorem fresh_forecast_records_algorithm (latest : lottery_record)
    (rest : list lottery_record) (pt : pred_type) (draw : float) (s : system)
    (q : Z) :
  qihao_of latest = Ok q ->
  get_cached_prediction s (q + 1) pt = None ->
  let out :=
    calculate_prediction lottery_record qihao_of forecast (latest :: rest) pt
      draw s in
  let m' := predictor out.1 in
  get_algorithm_for_qihao m' pt (q + 1) = get_current_algorithm m' pt
  /\ forecast_calls out.1 = forecast_calls s ++ [(pt, get_current_algorithm m' pt)]
  /\ forall r, out.2 = Some r ->
       qihao r = q + 1
       /\ algorithm_used r = (pt, get_algorithm_for_qihao m' pt (qihao r)).
Proof.
  intros Hq Hc. cbv zeta.
  destruct (calculate_prediction_fresh latest rest pt draw s q Hq Hc)
    as (Hcur & Hlast & _ & _ & _ & _ & _ & Hcalls & _ & Hres).
  unfold get_algorithm_for_qihao, get_current_algorithm.
  rewrite Hlast, Hcur.
  rewrite (bool_decide_eq_true_2 (pt = pt /\ _)) by done.
  rewrite !(bool_decide_eq_true_2 (pt = pt)) by done.
  split; [done|]. split; [done|]. intros r Hr. rewrite Hr in Hres.
  destruct (forecast pt (latest :: rest) _) as [content|];
    [destruct (bool_decide (content = EmptyString))|];
    destruct Hres as [Hres _]; try done.
  injection Hres as ->. simpl.
  by rewrite Hlast, (bool_decide_eq_true_2 (pt = pt /\ _)).
Qed.

(** X11. An algorithm recorded for a period stays the answer of
    [get_algorithm_for_qihao] for that period through a later call of
    [calculate_prediction] for another period or another type, also when
    that call switches the current algorithm. *)
Theorem recorded_algorithm_persists (records : list lottery_record)
    (pt pt0 : pred_type) (draw : float) (s : system) (q0 a : Z) :
  last_used_algorithms (predictor s) pt0 !! q0 = Some a ->
  (forall latest rest q, records = latest :: rest -> qihao_of latest = Ok q ->
     pt <> pt0 \/ q + 1 <> q0) ->
  get_algorithm_for_qihao
    (predictor (calculate_prediction lottery_record qihao_of forecast records pt
                  draw s).1) pt0 q0
  = a.
Proof.
  intros Ha Hother. unfold get_algorithm_for_qihao.
  destruct records as [|latest rest].
  { rewrite calculate_prediction_early by done. by rewrite Ha. }
  destruct (qihao_of latest) as [q|e] eqn:Hq.
  2: { rewrite calculate_prediction_early; [by rewrite Ha|]. by rewrite Hq. }
  destruct (get_cached_prediction s (q + 1) pt) as [cached|] eqn:Hc.
  { rewrite calculate_prediction_early; [by rewrite Ha|].
    rewrite Hq, Hc. by eexists. }
  destruct (calculate_prediction_fresh latest rest pt draw s q Hq Hc)
    as (_ & Hlast & _).
  rewrite Hlast, bool_decide_eq_false_2, Ha; [done|].
  intros [-> ->]. destruct (Hother latest rest q eq_refl Hq); done.
Qed.

(** X12. A call of [calculate_prediction] for the big/small type that
    finds no cached row sets the current algorithm of the type to 1,
    whatever it was, and calls the forecasting function with algorithm 1;
    a returned result names algorithm 1 and carries no [switch_info]. *)
Theorem big_small_is_pinned (latest : lottery_record)
    (rest : list lottery_record) (draw : float) (s : system) (q : Z) :
  qihao_of latest = Ok q ->
  get_cached_prediction s (q + 1) big_small = None ->
  let out :=
    calculate_prediction lottery_record qihao_of forecast (latest :: rest)
      big_small draw s in
  current_algorithms (predictor out.1) big_small = 1
  /\ forecast_calls out.1 = forecast_calls s ++ [(big_small, 1)]
  /\ forall r, out.2 = Some r ->
       algorithm_used r = (big_small, 1) /\ switch_info r = KeyAbsent.
Proof.
  intros Hq Hc. cbv zeta.
  destruct (calculate_prediction_fresh latest rest big_small draw s q Hq Hc)
    as (Hcur & _ & _ & _ & _ & _ & _ & Hcalls & _ & Hres).
  rewrite bool_decide_eq_true_2 in Hcur, Hcalls, Hres by done.
  rewrite Hcur, bool_decide_eq_true_2 by done.
  split; [done|]. split; [done|]. intros r Hr. rewrite Hr in Hres.
  destruct (forecast big_small (latest :: rest) 1) as [content|];
    [destruct (bool_decide (content = EmptyString))|];
    destruct Hres as [Hres _]; try done.
  injection Hres as ->. simpl. by rewrite orb_true_r.
Qed.

(** X13. A well-formed predictor (current algorithms among 1, 2, 3 and a
    record for each algorithm) stays well-formed through any call of
    [calculate_prediction]. *)
Theorem calculate_prediction_well_formed (records : list lottery_record)
    (pt : pred_type) (draw : float) (s : system) :
  well_formed (predictor s) ->
  well_formed
    (predictor (calculate_prediction lottery_record qihao_of forecast records pt
                  draw s).1).
Proof.
  intros Hwf. destruct records as [|latest rest].
  { by rewrite calculate_prediction_early. }
  destruct (qihao_of latest) as [q|e] eqn:Hq.
  2: { rewrite calculate_prediction_early; [done|]. by rewrite Hq. }
  destruct (get_cached_prediction s (q + 1) pt) as [cached|] eqn:Hc.
  { rewrite calculate_prediction_early; [done|]. rewrite Hq, Hc. by eexists. }
  destruct (calculate_prediction_fresh latest rest pt draw s q Hq Hc)
    as (Hcur & _ & Hperf & _).
  intros pt'. rewrite Hcur, Hperf. destruct (Hwf pt') as [H1 H2].
  split; [|exact H2].
  destruct (decide (pt' = pt)) as [->|Hne].
  2: { by rewrite bool_decide_eq_false_2. }
  rewrite (bool_decide_eq_true_2 (pt = pt)) by done.
  case_bool_decide; [tauto|].
  pose proof (should_switch_algorithm_range (algorithm_switcher (predictor s)) pt
                (current_algorithms (predictor s) pt)
                (algorithm_performance (predictor s) pt) draw) as Hr.
  cbv zeta in Hr. destruct Hr as [-> | Hr]; tauto.
Qed.

End ForecastAnatomy.

Lemma failed_forecast_is_not_cached_witness :
  prediction_cache
    (calculate_prediction Z Ok failing_forecast [100] single_double 0.5%float
       struggling_system).1
  = prediction_cache struggling_system.
Proof.
  apply (failed_forecast_is_not_cached Z Ok failing_forecast [100] single_double
           0.5%float struggling_system).
  vm_compute. reflexivity.
Defined.

Lemma fresh_forecast_records_algorithm_witness :
  let out :=
    calculate_prediction Z Ok sample_forecast [100] single_double 0.5%float
      struggling_system in
  let m' := predictor out.1 in
  get_algorithm_for_qihao m' single_double (100 + 1)
  = get_current_algorithm m' single_double
  /\ forecast_calls out.1
     = forecast_calls struggling_system
       ++ [(single_double, get_current_algorithm m' single_double)]
  /\ forall r, out.2 = Some r ->
       qihao r = 100 + 1
       /\ algorithm_used r
          = (single_double, get_algorithm_for_qihao m' single_double (qihao r)).
Proof.
  apply (fresh_forecast_records_algorithm Z Ok sample_forecast 100 []
           single_double 0.5%float struggling_system 100); reflexivity.
Defined.

Lemma recorded_algorithm_persists_witness :
  get_algorithm_for_qihao
    (predictor (calculate_prediction Z Ok sample_forecast [200] single_double
                  0.5%float switching_call.1).1) single_double 101
  = 2.
Proof.
  apply (recorded_algorithm_persists Z Ok sample_forecast [200] single_double
           single_double 0.5%float switching_call.1 101 2).
  - vm_compute. reflexivity.
  - intros latest rest q [= <- _] [= <-]. right. lia.
Defined.

Lemma big_small_is_pinned_witness :
  let out :=
    calculate_prediction Z Ok sample_forecast [100] big_small 0.5%float
      unpinned_system in
  current_algorithms (predictor out.1) big_small = 1
  /\ forecast_calls out.1 = forecast_calls unpinned_system ++ [(big_small, 1)]
  /\ forall r, out.2 = Some r ->
       algorithm_used r = (big_small, 1) /\ switch_info r = KeyAbsent.
Proof.
  apply (big_small_is_pinned Z Ok sample_forecast 100 [] 0.5%float
           unpinned_system 100); reflexivity.
Defined.

Lemma new_PredictorModel_well_formed : well_formed new_PredictorModel.
Proof.
  intros pt. split; [by left|]. intros a Ha.
  by destruct (new_PredictorModel_record pt a Ha) as [-> _].
Qed.

Lemma calculate_prediction_well_formed_witness :
  well_formed
    (predictor (calculate_prediction Z Ok sample_forecast [100] kill_group
                  0.5%float new_system).1).
Proof.
  apply (calculate_prediction_well_formed Z Ok sample_forecast [100] kill_group
           0.5%float new_system).
  exact new_PredictorModel_well_formed.
Defined.

(** ** The status report *)

(** X14. [get_algorithm_status] returns the four entries in the order
    odd/even, big/small, kill group, double group, each with the current
    algorithm of its type and the rates and counts of that algorithm's
    record; it raises [KeyError], and only that, when the current algorithm
    of some type has no record. *)
Theorem get_algorithm_status_cases (m : PredictorModel) :
  match get_algorithm_status m with
  | Ok l =>
      map fst l = [single_double; big_small; kill_group; double_group]
      /\ forall pt st, In (pt, st) l ->
           status_current_algorithm st = current_algorithms m pt
           /\ exists p, algorithm_performance m pt !! current_algorithms m pt = Some p
                /\ status_success_rate st = success_rate p
                /\ status_confidence_score st = confidence_score p
                /\ status_consecutive_correct st = consecutive_correct p
                /\ status_consecutive_wrong st = consecutive_wrong p
                /\ status_total_predictions st = total_predictions p
  | Raise e =>
      e = KeyError
      /\ exists pt, algorithm_performance m pt !! current_algorithms m pt = None
  end.
Proof.
  unfold get_algorithm_status, status_of, perf_at.
  destruct (algorithm_performance m single_double !! _) as [p1|] eqn:E1; simpl;
    [|by eauto].
  destruct (algorithm_performance m big_small !! _) as [p2|] eqn:E2; simpl;
    [|by eauto].
  destruct (algorithm_performance m kill_group !! _) as [p3|] eqn:E3; simpl;
    [|by eauto].
  destruct (algorithm_performance m double_group !! _) as [p4|] eqn:E4; simpl;
    [|by eauto].
  split; [done|].
  intros pt st [[= <- <-]|[[= <- <-]|[[= <- <-]|[[= <- <-]|[]]]]]; simpl;
    (split; [done|]); eexists; (split; [eassumption|]); done.
Qed.

(** On a well-formed predictor the report exists. *)
Lemma get_algorithm_status_report_exists (m : PredictorModel) :
  well_formed m -> exists l, get_algorithm_status m = Ok l.
Proof.
  intros Hwf. unfold get_algorithm_status, status_of, perf_at.
  destruct (Hwf single_double) as [H1 K1]. destruct (K1 _ H1) as [p1 ->].
  destruct (Hwf big_small) as [H2 K2]. destruct (K2 _ H2) as [p2 ->].
  destruct (Hwf kill_group) as [H3 K3]. destruct (K3 _ H3) as [p3 ->].
  destruct (Hwf double_group) as [H4 K4]. destruct (K4 _ H4) as [p4 ->].
  simpl. by eexists.
Qed.

(** X15. A well-formed predictor stays well-formed through any call of
    [update_algorithm_performance], whether it returns or raises, and
    [get_algorithm_status] then returns a report. *)
Theorem update_algorithm_performance_well_formed (pt : pred_type) (a : Z)
    (is_correct : bool) (m : PredictorModel) :
  well_formed m ->
  let m' := (update_algorithm_performance pt a is_correct m).1 in
  well_formed m' /\ exists l, get_algorithm_status m' = Ok l.
Proof.
  intros Hwf. cbv zeta.
  assert (well_formed (update_algorithm_performance pt a is_correct m).1) as Hwf'.
  { intros pt'.
    destruct (update_algorithm_performance_untouched pt a is_correct m)
      as (Hcur & Hother).
    cbv zeta in Hcur, Hother. rewrite Hcur. destruct (Hwf pt') as [H1 H2].
    split; [exact H1|]. intros a' Ha'.
    destruct (decide ((pt', a') = (pt, a))) as [[= -> ->]|Hne].
    - destruct (H2 a Ha') as [p Hp].
      rewrite (update_algorithm_performance_record pt a is_correct m p Hp).
      by eexists.
    - rewrite (Hother pt' a' Hne). by apply H2. }
  split; [exact Hwf'|].
  pose proof (get_algorithm_status_report_exists
                (update_algorithm_performance pt a is_correct m).1 Hwf') as H.
  exact H.
Qed.

Lemma update_algorithm_performance_well_formed_witness :
  let m' := (update_algorithm_performance double_group 2 false new_PredictorModel).1 in
  well_formed m' /\ exists l, get_algorithm_status m' = Ok l.
Proof.
  apply (update_algorithm_performance_well_formed double_group 2 false
           new_PredictorModel).
  exact new_PredictorModel_well_formed.
Defined.

(** ** The best algorithm by score *)

Lemma best_of_three (s1 s2 s3 : float) :
  let b1 := if (-1 <? s1)%float then (Some 1, s1) else (None, (-1)%float) in
  let b2 := if (b1.2 <? s2)%float then (Some 2, s2) else b1 in
  let b3 := if (b2.2 <? s3)%float then (Some 3, s3) else b2 in
  let s (a : Z) := if bool_decide (a = 1) then s1 else if bool_decide (a = 2) then s2 else s3 in
  match b3.1 with
  | Some best =>
      (best = 1 \/ best = 2 \/ best = 3)
      /\ (-1 <? s best)%float = true
      /\ (forall a, a = 1 \/ a = 2 \/ a = 3 -> (s best <? s a)%float = false)
      /\ (forall a, a = 1 \/ a = 2 \/ a = 3 -> a < best ->
            (s best <=? s a)%float = false)
  | None => forall a, a = 1 \/ a = 2 \/ a = 3 -> (-1 <? s a)%float = false
  end.
Proof.
  cbv zeta.
  destruct (-1 <? s1)%float eqn:C1; simpl;
    destruct (_ <? s2)%float eqn:C2; simpl;
    destruct (_ <? s3)%float eqn:C3; simpl;
    repeat split; try tauto;
    try (intros a [->|[->| ->]]; simpl; try lia; intros);
    simpl;
    eauto 6 using ltb_irrefl, ltb_asym, not_ltb_raise, ltb_trans, not_leb_raise.
Qed.

(** X16. [_find_best_algorithm] raises exactly when one of the algorithms
    1, 2, 3 has no record, and then it raises [KeyError]: when it returns,
    all three have a record.  When it returns, it returns [None] exactly
    when no score exceeds -1, and else an algorithm in {1, 2, 3} whose
    score exceeds -1, such that no algorithm has a higher score and no
    algorithm of a lower number has a score as high. *)
Theorem find_best_algorithm_spec (w : weights) (memory_bonus : Z -> float)
    (perf_data : gmap Z perf) :
  let score := score_of w memory_bonus perf_data in
  match _find_best_algorithm w memory_bonus perf_data with
  | Ok (Some best) =>
      (forall a, a = 1 \/ a = 2 \/ a = 3 -> is_Some (perf_data !! a))
      /\ (best = 1 \/ best = 2 \/ best = 3)
      /\ (-1 <? score best)%float = true
      /\ (forall a, a = 1 \/ a = 2 \/ a = 3 -> (score best <? score a)%float = false)
      /\ (forall a, a = 1 \/ a = 2 \/ a = 3 -> a < best ->
            (score best <=? score a)%float = false)
  | Ok None =>
      (forall a, a = 1 \/ a = 2 \/ a = 3 -> is_Some (perf_data !! a))
      /\ forall a, a = 1 \/ a = 2 \/ a = 3 -> (-1 <? score a)%float = false
  | Raise e =>
      e = KeyError /\ exists a, (a = 1 \/ a = 2 \/ a = 3) /\ perf_data !! a = None
  end.
Proof.
  cbv zeta. unfold _find_best_algorithm, best_step, perf_at.
  destruct (perf_data !! 1) as [p1|] eqn:E1; simpl; [|by eauto 6].
  destruct (perf_data !! 2) as [p2|] eqn:E2; simpl.
  2: { destruct (_ <? _)%float; simpl; rewrite ?E2; simpl; by eauto 6. }
  destruct (perf_data !! 3) as [p3|] eqn:E3; simpl.
  2: { destruct (_ <? _)%float; simpl; rewrite ?E2; simpl;
       destruct (_ <? _)%float; simpl; rewrite ?E3; simpl; by eauto 7. }
  pose proof (best_of_three (algorithm_score w memory_bonus p1 1)
                (algorithm_score w memory_bonus p2 2)
                (algorithm_score w memory_bonus p3 3)) as H.
  cbv zeta in H.
  assert (forall a, a = 1 \/ a = 2 \/ a = 3 -> is_Some (perf_data !! a)) as Hall.
  { intros a [->|[->| ->]]; by eauto. }
  assert (forall a, a = 1 \/ a = 2 \/ a = 3 ->
            score_of w memory_bonus perf_data a
            = if bool_decide (a = 1) then algorithm_score w memory_bonus p1 1
              else if bool_decide (a = 2) then algorithm_score w memory_bonus p2 2
              else algorithm_score w memory_bonus p3 3) as Hs.
  { intros a [->|[->| ->]]; unfold score_of; by rewrite ?E1, ?E2, ?E3. }
  destruct (-1 <? algorithm_score w memory_bonus p1 1)%float; simpl in *;
    rewrite ?E2; simpl;
    destruct (_ <? algorithm_score w memory_bonus p2 2)%float; simpl in *;
    rewrite ?E3; simpl;
    destruct (_ <? algorithm_score w memory_bonus p3 3)%float; simpl in *;
    (split; [exact Hall|]);
    try (destruct H as (H1 & H2 & H3 & H4); rewrite Hs by tauto; simpl;
         split; [tauto|]; split; [exact H2|]; split;
         [intros a Ha; rewrite (Hs a Ha); by apply H3
         |intros a Ha Hlt; rewrite (Hs a Ha); by apply H4]);
    try (intros a Ha; rewrite (Hs a Ha); by apply H).
Qed.

(** ** The public selection, continued *)

Lemma pop_front_keep_last_50 {A : Type} (l : list A) (x : A) :
  (length l <= 50)%nat ->
  (if len (l ++ [x]) >? 50 then pop_front (l ++ [x]) else l ++ [x])
  = keep_last 50 (l ++ [x]).
Proof.
  intros H. unfold keep_last, len, pop_front. rewrite length_app. simpl length.
  destruct (Z.gtb_spec (Z.of_nat (length l + 1)) 50) as [Hgt|Hle].
  - replace (length l + 1 - 50)%nat with 1%nat by lia.
    by destruct (l ++ [x]).
  - by replace (length l + 1 - 50)%nat with 0%nat by lia.
Qed.

(** X17. On a switch history of at most 50 records for the type,
    [select_next_algorithm] keeps it at most 50 long and leaves the
    histories of the other types alone; it resets the rotation counter of
    the type in every case.  When it returns, the history of the type is
    the last 50 of the old records followed by the record it returns; when
    it raises, the histories and the performance records are unchanged. *)
Theorem select_next_algorithm_history_bounded (pt : pred_type)
    (current_algo : Z) (chosen : result (Z * fstring)) (now forced_pick : Z)
    (sw : AlgorithmSwitcher) (pd : gmap Z perf) :
  (length (algorithm_switch_history sw pt) <= 50)%nat ->
  let out := select_next_algorithm pt current_algo chosen now forced_pick (sw, pd) in
  let sw' := out.1.1 in
  (length (algorithm_switch_history sw' pt) <= 50)%nat
  /\ (forall pt', pt' <> pt ->
        algorithm_switch_history sw' pt' = algorithm_switch_history sw pt')
  /\ rotation_counter sw' pt = 0
  /\ match out.2 with
     | Ok (_, record) =>
         algorithm_switch_history sw' pt
         = keep_last 50 (algorithm_switch_history sw pt ++ [record])
         /\ list.last (algorithm_switch_history sw' pt) = Some record
     | Raise _ =>
         algorithm_switch_history sw' = algorithm_switch_history sw
         /\ out.1.2 = pd
     end.
Proof.
  intros Hlen. cbv zeta.
  destruct (select_next_algorithm pt current_algo chosen now forced_pick (sw, pd))
    as [[sw' pd'] r] eqn:E.
  simpl. revert E. unfold select_next_algorithm. run_action.
  assert (forall f : pred_type -> Z,
            (length (algorithm_switch_history sw pt) <= 50)%nat
            /\ (forall pt', pt' <> pt ->
                   algorithm_switch_history sw pt' = algorithm_switch_history sw pt')
            /\ (<[pt := 0]> f) pt = 0
            /\ algorithm_switch_history sw = algorithm_switch_history sw
            /\ pd = pd) as Hraise.
  { intros f. by rewrite fn_lookup_insert. }
  unfold perf_at at 1. destruct (pd !! current_algo) as [current|] eqn:Hcur.
  2: { run_action. intros [= <- <- <-]. apply Hraise. }
  run_action. destruct chosen as [[chosen_algo chosen_reason]|].
  2: { run_action. intros [= <- <- <-]. apply Hraise. }
  run_action. unfold perf_at at 1.
  destruct (pd !! chosen_algo) as [next|].
  2: { run_action. intros [= <- <- <-]. apply Hraise. }
  run_action. unfold perf_at at 1.
  destruct (<[chosen_algo := _]> pd !! current_algo) as [current'|] eqn:Hcur'.
  2: { apply lookup_insert_None in Hcur' as [Hcur' _]. congruence. }
  run_action. unfold perf_at at 1. rewrite lookup_insert_eq. run_action.
  match goal with
  | |- context [algorithm_switch_history sw pt ++ [?r]] =>
      rewrite !(pop_front_keep_last_50 (algorithm_switch_history sw pt) r Hlen);
      destruct (keep_last_snoc 50 (algorithm_switch_history sw pt) r) as [H1 H2];
        [lia|]
  end.
  destruct (_ && _); run_action; intros [= <- <- <-]; simpl;
    rewrite ?fn_lookup_insert;
    repeat split; try done;
    intros pt' Hne; by rewrite fn_lookup_insert_ne.
Qed.

Lemma select_next_algorithm_history_bounded_witness :
  let out := select_next_algorithm kill_group 2 (Ok (3, [Lit "智能探索"])) 0 3
               (new_AlgorithmSwitcher, loaded_perf_data) in
  let sw' := out.1.1 in
  (length (algorithm_switch_history sw' kill_group) <= 50)%nat
  /\ (forall pt', pt' <> kill_group ->
        algorithm_switch_history sw' pt'
        = algorithm_switch_history new_AlgorithmSwitcher pt')
  /\ rotation_counter sw' kill_group = 0
  /\ match out.2 with
     | Ok (_, record) =>
         algorithm_switch_history sw' kill_group
         = keep_last 50
             (algorithm_switch_history new_AlgorithmSwitcher kill_group ++ [record])
         /\ list.last (algorithm_switch_history sw' kill_group) = Some record
     | Raise _ =>
         algorithm_switch_history sw'
         = algorithm_switch_history new_AlgorithmSwitcher
         /\ out.1.2 = loaded_perf_data
     end.
Proof.
  apply (select_next_algorithm_history_bounded kill_group 2
           (Ok (3, [Lit "智能探索"])) 0 3 new_AlgorithmSwitcher loaded_perf_data).
  simpl. lia.
Defined.

(** X18. With algorithm 1 current, more than 10 predictions in its record
    and the forced exploration of the type not yet done,
    [select_next_algorithm] returns the forced pick, not the algorithm it
    chose; the record it returns and appends to the history still names the
    chosen algorithm with the reason of the choice, and the switch time has
    been written into the record of the chosen algorithm.  The forced
    exploration of the type is then marked as done. *)
Theorem forced_exploration_overrides_choice (pt : pred_type)
    (chosen_algo : Z) (chosen_reason : fstring) (now forced_pick : Z)
    (sw : AlgorithmSwitcher) (pd : gmap Z perf) (p1 pc : perf) :
  pd !! 1 = Some p1 ->
  10 < total_predictions p1 ->
  pd !! chosen_algo = Some pc ->
  forced_exploration_done sw pt = false ->
  exists (sw' : AlgorithmSwitcher) (pd' : gmap Z perf) (record : switch_record),
    select_next_algorithm pt 1 (Ok (chosen_algo, chosen_reason)) now forced_pick
      (sw, pd)
    = ((sw', pd'), Ok (forced_pick, record))
    /\ from_algo record = 1
    /\ to_algo record = chosen_algo
    /\ reason record = chosen_reason
    /\ list.last (algorithm_switch_history sw' pt) = Some record
    /\ forced_exploration_done sw' pt = true
    /\ pd' = <[chosen_algo := with_last_switch_time (total_predictions p1) pc]> pd.
Proof.
  intros H1 Ht Hc Hd. unfold select_next_algorithm. run_action.
  unfold perf_at at 1. rewrite H1. run_action.
  unfold perf_at at 1. rewrite Hc. run_action.
  unfold perf_at at 1.
  assert (exists p1', <[chosen_algo := with_last_switch_time (total_predictions p1) pc]> pd
                        !! 1 = Some p1'
                      /\ total_predictions p1' = total_predictions p1)
    as (p1' & Hp1' & Ht').
  { destruct (decide (chosen_algo = 1)) as [->|Hne].
    - rewrite lookup_insert_eq. eexists. split; [reflexivity|]. simpl.
      rewrite H1 in Hc. by injection Hc as ->.
    - rewrite lookup_insert_ne by done. eauto. }
  rewrite Hp1'. run_action. unfold perf_at at 1. rewrite lookup_insert_eq.
  run_action. rewrite Hd, Ht'.
  destruct (Z.gtb_spec (total_predictions p1) 10) as [_|]; [|lia].
  run_action.
  eexists _, _, _. split; [reflexivity|]. simpl.
  rewrite !fn_lookup_insert. repeat split; try done.
  destruct (algorithm_switch_history sw pt) as [|r0 l]; [done|].
  destruct (len _ >? 50).
  - unfold pop_front. simpl. by rewrite last_snoc.
  - by rewrite last_snoc.
Qed.

Lemma forced_exploration_overrides_choice_witness :
  exists (sw' : AlgorithmSwitcher) (pd' : gmap Z perf) (record : switch_record),
    select_next_algorithm single_double 1 (Ok (2, [Lit "智能探索"])) 0 3
      (new_AlgorithmSwitcher, veteran_perf_data)
    = ((sw', pd'), Ok (3, record))
    /\ from_algo record = 1
    /\ to_algo record = 2
    /\ reason record = [Lit "智能探索"]
    /\ list.last (algorithm_switch_history sw' single_double) = Some record
    /\ forced_exploration_done sw' single_double = true
    /\ pd' = <[2 := with_last_switch_time (total_predictions veteran_perf) initial_perf]>
               veteran_perf_data.
Proof.
  apply (forced_exploration_overrides_choice single_double 2 [Lit "智能探索"] 0 3
           new_AlgorithmSwitcher veteran_perf_data veteran_perf initial_perf).
  - reflexivity.
  - simpl. lia.
  - reflexivity.
  - reflexivity.
Defined.

(** X19. When [select_next_algorithm] returns, the algorithm it returns is
    the one its record names, unless the forced exploration fired: that
    needs algorithm 1 as the current one and the exploration of the type
    not yet done, returns the forced pick and marks the exploration as
    done.  Once it is marked as done, the returned algorithm is always the
    recorded one and the marks stay as they are, until
    [reset_forced_exploration] clears them all. *)
Theorem forced_exploration_fires_once (pt : pred_type) (current_algo : Z)
    (chosen : result (Z * fstring)) (now forced_pick : Z)
    (sw sw' : AlgorithmSwitcher) (pd pd' : gmap Z perf)
    (next_algo : Z) (record : switch_record) :
  select_next_algorithm pt current_algo chosen now forced_pick (sw, pd)
  = ((sw', pd'), Ok (next_algo, record)) ->
  (forced_exploration_done sw pt = true ->
   next_algo = to_algo record
   /\ forced_exploration_done sw' = forced_exploration_done sw)
  /\ (next_algo <> to_algo record ->
      current_algo = 1 /\ next_algo = forced_pick
      /\ forced_exploration_done sw pt = false
      /\ forced_exploration_done sw' pt = true)
  /\ (forall pt', forced_exploration_done (reset_forced_exploration sw') pt' = false).
Proof.
  unfold select_next_algorithm. run_action.
  unfold perf_at at 1. destruct (pd !! current_algo) as [current|]; [|done].
  run_action. destruct chosen as [[chosen_algo chosen_reason]|]; [|done].
  run_action. unfold perf_at at 1.
  destruct (pd !! chosen_algo) as [next|]; [|done]. run_action.
  unfold perf_at at 1.
  destruct (<[chosen_algo := _]> pd !! current_algo) as [current'|]; [|done].
  run_action. unfold perf_at at 1. rewrite lookup_insert_eq. run_action.
  destruct (bool_decide (current_algo = 1)) eqn:E1;
    destruct (total_predictions current' >? 10) eqn:E2;
    destruct (forced_exploration_done sw pt) eqn:E3; simpl;
    intros [= <- <- <- <-]; simpl; rewrite ?fn_lookup_insert;
    repeat split; try done;
    by apply bool_decide_eq_true in E1.
Qed.

Lemma forced_exploration_fires_once_witness :
  (forced_exploration_done new_AlgorithmSwitcher single_double = true ->
   3 = to_algo forced_call_record
   /\ forced_exploration_done forced_call.1.1
      = forced_exploration_done new_AlgorithmSwitcher)
  /\ (3 <> to_algo forced_call_record ->
      1 = 1 /\ 3 = 3
      /\ forced_exploration_done new_AlgorithmSwitcher single_double = false
      /\ forced_exploration_done forced_call.1.1 single_double = true)
  /\ (forall pt',
        forced_exploration_done (reset_forced_exploration forced_call.1.1) pt'
        = false).
Proof.
  apply (forced_exploration_fires_once single_double 1
           (Ok (2, [Lit "智能探索"])) 0 3 new_AlgorithmSwitcher forced_call.1.1
           veteran_perf_data forced_call.1.2 3 forced_call_record).
  vm_compute. reflexivity.
Defined.

(** ** The learner's choice *)

(** The scan of [max(items, key=...)]: the item kept is one of the items,
    and no item has a strictly higher value. *)
Lemma fold_best_spec (rest seen : q_row) (best : Z * float) :
  In best seen ->
  (forall item, In item seen -> (snd best <? snd item)%float = false) ->
  let best' :=
    fold_left (fun best item => if (snd best <? snd item)%float then item else best)
      rest best in
  In best' (seen ++ rest)
  /\ forall item, In item (seen ++ rest) -> (snd best' <? snd item)%float = false.
Proof.
  revert seen best. induction rest as [|x rest IH]; intros seen best Hin Hmax; simpl.
  - rewrite app_nil_r. by split.
  - replace (seen ++ x :: rest) with ((seen ++ [x]) ++ rest)
      by (by rewrite <- app_assoc).
    apply IH.
    + destruct (snd best <? snd x)%float; apply in_or_app; [right; by left|by left].
    + intros item Hitem. apply in_app_or in Hitem as [Hitem|[<-|[]]].
      * destruct (snd best <? snd x)%float eqn:E; [|by apply Hmax].
        exact (not_ltb_raise _ _ _ E (Hmax item Hitem)).
      * destruct (snd best <? snd x)%float eqn:E; [apply ltb_irrefl|exact E].
Qed.

(** X20. When the draw does not fall below the exploration rate and the
    state has a non-empty row in the table, [select_algorithm] returns an
    algorithm of that row such that no entry of the row has a higher
    value, and leaves the learner as it is.  The list of available
    algorithms is not consulted. *)
Theorem select_algorithm_exploits_best (self : ReinforcementLearner)
    (state : string) (available : list Z) (draw : float) (pick : nat)
    (row : q_row) :
  (draw <? exploration_rate self)%float = false ->
  q_table self !! state = Some row ->
  row <> [] ->
  exists (a : Z) (v : float),
    select_algorithm state available draw pick self = (self, Ok a)
    /\ In (a, v) row
    /\ forall a' v', In (a', v') row -> (v <? v')%float = false.
Proof.
  intros Hd Hrow Hne. unfold select_algorithm. run_action. rewrite Hd, Hrow.
  run_action. unfold q_table_row. rewrite Hrow. simpl.
  destruct row as [|first rest]; [done|]. simpl.
  destruct (fold_best_spec rest [first] first) as [H1 H2];
    [by left|intros item [<-|[]]; apply ltb_irrefl|].
  cbv zeta in H1, H2. simpl in H1, H2.
  destruct (fold_left _ rest first) as [a v] eqn:E.
  exists a, v. split; [reflexivity|]. split; [exact H1|].
  intros a' v' Hin. exact (H2 (a', v') Hin).
Qed.

Lemma select_algorithm_exploits_best_witness :
  exists (a : Z) (v : float),
    select_algorithm "s" [1; 2; 3] 0.5%float 0 taught_learner
    = (taught_learner, Ok a)
    /\ In (a, v) [(1, 0.5%float); (2, 0.75%float); (3, 0.25%float)]
    /\ forall a' v', In (a', v') [(1, 0.5%float); (2, 0.75%float); (3, 0.25%float)] ->
         (v <? v')%float = false.
Proof.
  apply (select_algorithm_exploits_best taught_learner "s" [1; 2; 3] 0.5%float 0
           [(1, 0.5%float); (2, 0.75%float); (3, 0.25%float)]).
  - vm_compute. reflexivity.
  - reflexivity.
  - discriminate.
Defined.

Lemma row_set_half (k : Z) (row : q_row) :
  Forall (fun item => snd item = 0.5%float) row ->
  Forall (fun item => snd item = 0.5%float) (row_set k 0.5%float row).
Proof.
  induction 1 as [|[k' v'] row Hv Hrow IH]; simpl.
  - by repeat constructor.
  - destruct (bool_decide (k' = k)); constructor; done.
Qed.

Lemma fold_row_set_half (algos : list Z) (k : Z) (row : q_row) :
  Forall (fun item => snd item = 0.5%float) row ->
  exists row',
    fold_left (fun row algo => row_set algo 0.5%float row) algos
      ((k, 0.5%float) :: row)
    = (k, 0.5%float) :: row'
    /\ Forall (fun item => snd item = 0.5%float) row'.
Proof.
  revert row. induction algos as [|a algos IH]; intros row Hrow; simpl.
  - eauto.
  - destruct (bool_decide (k = a)) eqn:E.
    + apply bool_decide_eq_true in E. subst a. by apply IH.
    + apply IH. by apply row_set_half.
Qed.

Lemma fold_row_set_get (algos : list Z) (x : Z) (row : q_row) :
  row_get x (fold_left (fun row algo => row_set algo 0.5%float row) algos row)
  = if bool_decide (x ∈ algos) then Some 0.5%float else row_get x row.
Proof.
  revert row. induction algos as [|a algos IH]; intros row.
  - case_bool_decide as H; [by apply elem_of_nil in H|done].
  - cbn [fold_left]. rewrite IH. destruct (decide (x ∈ algos)) as [Hin|Hin].
    + rewrite (bool_decide_eq_true_2 (x ∈ algos)) by done.
      rewrite (bool_decide_eq_true_2 (x ∈ a :: algos)); [done|].
      apply elem_of_cons; by right.
    + rewrite (bool_decide_eq_false_2 (x ∈ algos)) by done.
      destruct (decide (a = x)) as [->|Hne].
      * rewrite row_get_set_eq.
        rewrite (bool_decide_eq_true_2 (x ∈ x :: algos)); [done|].
        apply elem_of_cons; by left.
      * rewrite row_get_set_ne by done.
        rewrite (bool_decide_eq_false_2 (x ∈ a :: algos)); [done|].
        intros [?|?]%elem_of_cons; congruence.
Qed.

Lemma fold_best_half (rest : q_row) (first : Z * float) :
  snd first = 0.5%float ->
  Forall (fun item => snd item = 0.5%float) rest ->
  fold_left (fun best item => if (snd best <? snd item)%float then item else best)
    rest first
  = first.
Proof.
  intros Hf. induction 1 as [|x rest Hx Hrest IH]; simpl; [done|].
  rewrite Hf, Hx, ltb_irrefl. exact IH.
Qed.

(** X21. When the draw does not fall below the exploration rate and the
    state has no row yet, [select_algorithm] on a non-empty list of
    available algorithms creates the row of the state with the value 0.5
    for exactly the available algorithms and returns the first of them;
    the rows of the other states and the rates are unchanged. *)
Theorem select_algorithm_unseen_state (self : ReinforcementLearner)
    (state : string) (a : Z) (others : list Z) (draw : float) (pick : nat) :
  (draw <? exploration_rate self)%float = false ->
  q_table self !! state = None ->
  exists (self' : ReinforcementLearner) (row : q_row),
    select_algorithm state (a :: others) draw pick self = (self', Ok a)
    /\ q_table self' !! state = Some row
    /\ (forall x, row_get x row
                  = if bool_decide (x ∈ a :: others) then Some 0.5%float else None)
    /\ (forall s, s <> state -> q_table self' !! s = q_table self !! s)
    /\ learning_rate self' = learning_rate self
    /\ discount_factor self' = discount_factor self
    /\ exploration_rate self' = exploration_rate self.
Proof.
  intros Hd Hrow. unfold select_algorithm. run_action. rewrite Hd, Hrow.
  run_action. unfold q_table_row. rewrite lookup_insert_eq.
  destruct (fold_row_set_half others a []) as (row' & Hfold & Hhalf);
    [constructor|].
  pose proof (fun x => fold_row_set_get (a :: others) x []) as Hget.
  cbn [fold_left row_set row_get] in Hget. rewrite Hfold in Hget.
  rewrite Hfold. simpl.
  rewrite (fold_best_half row' (a, 0.5%float)) by done.
  eexists _, _. split; [reflexivity|]. simpl. rewrite lookup_insert_eq.
  split; [reflexivity|]. split; [exact Hget|].
  repeat split; try done. intros s Hs. by rewrite lookup_insert_ne.
Qed.

Lemma select_algorithm_unseen_state_witness :
  exists (self' : ReinforcementLearner) (row : q_row),
    select_algorithm "s" (2 :: [3; 2]) 0.5%float 0 new_ReinforcementLearner
    = (self', Ok 2)
    /\ q_table self' !! "s" = Some row
    /\ (forall x, row_get x row
                  = if bool_decide (x ∈ 2 :: [3; 2]) then Some 0.5%float else None)
    /\ (forall s, s <> "s" ->
          q_table self' !! s = q_table new_ReinforcementLearner !! s)
    /\ learning_rate self' = learning_rate new_ReinforcementLearner
    /\ discount_factor self' = discount_factor new_ReinforcementLearner
    /\ exploration_rate self' = exploration_rate new_ReinforcementLearner.
Proof.
  apply (select_algorithm_unseen_state new_ReinforcementLearner "s" 2 [3; 2]
           0.5%float 0).
  - vm_compute. reflexivity.
  - reflexivity.
Defined.

(** X22. An empty list of available algorithms on an unseen state, when
    the draw does not fall below the exploration rate: [select_algorithm]
    raises [ValueError] and leaves an empty row for the state in the table.
    From that table, [update_q_values] with that state as the next state
    changes no value: it only gives the current state its row of 0.5
    where it has none. *)
Theorem empty_row_blocks_learning (self : ReinforcementLearner)
    (s : string) (draw : float) (pick : nat) :
  (draw <? exploration_rate self)%float = false ->
  q_table self !! s = None ->
  let out := select_algorithm s [] draw pick self in
  out.2 = Raise ValueError
  /\ q_table out.1 !! s = Some []
  /\ forall (state : string) (action : Z) (reward : float),
       q_table (update_q_values state action reward s out.1)
       = ensure_row state (q_table out.1).
Proof.
  intros Hd Hrow. cbv zeta. unfold select_algorithm. run_action.
  rewrite Hd, Hrow. run_action. unfold q_table_row.
  rewrite lookup_insert_eq. simpl. rewrite lookup_insert_eq.
  split; [done|]. split; [done|].
  intros state action reward. unfold update_q_values. simpl.
  match goal with
  | |- context [ensure_row s (ensure_row state ?q1)] =>
      assert (ensure_row state q1 !! s = Some ([] : q_row)) as Hs
        by (rewrite ensure_row_lookup; by rewrite lookup_insert_eq);
      assert (forall q : gmap string q_row, q !! s = Some ([] : q_row) -> ensure_row s q = q)
        as Hens by (intros q Hq; unfold ensure_row; by rewrite Hq);
      rewrite !(Hens _ Hs);
      unfold q_table_row, mbind, result_bind, rbind; rewrite Hs;
      by destruct (ensure_row state q1 !! state)
  end.
Qed.

Lemma empty_row_blocks_learning_witness :
  let out := select_algorithm "s" [] 0.5%float 0 new_ReinforcementLearner in
  out.2 = Raise ValueError
  /\ q_table out.1 !! "s" = Some []
  /\ forall (state : string) (action : Z) (reward : float),
       q_table (update_q_values state action reward "s" out.1)
       = ensure_row state (q_table out.1).
Proof.
  apply (empty_row_blocks_learning new_ReinforcementLearner "s" 0.5%float 0).
  - vm_compute. reflexivity.
  - reflexivity.
Defined.

(** ** The learner's parameters *)

Lemma max_min_bounds (lo hi x : float) :
  (lo <=? lo)%float = true -> (lo <=? hi)%float = true ->
  (hi <=? hi)%float = true ->
  (lo <=? Py.max lo (Py.min hi x))%float = true
  /\ (Py.max lo (Py.min hi x) <=? hi)%float = true.
Proof.
  intros Hlo Hlh Hhi. unfold Py.max, Py.min.
  destruct (x <? hi)%float eqn:E1.
  - destruct (lo <? x)%float eqn:E2.
    + split; by apply ltb_leb.
    + by split.
  - destruct (lo <? hi)%float eqn:E2; by split.
Qed.

(** X23. [adapt_parameters] leaves the learner unchanged when its first
    statement raises, which the iteration count -10 makes it do by a zero
    divisor; otherwise the new exploration rate lies between 0.05 and 0.3,
    whatever the success rate and the old rates are.  The Q-table and the
    discount factor are never changed. *)
Theorem adapt_parameters_exploration_bounds (success_rate : float)
    (iteration_count : Z) (self : ReinforcementLearner) :
  let self' := adapt_parameters success_rate iteration_count self in
  (if adaptation_raises iteration_count then self' = self
   else (0.05 <=? exploration_rate self')%float = true
        /\ (exploration_rate self' <=? 0.3)%float = true)
  /\ q_table self' = q_table self
  /\ discount_factor self' = discount_factor self
  /\ adaptation_raises (-10) = true
  /\ adaptation_raises 1 = false.
Proof.
  cbv zeta. unfold adapt_parameters, adaptation_raises, float_div,
    mbind, result_bind, rbind.
  split; [|split; [|split; [|split; vm_compute; reflexivity]]];
    destruct (float_of_int iteration_count) as [n|]; try done;
    destruct (1 + 0.1 * n =? 0)%float; try done.
  simpl. apply max_min_bounds; vm_compute; reflexivity.
Qed.

(** X24. When the first statement of [adapt_parameters] does not raise,
    the learning rate follows the success rate: above 0.7 it becomes
    [max(0.01, 0.95 * rate)], which is at least 0.01; below 0.4 it becomes
    [min(0.2, 1.05 * rate)], which is at most 0.2; otherwise, also for a
    success rate that is not a number, it stays as it is. *)
Theorem adapt_parameters_learning_rate (success_rate : float)
    (iteration_count : Z) (self : ReinforcementLearner) :
  adaptation_raises iteration_count = false ->
  let self' := adapt_parameters success_rate iteration_count self in
  if (0.7 <? success_rate)%float
  then learning_rate self' = Py.max 0.01 (learning_rate self * 0.95)%float
       /\ (0.01 <=? learning_rate self')%float = true
  else if (success_rate <? 0.4)%float
  then learning_rate self' = Py.min 0.2 (learning_rate self * 1.05)%float
       /\ (learning_rate self' <=? 0.2)%float = true
  else learning_rate self' = learning_rate self.
Proof.
  cbv zeta. unfold adapt_parameters, adaptation_raises, float_div,
    mbind, result_bind, rbind.
  destruct (float_of_int iteration_count) as [n|]; [|done].
  intros ->. simpl.
  destruct (0.7 <? success_rate)%float; [|destruct (success_rate <? 0.4)%float];
    simpl; [| |done]; (split; [done|]).
  - unfold Py.max. destruct (0.01 <? _)%float eqn:E; [by apply ltb_leb|].
    vm_compute. reflexivity.
  - unfold Py.min. destruct (_ <? 0.2)%float eqn:E; [by apply ltb_leb|].
    vm_compute. reflexivity.
Qed.

Lemma adapt_parameters_learning_rate_witness :
  let self' := adapt_parameters 0.9%float 1 new_ReinforcementLearner in
  if (0.7 <? 0.9)%float
  then learning_rate self'
       = Py.max 0.01 (learning_rate new_ReinforcementLearner * 0.95)%float
       /\ (0.01 <=? learning_rate self')%float = true
  else if (0.9 <? 0.4)%float
  then learning_rate self'
       = Py.min 0.2 (learning_rate new_ReinforcementLearner * 1.05)%float
       /\ (learning_rate self' <=? 0.2)%float = true
  else learning_rate self' = learning_rate new_ReinforcementLearner.
Proof.
  apply (adapt_parameters_learning_rate 0.9%float 1 new_ReinforcementLearner).
  vm_compute. reflexivity.
Defined.

(** ** The cycle check *)

(** X25. [_check_cycle] with a cycle length of zero raises [ValueError],
    whatever the sequence is: the length test passes and [range] refuses
    the zero step.  With a negative cycle length it returns [False]: no
    window is checked. *)
Theorem check_cycle_degenerate_length (sequence : list Z) (cycle_length : Z) :
  cycle_length <= 0 ->
  _check_cycle sequence cycle_length
  = if cycle_length =? 0 then Raise ValueError else Ok false.
Proof.
  intros Hc. unfold _check_cycle, range3, len.
  destruct (Z.ltb_spec (Z.of_nat (length sequence)) (cycle_length * 2)); [lia|].
  destruct (Z.eqb_spec cycle_length 0) as [->|Hne]; [done|].
  destruct (Z.ltb_spec 0 cycle_length); [lia|].
  assert ((0 - (Z.of_nat (length sequence) - cycle_length) - cycle_length - 1)
            / - cycle_length < 0) as Hn.
  { apply Z.div_lt_upper_bound; lia. }
  replace (Z.to_nat _) with 0%nat by lia. reflexivity.
Qed.

Lemma check_cycle_degenerate_length_witness :
  _check_cycle [1; 0; 1; 0] (-2) = if -2 =? 0 then Raise ValueError else Ok false.
Proof.
  apply (check_cycle_degenerate_length [1; 0; 1; 0] (-2)). lia.
Defined.

(** X26. For a positive cycle length [c] and a sequence of at least [2c]
    and at most [3c] elements, [_check_cycle] returns [True] whatever the
    elements are: it checks one or two windows, the first of which is the
    pattern itself, so at least half of them match. *)
Theorem check_cycle_short_sequence (sequence : list Z) (cycle_length : Z) :
  0 < cycle_length ->
  cycle_length * 2 <= len sequence <= cycle_length * 3 ->
  _check_cycle sequence cycle_length = Ok true.
Proof.
  intros Hc [Hlo Hhi]. unfold _check_cycle, range3.
  destruct (Z.ltb_spec (len sequence) (cycle_length * 2)); [lia|].
  destruct (Z.eqb_spec cycle_length 0); [lia|].
  destruct (Z.ltb_spec 0 cycle_length); [|lia].
  set (k := (len sequence - cycle_length - 0 + cycle_length - 1) / cycle_length).
  assert (k = 1 \/ k = 2) as Hn.
  { assert (1 <= k) by (apply Z.div_le_lower_bound; lia).
    assert (k < 3) by (apply Z.div_lt_upper_bound; lia). lia. }
  unfold mbind, result_bind, rbind.
  destruct Hn as [-> | ->]; simpl.
  - rewrite filter_cons, decide_True by done. reflexivity.
  - rewrite filter_cons, decide_True by done.
    rewrite filter_cons. case_decide; rewrite filter_nil; vm_compute; reflexivity.
Qed.

Lemma check_cycle_short_sequence_witness :
  _check_cycle [1; 1; 0; 0; 1] 2 = Ok true.
Proof.
  apply (check_cycle_short_sequence [1; 1; 0; 0; 1] 2).
  - lia.
  - vm_compute. split; discriminate.
Defined.

(** ** The judge *)

(** X27. For the odd/even type the verdict of
    [check_prediction_correctness] is whether the prediction text contains
    the character of the actual outcome, "单" for odd and "双" for even,
    and for the big/small type whether it contains "大" for big and "小"
    for small; a missing key of the outcome counts as [False].  So a text
    that contains both characters of a type is judged correct for every
    outcome. *)
Theorem judge_by_containment (prediction : string) (actual : actual_data) :
  check_prediction_correctness single_double prediction actual
  = contains (if default false (is_odd actual) then "单" else "双") prediction
  /\ check_prediction_correctness big_small prediction actual
     = contains (if default false (is_big actual) then "大" else "小") prediction.
Proof.
  unfold check_prediction_correctness. split.
  - destruct (default false (is_odd actual)); simpl String.eqb;
      by rewrite ?andb_true_r, ?andb_false_r, ?orb_false_r.
  - destruct (default false (is_big actual)); simpl String.eqb;
      by rewrite ?andb_true_r, ?andb_false_r, ?orb_false_r.
Qed.

Lemma actual_result_cases (actual : actual_data) :
  actual_result actual = "大单"%string \/ actual_result actual = "大双"%string
  \/ actual_result actual = "小单"%string \/ actual_result actual = "小双"%string.
Proof.
  unfold actual_result.
  destruct (default false (is_big actual)), (default false (is_odd actual));
    simpl; tauto.
Qed.

Lemma remove_from_absent (old s : string) :
  contains old s = false -> remove_from old 0 s = s.
Proof.
  induction s as [|c s IH]; [done|].
  cbn [contains remove_from]. intros [Hp Hc]%orb_false_iff.
  rewrite Hp. by rewrite IH.
Qed.

(** X28. For the kill-group type, a prediction text without the character
    "杀" is judged correct for every outcome; the text "杀" followed by a
    combination is judged correct exactly when the combination is not the
    actual one. *)
Theorem kill_group_verdict (combo : string) (actual : actual_data) :
  contains "杀" combo = false ->
  check_prediction_correctness kill_group combo actual = true
  /\ check_prediction_correctness kill_group ("杀" ++ combo) actual
     = negb (String.eqb combo (actual_result actual)).
Proof.
  intros Hc. unfold check_prediction_correctness. split.
  - rewrite Hc.
    by destruct (actual_result_cases actual) as [->|[->|[->| ->]]].
  - assert (contains "杀" ("杀" ++ combo) = true) as ->
      by (destruct combo; reflexivity).
    assert (remove_from "杀" 0 ("杀" ++ combo) = remove_from "杀" 0 combo) as E
      by (destruct combo; reflexivity).
    unfold remove_all. rewrite bool_decide_eq_false_2 by done.
    by rewrite E, remove_from_absent.
Qed.

Lemma kill_group_verdict_witness :
  check_prediction_correctness kill_group "大单"
    {| is_big := Some true; is_odd := None |} = true
  /\ check_prediction_correctness kill_group ("杀" ++ "大单")
       {| is_big := Some true; is_odd := None |}
     = negb (String.eqb "大单"
               (actual_result {| is_big := Some true; is_odd := None |})).
Proof.
  apply (kill_group_verdict "大单" {| is_big := Some true; is_odd := None |}).
  vm_compute. reflexivity.
Defined.

Lemma prefix_nil (s : string) : String.prefix "" s = true.
Proof. by destruct s. Qed.

Lemma contains_char_cons (c a : ascii) (x : string) :
  contains (String c "") (String a x)
  = bool_decide (a = c) || contains (String c "") x.
Proof.
  cbn [contains String.prefix]. rewrite prefix_nil.
  destruct (ascii_dec c a) as [->|Hne].
  - by rewrite bool_decide_eq_true_2.
  - rewrite bool_decide_eq_false_2 by congruence. by destruct x.
Qed.

Lemma contains_char_app (c : ascii) (x y : string) :
  contains (String c "") (x +:+ y)
  = contains (String c "") x || contains (String c "") y.
Proof.
  induction x as [|a x IH]; [done|].
  change (String a x +:+ y) with (String a (x +:+ y)).
  by rewrite !contains_char_cons, IH, orb_assoc.
Qed.

Lemma split_on_app (sep : ascii) (x rest : string) :
  contains (String sep "") x = false ->
  exists p ps,
    split_on sep rest = p :: ps /\ split_on sep (x +:+ rest) = (x +:+ p) :: ps.
Proof.
  induction x as [|a x IH]; intros Hx.
  - change ("" +:+ rest) with rest.
    destruct rest as [|b rest]; simpl; [by eauto|].
    destruct (bool_decide (b = sep)); [by eauto|].
    destruct (split_on sep rest); by eauto.
  - rewrite contains_char_cons in Hx. apply orb_false_iff in Hx as [Ha Hx].
    destruct (IH Hx) as (p & ps & E1 & E2). exists p, ps. split; [done|].
    change (String a x +:+ rest) with (String a (x +:+ rest)).
    change (String a x +:+ p) with (String a (x +:+ p)).
    cbn [split_on]. by rewrite Ha, E2.
Qed.

Lemma append_nil_r (x : string) : x +:+ "" = x.
Proof.
  induction x as [|a x IH]; [done|].
  change (String a x +:+ "") with (String a (x +:+ "")). by rewrite IH.
Qed.

Lemma split_on_sep (sep : ascii) (x rest : string) :
  contains (String sep "") x = false ->
  split_on sep (x +:+ String sep rest) = x :: split_on sep rest.
Proof.
  intros Hx. destruct (split_on_app sep x (String sep rest) Hx)
    as (p & ps & E1 & E2).
  cbn [split_on] in E1. rewrite bool_decide_eq_true_2 in E1 by done.
  injection E1 as <- <-. by rewrite E2, append_nil_r.
Qed.

Lemma split_on_join (sep : ascii) (parts : list string) :
  Forall (fun p => contains (String sep "") p = false) parts ->
  split_on sep (join_with sep parts) = if parts is [] then [""%string] else parts.
Proof.
  induction 1 as [|p parts Hp Hparts IH]; [done|].
  destruct parts as [|q parts].
  - simpl. destruct (split_on_app sep p "" Hp) as (p' & ps & E1 & E2).
    injection E1 as <- <-. by rewrite append_nil_r in E2.
  - change (join_with sep (p :: q :: parts))
      with (p +:+ String sep (join_with sep (q :: parts))).
    rewrite split_on_sep by done. by rewrite IH.
Qed.

Lemma contains_char_join (c sep : ascii) (parts : list string) :
  sep <> c ->
  Forall (fun p => contains (String c "") p = false) parts ->
  contains (String c "") (join_with sep parts) = false.
Proof.
  intros Hne. induction 1 as [|p parts Hp Hparts IH]; [done|].
  destruct parts as [|q parts]; [done|].
  change (join_with sep (p :: q :: parts))
    with (p +:+ String sep (join_with sep (q :: parts))).
  rewrite contains_char_app, contains_char_cons, Hp, IH.
  by rewrite bool_decide_eq_false_2.
Qed.

Lemma existsb_eqb (a : string) (parts : list string) :
  existsb (fun combo => String.eqb combo a) parts = bool_decide (a ∈ parts).
Proof.
  induction parts as [|p parts IH].
  - case_bool_decide as H; [by apply elem_of_nil in H|done].
  - cbn [existsb]. rewrite IH. destruct (String.eqb_spec p a) as [->|Hne].
    + rewrite (bool_decide_eq_true_2 (a ∈ a :: parts)); [done|].
      apply elem_of_cons. by left.
    + rewrite orb_false_l. destruct (decide (a ∈ parts)) as [Hin|Hin].
      * rewrite (bool_decide_eq_true_2 (a ∈ parts)) by done.
        rewrite (bool_decide_eq_true_2 (a ∈ p :: parts)); [done|].
        apply elem_of_cons. by right.
      * rewrite (bool_decide_eq_false_2 (a ∈ parts)) by done.
        rewrite (bool_decide_eq_false_2 (a ∈ p :: parts)); [done|].
        intros [?|?]%elem_of_cons; congruence.
Qed.

(** X29. For the double-group type, on a prediction text made of
    combinations joined by "/" (none of them containing "/" or ":"), the
    verdict of [check_prediction_correctness] is whether the actual
    combination is one of them; a suffix of the text that starts with ":"
    changes nothing, whatever it holds. *)
Theorem double_group_verdict (parts : list string) (suffix : string)
    (actual : actual_data) :
  Forall (fun p => contains "/" p = false /\ contains ":" p = false) parts ->
  check_prediction_correctness double_group (join_with "/" parts) actual
  = bool_decide (actual_result actual ∈ parts)
  /\ check_prediction_correctness double_group
       (join_with "/" parts +:+ String ":" suffix) actual
     = bool_decide (actual_result actual ∈ parts).
Proof.
  intros Hparts.
  assert (Forall (fun p => contains "/" p = false) parts) as Hslash
    by (eapply List.Forall_impl; [|exact Hparts]; by intros p [? ?]).
  assert (Forall (fun p => contains ":" p = false) parts) as Hcolon
    by (eapply List.Forall_impl; [|exact Hparts]; by intros p [? ?]).
  assert (existsb (fun combo => String.eqb combo (actual_result actual))
            (split_on "/" (join_with "/" parts))
          = bool_decide (actual_result actual ∈ parts)) as Hverdict.
  { rewrite (split_on_join "/" parts Hslash). destruct parts as [|p parts].
    - case_bool_decide as H; [by apply elem_of_nil in H|].
      by destruct (actual_result_cases actual) as [->|[->|[->| ->]]].
    - apply existsb_eqb. }
  unfold check_prediction_correctness. split.
  - by rewrite (contains_char_join ":" "/" parts) by done.
  - rewrite contains_char_app, contains_char_cons.
    rewrite (bool_decide_eq_true_2 (":"%char = ":"%char)) by done.
    rewrite orb_true_r.
    rewrite (split_on_sep ":" (join_with "/" parts) suffix)
      by (by apply contains_char_join).
    exact Hverdict.
Qed.

Lemma double_group_verdict_witness :
  check_prediction_correctness double_group (join_with "/" ["大单"; "小双"]%string)
    {| is_big := Some false; is_odd := Some false |}
  = bool_decide (actual_result {| is_big := Some false; is_odd := Some false |}
                   ∈ ["大单"; "小双"]%string)
  /\ check_prediction_correctness double_group
       (join_with "/" ["大单"; "小双"]%string +:+ String ":" "03,14")
       {| is_big := Some false; is_odd := Some false |}
     = bool_decide (actual_result {| is_big := Some false; is_odd := Some false |}
                      ∈ ["大单"; "小双"]%string).
Proof.
  apply (double_group_verdict ["大单"; "小双"]%string "03,14"
           {| is_big := Some false; is_odd := Some false |}).
  repeat constructor.
Defined.

(** X30. [judge_batch_predictions] returns one verdict per prediction, in
    order, each the verdict of [check_prediction_correctness] on the
    prediction and the outcome at the same position, when the two lists
    have the same length; when they have not, it returns the empty list. *)
Theorem judge_batch_predictions_pointwise (pt : pred_type)
    (predictions : list string) (results : list actual_data) :
  let verdicts := judge_batch_predictions pt predictions results in
  length verdicts
  = (if bool_decide (length predictions = length results)
     then length predictions else 0%nat)
  /\ forall (i : nat) (v : bool), verdicts !! i = Some v ->
       exists p a, predictions !! i = Some p /\ results !! i = Some a
                   /\ v = check_prediction_correctness pt p a.
Proof.
  cbv zeta. unfold judge_batch_predictions, len.
  destruct (Z.eqb_spec (Z.of_nat (length predictions)) (Z.of_nat (length results)))
    as [E|E]; simpl.
  - apply Nat2Z.inj in E. rewrite bool_decide_eq_true_2 by done.
    split.
    + rewrite length_map, length_combine. lia.
    + intros i v Hv. rewrite list_lookup_fmap in Hv.
      destruct (combine predictions results !! i) as [[p a]|] eqn:Hi; [|done].
      injection Hv as <-. exists p, a.
      revert i results E Hi. induction predictions as [|p0 ps IH];
        intros i results E Hi; [done|].
      destruct results as [|a0 rs]; [done|]. destruct i as [|i]; simpl in *.
      * by injection Hi as -> ->.
      * apply (IH i rs); [lia|done].
  - rewrite bool_decide_eq_false_2 by lia. split; [done|]. by intros i v ?.
Qed.
